(** * Streak-Up: the habit tracker's model layer and views

    A shallow embedding of [habit/models.py], [habit/forms.py] and
    [habit/views.py].  The relational store is a record of finite maps
    from primary keys to rows; model methods and views are computations
    in a state-and-exception monad over that store, so that a raised
    exception keeps whatever had been written before it (the source wraps
    no view in a transaction).

    Integers are Python [int]s and live in [Z]; primary keys are [nat];
    a calendar date is its proleptic ordinal in [Z]; a [str] is kept as
    its UTF-8 bytes; a [float] is a binary64 number of [SpecFloat]. *)

From stdpp Require Import gmap strings list fin_maps pretty.
From Stdlib Require Import ZArith Lia.
From Stdlib Require Import Floats.SpecFloat.

(** ** Values *)

(** [len(x)] of a [str]: its code points, that is the bytes that do not
    continue a character (10xxxxxx). *)
Definition continues (a : Ascii.ascii) : bool :=
  match a with
  | Ascii.Ascii _ _ _ _ _ _ false true => true
  | _ => false
  end.

Fixpoint len (x : string) : nat :=
  match x with
  | EmptyString => 0
  | String a x => (if continues a then 0 else 1) + len x
  end.

(** What [json.loads] gives: the value of a [JSONField].  A number that
    is not an integer is kept as written, [m] times ten to the [e]; an
    object keeps its members in the order read. *)
#[warnings="-register-all"]
Inductive json : Type :=
  | JNull
  | JBool (b : bool)
  | JInt (z : Z)
  | JFloat (m e : Z)
  | JStr (x : string)
  | JList (l : list json)
  | JDict (d : list (string * json)).

(** [bool(v)] *)
Definition truthy (v : json) : bool :=
  match v with
  | JNull => false
  | JBool b => b
  | JInt z => negb (z =? 0)%Z
  | JFloat m _ => negb (m =? 0)%Z
  | JStr x => negb (bool_decide (x = ""))
  | JList l => match l with [] => false | _ => true end
  | JDict d => match d with [] => false | _ => true end
  end.

(** [d.get(key)] on a [dict]: of members with the same name the last one
    read counts. *)
Definition dict_get (d : list (string * json)) (key : string) : option json :=
  (λ kv, kv.2.2) <$> list_find (λ kv, kv.1 = key) (reverse d).

(** ** Floats

    A Python [float] is an IEEE 754 binary64 number: 53 bits of
    precision, exponents up to 1024, every operation rounded to nearest
    with ties to even. *)
Definition prec : Z := 53.
Definition emax : Z := 1024.

(** An [int] as the float of that value before any rounding. *)
Definition exact_int (z : Z) : spec_float :=
  match z with
  | Z0 => S754_zero false
  | Zpos p => S754_finite false p 0
  | Zneg p => S754_finite true p 0
  end.

(** [float(z)]. *)
Definition float_of_int (z : Z) : spec_float := binary_normalize prec emax z 0 false.

(** The integer nearest to [m * 2^e], the even one of two that are
    equally near. *)
Definition nearest_even (m e : Z) : Z :=
  match e with
  | Zneg p =>
      let d := (2 ^ Zpos p)%Z in
      let q := (m / d)%Z in
      match (2 * (m mod d) ?= d)%Z with
      | Lt => q
      | Gt => (q + 1)%Z
      | Eq => if Z.even q then q else (q + 1)%Z
      end
  | _ => (m * 2 ^ e)%Z
  end.

(** The float nearest to the decimal [n / 10^k] for [n >= 0], with the
    sign [s]: what reading the decimal string gives. *)
Definition decimal (s : bool) (n : Z) (k : nat) : spec_float :=
  match n with
  | Zpos p => SFdiv prec emax (S754_finite s p 0) (exact_int (10 ^ Z.of_nat k))
  | _ => S754_zero s
  end.

(** ** Rows *)

(** [class User]: the fields the views read or write (nickname, avatar,
    time zone, bio and the account flags are left out). *)
Module User.
Record t : Type := mk {
  pk : option nat;
  email : string;
  username : string;
  contact : option string;
  points : Z
}.
End User.

(** [class Habit], without category, description, time of day, unit,
    status and creation time. *)
Module Habit.
Record t : Type := mk {
  pk : option nat;
  user : nat;
  name : string;
  frequency : string;
  custom_days : option json;            (* [None] is Python's [None] *)
  target_per_day : Z;
  is_active : bool;
  start_date : Z;
  end_date : option Z
}.
End Habit.

(** [class HabitLog].  [habit] is [None] on an instance whose foreign key
    has not been assigned yet (a fresh [HabitLog()] bound to a form). *)
Module HabitLog.
Record t : Type := mk {
  pk : option nat;
  habit : option nat;
  date : Z;
  progress : Z;
  completed : bool;
  status : string
}.
End HabitLog.

(** [class Streak], without its start and end dates. *)
Module Streak.
Record t : Type := mk {
  pk : option nat;
  user : nat;
  habit : nat;
  longest_streak : Z;
  current_streak : Z;
  is_active : bool;
  last_completed : option Z
}.
End Streak.

(** [class Friendship], without its creation time. *)
Module Friendship.
Record t : Type := mk {
  pk : option nat;
  user : nat;
  friend : nat
}.
End Friendship.

(** [class FriendRequest], without its timestamp.  The two foreign keys
    are [None] on an instance that was built without them. *)
Module FriendRequest.
Record t : Type := mk {
  pk : option nat;
  from_user : option nat;
  to_user : option nat;
  is_accepted : bool
}.
End FriendRequest.

(** [class Reward].  [user] is [None] on an instance built without an
    owner (what [RewardForm] yields). *)
Module Reward.
Record t : Type := mk {
  pk : option nat;
  user : option nat;
  title : string;
  description : string;
  points_required : Z;
  is_claimed : bool;
  created_at : Z
}.
End Reward.

(** ** The store *)

Inductive level : Type := SUCCESS | ERROR | INFO.

Record Store : Type := mkStore {
  users : gmap nat User.t;
  habits : gmap nat Habit.t;
  habit_logs : gmap nat HabitLog.t;
  streaks : gmap nat Streak.t;
  friendships : gmap nat Friendship.t;
  friend_requests : gmap nat FriendRequest.t;
  rewards : gmap nat Reward.t;
  flash : list (level * string)      (* django.contrib.messages *)
}.

Definition empty_store : Store :=
  mkStore ∅ ∅ ∅ ∅ ∅ ∅ ∅ [].

Definition set_users (f : gmap nat User.t → gmap nat User.t) (s : Store) : Store :=
  mkStore (f (users s)) (habits s) (habit_logs s) (streaks s)
          (friendships s) (friend_requests s) (rewards s) (flash s).
Definition set_habits (f : gmap nat Habit.t → gmap nat Habit.t) (s : Store) : Store :=
  mkStore (users s) (f (habits s)) (habit_logs s) (streaks s)
          (friendships s) (friend_requests s) (rewards s) (flash s).
Definition set_habit_logs (f : gmap nat HabitLog.t → gmap nat HabitLog.t) (s : Store) : Store :=
  mkStore (users s) (habits s) (f (habit_logs s)) (streaks s)
          (friendships s) (friend_requests s) (rewards s) (flash s).
Definition set_streaks (f : gmap nat Streak.t → gmap nat Streak.t) (s : Store) : Store :=
  mkStore (users s) (habits s) (habit_logs s) (f (streaks s))
          (friendships s) (friend_requests s) (rewards s) (flash s).
Definition set_friendships (f : gmap nat Friendship.t → gmap nat Friendship.t) (s : Store) : Store :=
  mkStore (users s) (habits s) (habit_logs s) (streaks s)
          (f (friendships s)) (friend_requests s) (rewards s) (flash s).
Definition set_friend_requests (f : gmap nat FriendRequest.t → gmap nat FriendRequest.t) (s : Store) : Store :=
  mkStore (users s) (habits s) (habit_logs s) (streaks s)
          (friendships s) (f (friend_requests s)) (rewards s) (flash s).
Definition set_rewards (f : gmap nat Reward.t → gmap nat Reward.t) (s : Store) : Store :=
  mkStore (users s) (habits s) (habit_logs s) (streaks s)
          (friendships s) (friend_requests s) (f (rewards s)) (flash s).
Definition set_flash (f : list (level * string) → list (level * string)) (s : Store) : Store :=
  mkStore (users s) (habits s) (habit_logs s) (streaks s)
          (friendships s) (friend_requests s) (rewards s) (f (flash s)).

(** ** Exceptions and the monad *)

Inductive exn : Type :=
  | ValidationError (errors : list (string * string))   (* field, message *)
  | Http404
  | AttributeError (attr : string)
  | KeyError (key : string)
  | TypeError
  | ZeroDivisionError
  | OverflowError
  | ObjectDoesNotExist (model : string)            (* Model.DoesNotExist *)
  | RelatedObjectDoesNotExist (field : string)     (* a foreign key never assigned *)
  | MultipleObjectsReturned
  | IntegrityError (constraint : string).

Inductive outcome (A : Type) : Type :=
  | Returned (a : A)
  | Raised (e : exn).
Arguments Returned {A} a.
Arguments Raised {A} e.

Definition M (A : Type) : Type := Store → outcome A * Store.

Definition ret {A} (a : A) : M A := λ s, (Returned a, s).
Definition raise {A} (e : exn) : M A := λ s, (Raised e, s).
Definition bind {A B} (m : M A) (k : A → M B) : M B :=
  λ s, match m s with
       | (Returned a, s') => k a s'
       | (Raised e, s') => (Raised e, s')
       end.
Definition get : M Store := λ s, (Returned s, s).
Definition modify (f : Store → Store) : M unit := λ s, (Returned tt, f s).

(** [try: m except ...: h e] for the handlers that catch. *)
Definition try_except {A} (m : M A) (h : exn → option (M A)) : M A :=
  λ s, match m s with
       | (Returned a, s') => (Returned a, s')
       | (Raised e, s') =>
           match h e with
           | Some k => k s'
           | None => (Raised e, s')
           end
       end.

Declare Scope py_scope.
Delimit Scope py_scope with py.
Notation "x <- m ;; k" := (bind m (λ x, k))
  (at level 100, m at next level, right associativity) : py_scope.
Notation "m ;;; k" := (bind m (λ _, k))
  (at level 100, right associativity) : py_scope.
Local Open Scope py_scope.

(** ** The object manager: what the views use of the ORM *)

(** The next auto-increment key of a table (keys start at 1). *)
Definition next_pk {R} (table : gmap nat R) : nat := fresh ({[0]} ∪ dom table).

(** [Model.objects.filter(...)] as the list of matching (pk, row). *)
Definition objects_filter {R} (P : R → bool) (table : gmap nat R) : list (nat * R) :=
  map_to_list (filter (λ kv, P kv.2 = true) table).

Definition objects_exists {R} (P : R → bool) (table : gmap nat R) : bool :=
  match objects_filter P table with [] => false | _ => true end.

(** [Model.objects.get(...)]: exactly one row or an exception. *)
Inductive got (R : Type) : Type :=
  | One (k : nat) (r : R)
  | DoesNotExist
  | Multiple.
Arguments One {R} k r.
Arguments DoesNotExist {R}.
Arguments Multiple {R}.

Definition objects_get {R} (P : R → bool) (table : gmap nat R) : got R :=
  match objects_filter P table with
  | [] => DoesNotExist
  | [(k, r)] => One k r
  | _ => Multiple
  end.

(** [messages.success], [messages.error], [messages.info] *)
Definition messages_add (l : level) (text : string) : M unit :=
  modify (set_flash (λ ms, ms ++ [(l, text)])).

(** What a view hands back. *)
Inductive response : Type :=
  | Redirect (to : string) (arg : option nat)
  | Render (template : string).

(** ** [django.db.models.Model]: save, delete, lookup by key

    One table at a time: where it lives in the store, how an instance
    carries its key, and the constraints the schema puts on the table
    (uniqueness, NOT NULL, CHECK for the positive integer fields,
    foreign keys). *)
Section Model.
Context {R : Type}.
Variable table : Store → gmap nat R.
Variable set_table : (gmap nat R → gmap nat R) → Store → Store.
Variable get_pk : R → option nat.
Variable with_pk : nat → R → R.
Variable violated : Store → nat → R → option string.

(** [Model.save]: INSERT under the next key when the instance has none,
    else write the row under its key; the table's constraints are checked
    on the way. *)
Definition Model_save (self : R) : M R :=
  s <- get ;;
  let k := default (next_pk (table s)) (get_pk self) in
  let row := with_pk k self in
  match violated s k row with
  | Some c => raise (IntegrityError c)
  | None => modify (set_table (insert k row)) ;;; ret row
  end.

(** [Model.delete] *)
Definition Model_delete (self : R) : M unit :=
  match get_pk self with
  | Some k => modify (set_table (delete k))
  | None => ret tt
  end.

(** [Model.objects.get_or_create] on the given filters, with the
    instance to insert when no row matches. *)
Definition get_or_create (filters : R → bool) (new : R) : M (R * bool) :=
  s <- get ;;
  match objects_get filters (table s) with
  | One k r => ret (with_pk k r, false)
  | Multiple => raise MultipleObjectsReturned
  | DoesNotExist => r <- Model_save new ;; ret (r, true)
  end.

(** [get_object_or_404(Model, pk=k, ...)] with the further filters. *)
Definition get_object_or_404 (k : nat) (filters : R → bool) : M R :=
  s <- get ;;
  match table s !! k with
  | Some r => if filters r then ret (with_pk k r) else raise Http404
  | None => raise Http404
  end.
End Model.

(** [Model.full_clean]: [clean_fields], [clean], [validate_unique].  It
    gathers the [ValidationError]s of the three stages and raises them
    together; uniqueness is not checked on a field that already has an
    error; any other exception passes through. *)
Definition collect (m : M unit) : M (list (string * string)) :=
  try_except (m ;;; ret [])
    (λ e, match e with ValidationError errs => Some (ret errs) | _ => None end).

Definition full_clean (clean_fields clean : M unit)
    (validate_unique : list string → M unit) : M unit :=
  e1 <- collect clean_fields ;;
  e2 <- collect clean ;;
  e3 <- collect (validate_unique (fst <$> (e1 ++ e2))) ;;
  match e1 ++ e2 ++ e3 with
  | [] => ret tt
  | errs => raise (ValidationError errs)
  end.

Definition excluded (field : string) (exclude : list string) : bool :=
  bool_decide (field ∈ exclude).

(** ** HabitLog *)

Definition HabitLog_with_pk (k : nat) (self : HabitLog.t) : HabitLog.t :=
  HabitLog.mk (Some k) (HabitLog.habit self) (HabitLog.date self)
    (HabitLog.progress self) (HabitLog.completed self) (HabitLog.status self).

Definition STATUS_CHOICES : list string := ["pending"; "done"].

(** [self.habit]: reading the foreign key loads the habit; it raises on
    an instance whose habit was never assigned. *)
Definition HabitLog_get_habit (self : HabitLog.t) : M Habit.t :=
  s <- get ;;
  match HabitLog.habit self with
  | None => raise (RelatedObjectDoesNotExist "habit")
  | Some h =>
      match habits s !! h with
      | Some habit => ret habit
      | None => raise (ObjectDoesNotExist "Habit")
      end
  end.

(** Rows that would clash with [self] on [unique_together = ('habit', 'date')]. *)
Definition HabitLog_clash (k : option nat) (self : HabitLog.t) (k' : nat) (r : HabitLog.t) : bool :=
  bool_decide (HabitLog.habit r = HabitLog.habit self)
  && bool_decide (HabitLog.date r = HabitLog.date self)
  && negb (bool_decide (k = Some k')).

Definition HabitLog_has_clash (s : Store) (k : option nat) (self : HabitLog.t) : bool :=
  bool_decide (map_Exists (λ k' r, HabitLog_clash k self k' r = true) (habit_logs s)).

(** The table's constraints. *)
Definition HabitLog_violated (s : Store) (k : nat) (row : HabitLog.t) : option string :=
  match HabitLog.habit row with
  | None => Some "NOT NULL habit_id"
  | Some h =>
      if bool_decide (habits s !! h = None) then Some "FOREIGN KEY habit_id"
      else if (HabitLog.progress row <? 0)%Z then Some "CHECK progress >= 0"
      else if HabitLog_has_clash s (Some k) row then Some "UNIQUE habit_id, date"
      else None
  end.

(** Field validation: the foreign key must name a habit, [progress] is a
    positive integer field (the bound 0 is the column type's, as in the
    table's CHECK), [status] has [STATUS_CHOICES]. *)
Definition HabitLog_clean_fields (self : HabitLog.t) : M unit :=
  s <- get ;;
  let e_habit :=
    match HabitLog.habit self with
    | None => [("habit", "This field cannot be null.")]
    | Some h => if bool_decide (habits s !! h = None)
                then [("habit", "habit instance does not exist.")] else []
    end in
  let e_progress :=
    if (HabitLog.progress self <? 0)%Z
    then [("progress", "Ensure this value is greater than or equal to 0.")] else [] in
  let e_status :=
    if bool_decide (HabitLog.status self ∈ STATUS_CHOICES) then []
    else [("status", "Value is not a valid choice.")] in
  match e_habit ++ e_progress ++ e_status with
  | [] => ret tt
  | errs => raise (ValidationError errs)
  end.

(** [HabitLog.clean], models.py lines 170-175. *)
Definition HabitLog_clean (self : HabitLog.t) : M unit :=
  habit <- HabitLog_get_habit self ;;
  if (Habit.target_per_day habit <? HabitLog.progress self)%Z
  then raise (ValidationError
         [("progress", "Progress cannot exceed the daily target of "
                       +:+ pretty (Habit.target_per_day habit) +:+ ".")])
  else ret tt.

Definition HabitLog_validate_unique (self : HabitLog.t) (exclude : list string) : M unit :=
  s <- get ;;
  if excluded "habit" exclude || excluded "date" exclude then ret tt
  else if HabitLog_has_clash s (HabitLog.pk self) self
  then raise (ValidationError
         [("__all__", "Habit log with this Habit and Date already exists.")])
  else ret tt.

Definition HabitLog_full_clean (self : HabitLog.t) : M unit :=
  full_clean (HabitLog_clean_fields self) (HabitLog_clean self)
             (HabitLog_validate_unique self).

(** [HabitLog.save], models.py lines 177-182. *)
Definition HabitLog_save (self : HabitLog.t) : M HabitLog.t :=
  habit <- HabitLog_get_habit self ;;
  let completed := (Habit.target_per_day habit <=? HabitLog.progress self)%Z in
  let self := HabitLog.mk (HabitLog.pk self) (HabitLog.habit self) (HabitLog.date self)
                (HabitLog.progress self) completed (HabitLog.status self) in
  let self := HabitLog.mk (HabitLog.pk self) (HabitLog.habit self) (HabitLog.date self)
                (HabitLog.progress self) (HabitLog.completed self)
                (if HabitLog.completed self then "done" else "pending") in
  HabitLog_full_clean self ;;;
  Model_save habit_logs set_habit_logs HabitLog.pk HabitLog_with_pk HabitLog_violated self.

(** ** Arithmetic on floats *)

(** A result that overflowed is an [OverflowError]. *)
Definition finite_or_overflow (x : spec_float) : M spec_float :=
  match x with
  | S754_infinity _ => raise OverflowError
  | _ => ret x
  end.

(** [a / b] on two [int]s: the quotient rounded once to a float. *)
Definition int_truediv (a b : Z) : M spec_float :=
  if (b =? 0)%Z then raise ZeroDivisionError
  else finite_or_overflow (SFdiv prec emax (exact_int a) (exact_int b)).

(** [x * k] for a float [x] and an [int] [k]. *)
Definition float_mul_int (x : spec_float) (k : Z) : spec_float :=
  SFmul prec emax x (float_of_int k).

(** [round(x, ndigits)] for [ndigits >= 0]: the exact value of [x] is
    written with [ndigits] decimals, rounded to nearest with ties to even,
    and the decimal is read back as a float. *)
Definition float_round (x : spec_float) (ndigits : nat) : M spec_float :=
  match x with
  | S754_finite s m e =>
      if (323 <? Z.of_nat ndigits)%Z then ret x
      else finite_or_overflow
             (decimal s (nearest_even (Zpos m * 10 ^ Z.of_nat ndigits) e) ndigits)
  | _ => ret x
  end.

(** [HabitLog.completion_percentage], models.py lines 161-162. *)
Definition HabitLog_completion_percentage (self : HabitLog.t) : M spec_float :=
  habit <- HabitLog_get_habit self ;;
  q <- int_truediv (HabitLog.progress self) (Habit.target_per_day habit) ;;
  ret (float_mul_int q 100).

(** [HabitLog.completion_value], models.py lines 164-165. *)
Definition HabitLog_completion_value (self : HabitLog.t) : M spec_float :=
  habit <- HabitLog_get_habit self ;;
  q <- int_truediv (HabitLog.progress self) (Habit.target_per_day habit) ;;
  float_round (float_mul_int q 100) 2.

(** ** User *)

Definition User_with_pk (k : nat) (self : User.t) : User.t :=
  User.mk (Some k) (User.email self) (User.username self)
    (User.contact self) (User.points self).

Definition User_with_points (p : Z) (self : User.t) : User.t :=
  User.mk (User.pk self) (User.email self) (User.username self)
    (User.contact self) p.

Definition other_user_has (s : Store) (k : option nat) (P : User.t → Prop)
    `{∀ u, Decision (P u)} : bool :=
  bool_decide (map_Exists (λ k' u, P u ∧ k ≠ Some k') (users s)).

Definition User_violated (s : Store) (k : nat) (row : User.t) : option string :=
  if (User.points row <? 0)%Z then Some "CHECK points >= 0"
  else if other_user_has s (Some k) (λ u, User.email u = User.email row)
  then Some "UNIQUE email"
  else if other_user_has s (Some k) (λ u, User.username u = User.username row)
  then Some "UNIQUE username"
  else None.

(** Field validation: blank, [max_length], and the validator on [points]
    ([MinValueValidator(0)]).  The syntax check of the address is the
    framework's and is left out. *)
Definition User_clean_fields (self : User.t) : M unit :=
  let e_email :=
    if bool_decide (User.email self = "") then [("email", "This field cannot be blank.")]
    else if bool_decide (255 < len (User.email self))
    then [("email", "Ensure this value has at most 255 characters.")] else [] in
  let e_username :=
    if bool_decide (User.username self = "") then [("username", "This field cannot be blank.")]
    else if bool_decide (50 < len (User.username self))
    then [("username", "Ensure this value has at most 50 characters.")] else [] in
  let e_contact :=
    match User.contact self with
    | Some c => if bool_decide (12 < len c)
                then [("contact", "Ensure this value has at most 12 characters.")] else []
    | None => []
    end in
  let e_points :=
    if (User.points self <? 0)%Z
    then [("points", "Ensure this value is greater than or equal to 0.")] else [] in
  match e_email ++ e_username ++ e_contact ++ e_points with
  | [] => ret tt
  | errs => raise (ValidationError errs)
  end.

Definition User_validate_unique (self : User.t) (exclude : list string) : M unit :=
  s <- get ;;
  let e_email :=
    if negb (excluded "email" exclude)
       && other_user_has s (User.pk self) (λ u, User.email u = User.email self)
    then [("email", "User with this Email already exists.")] else [] in
  let e_username :=
    if negb (excluded "username" exclude)
       && other_user_has s (User.pk self) (λ u, User.username u = User.username self)
    then [("username", "User with this Username already exists.")] else [] in
  match e_email ++ e_username with
  | [] => ret tt
  | errs => raise (ValidationError errs)
  end.

Definition User_full_clean (self : User.t) : M unit :=
  full_clean (User_clean_fields self) (ret tt) (User_validate_unique self).

(** [User.save], models.py lines 52-56. *)
Definition User_save (self : User.t) : M User.t :=
  let self := User.mk (User.pk self) (User.email self) (User.username self)
                (match User.contact self with Some "" => None | c => c end)
                (User.points self) in
  User_full_clean self ;;;
  Model_save users set_users User.pk User_with_pk User_violated self.

(** ** Habit *)

Definition Habit_with_pk (k : nat) (self : Habit.t) : Habit.t :=
  Habit.mk (Some k) (Habit.user self) (Habit.name self) (Habit.frequency self)
    (Habit.custom_days self) (Habit.target_per_day self) (Habit.is_active self)
    (Habit.start_date self) (Habit.end_date self).

Definition FREQUENCY_CHOICES : list string := ["daily"; "weekly"; "custom"].

Definition Habit_violated (s : Store) (k : nat) (row : Habit.t) : option string :=
  if bool_decide (users s !! Habit.user row = None) then Some "FOREIGN KEY user_id"
  else if (Habit.target_per_day row <? 0)%Z then Some "CHECK target_per_day >= 0"
  else None.

(** Field validation, with the two validators of [target_per_day]. *)
Definition Habit_clean_fields (self : Habit.t) : M unit :=
  s <- get ;;
  let e_user :=
    if bool_decide (users s !! Habit.user self = None)
    then [("user", "user instance does not exist.")] else [] in
  let e_name :=
    if bool_decide (Habit.name self = "") then [("name", "This field cannot be blank.")]
    else if bool_decide (100 < len (Habit.name self))
    then [("name", "Ensure this value has at most 100 characters.")] else [] in
  let e_frequency :=
    if bool_decide (Habit.frequency self ∈ FREQUENCY_CHOICES) then []
    else [("frequency", "Value is not a valid choice.")] in
  let e_target :=
    (if (Habit.target_per_day self <? 1)%Z
     then [("target_per_day", "Ensure this value is greater than or equal to 1.")] else [])
    ++ (if (99999 <? Habit.target_per_day self)%Z
        then [("target_per_day", "Ensure this value is less than or equal to 99999.")] else []) in
  match e_user ++ e_name ++ e_frequency ++ e_target with
  | [] => ret tt
  | errs => raise (ValidationError errs)
  end.

(** [Habit.clean], models.py lines 121-127. *)
Definition Habit_clean (self : Habit.t) : M unit :=
  match Habit.end_date self with
  | Some e =>
      if (e <? Habit.start_date self)%Z
      then raise (ValidationError [("end_date", "End date cannot be before the start date.")])
      else ret tt
  | None => ret tt
  end ;;;
  if bool_decide (Habit.frequency self = "custom")
  then
    match Habit.custom_days self with
    | Some v =>
        if truthy v
        then
          match v with
          | JDict d =>
              if truthy (default JNull (dict_get d "days")) then ret tt
              else raise (ValidationError
                     [("custom_days", "Custom frequency requires a list of days.")])
          | _ => raise (AttributeError "get")
          end
        else raise (ValidationError
               [("custom_days", "Custom frequency requires a list of days.")])
    | None =>
        raise (ValidationError [("custom_days", "Custom frequency requires a list of days.")])
    end
  else ret tt.

Definition Habit_full_clean (self : Habit.t) : M unit :=
  full_clean (Habit_clean_fields self) (Habit_clean self) (λ _, ret tt).

(** [Habit.save], models.py lines 129-131. *)
Definition Habit_save (self : Habit.t) : M Habit.t :=
  Habit_full_clean self ;;;
  Model_save habits set_habits Habit.pk Habit_with_pk Habit_violated self.

(** [habit.delete()]: the logs and streaks of the habit go with it
    ([on_delete=models.CASCADE]). *)
Definition Habit_delete (self : Habit.t) : M unit :=
  match Habit.pk self with
  | Some k =>
      modify (set_habit_logs (filter (λ kv, HabitLog.habit kv.2 ≠ Some k))) ;;;
      modify (set_streaks (filter (λ kv, Streak.habit kv.2 ≠ k))) ;;;
      modify (set_habits (delete k))
  | None => ret tt
  end.

(** ** Streak, Friendship, FriendRequest, Reward

    None of the four overrides [save]: what is checked on a write is
    what the table's columns check. *)

Definition Streak_with_pk (k : nat) (self : Streak.t) : Streak.t :=
  Streak.mk (Some k) (Streak.user self) (Streak.habit self)
    (Streak.longest_streak self) (Streak.current_streak self)
    (Streak.is_active self) (Streak.last_completed self).

Definition Streak_violated (s : Store) (k : nat) (row : Streak.t) : option string :=
  if bool_decide (users s !! Streak.user row = None) then Some "FOREIGN KEY user_id"
  else if bool_decide (habits s !! Streak.habit row = None) then Some "FOREIGN KEY habit_id"
  else if (Streak.longest_streak row <? 0)%Z then Some "CHECK longest_streak >= 0"
  else if (Streak.current_streak row <? 0)%Z then Some "CHECK current_streak >= 0"
  else None.

Definition Streak_save : Streak.t → M Streak.t :=
  Model_save streaks set_streaks Streak.pk Streak_with_pk Streak_violated.

(** [Streak(user=..., habit=...)]: the declared defaults. *)
Definition Streak_new (user habit : nat) : Streak.t :=
  Streak.mk None user habit 0 0 true None.

Definition Friendship_with_pk (k : nat) (self : Friendship.t) : Friendship.t :=
  Friendship.mk (Some k) (Friendship.user self) (Friendship.friend self).

Definition Friendship_is (user friend : nat) (r : Friendship.t) : bool :=
  bool_decide (Friendship.user r = user) && bool_decide (Friendship.friend r = friend).

Definition Friendship_violated (s : Store) (k : nat) (row : Friendship.t) : option string :=
  if bool_decide (users s !! Friendship.user row = None) then Some "FOREIGN KEY user_id"
  else if bool_decide (users s !! Friendship.friend row = None) then Some "FOREIGN KEY friend_id"
  else if bool_decide (map_Exists (λ k' r,
            Friendship_is (Friendship.user row) (Friendship.friend row) r = true ∧ k' ≠ k)
            (friendships s))
  then Some "UNIQUE user_id, friend_id"
  else None.

Definition Friendship_save : Friendship.t → M Friendship.t :=
  Model_save friendships set_friendships Friendship.pk Friendship_with_pk Friendship_violated.

Definition FriendRequest_with_pk (k : nat) (self : FriendRequest.t) : FriendRequest.t :=
  FriendRequest.mk (Some k) (FriendRequest.from_user self) (FriendRequest.to_user self)
    (FriendRequest.is_accepted self).

Definition FriendRequest_is (from_user to_user : nat) (r : FriendRequest.t) : bool :=
  bool_decide (FriendRequest.from_user r = Some from_user)
  && bool_decide (FriendRequest.to_user r = Some to_user).

Definition FriendRequest_violated (s : Store) (k : nat) (row : FriendRequest.t) : option string :=
  match FriendRequest.from_user row, FriendRequest.to_user row with
  | Some a, Some b =>
      if bool_decide (users s !! a = None) then Some "FOREIGN KEY from_user_id"
      else if bool_decide (users s !! b = None) then Some "FOREIGN KEY to_user_id"
      else if bool_decide (map_Exists (λ k' r, FriendRequest_is a b r = true ∧ k' ≠ k)
                             (friend_requests s))
      then Some "UNIQUE from_user_id, to_user_id"
      else None
  | None, _ => Some "NOT NULL from_user_id"
  | _, None => Some "NOT NULL to_user_id"
  end.

Definition FriendRequest_save : FriendRequest.t → M FriendRequest.t :=
  Model_save friend_requests set_friend_requests FriendRequest.pk
    FriendRequest_with_pk FriendRequest_violated.

Definition Reward_with_pk (k : nat) (self : Reward.t) : Reward.t :=
  Reward.mk (Some k) (Reward.user self) (Reward.title self) (Reward.description self)
    (Reward.points_required self) (Reward.is_claimed self) (Reward.created_at self).

Definition Reward_violated (s : Store) (k : nat) (row : Reward.t) : option string :=
  match Reward.user row with
  | None => Some "NOT NULL user_id"
  | Some u =>
      if bool_decide (users s !! u = None) then Some "FOREIGN KEY user_id"
      else if (Reward.points_required row <? 0)%Z then Some "CHECK points_required >= 0"
      else None
  end.

Definition Reward_save : Reward.t → M Reward.t :=
  Model_save rewards set_rewards Reward.pk Reward_with_pk Reward_violated.

(** [Friendship.clean], models.py lines 281-284. *)
Definition Friendship_clean (self : Friendship.t) : M unit :=
  if bool_decide (Friendship.user self = Friendship.friend self)
  then raise (ValidationError [("__all__", "Users cannot be friends with themselves.")])
  else ret tt.

(** [self.from_user], [self.to_user]: reading a foreign key that was never
    assigned raises. *)
Definition FriendRequest_get_from_user (self : FriendRequest.t) : M nat :=
  match FriendRequest.from_user self with
  | Some a => ret a
  | None => raise (RelatedObjectDoesNotExist "from_user")
  end.

Definition FriendRequest_get_to_user (self : FriendRequest.t) : M nat :=
  match FriendRequest.to_user self with
  | Some b => ret b
  | None => raise (RelatedObjectDoesNotExist "to_user")
  end.

(** [FriendRequest.clean], models.py lines 301-307. *)
Definition FriendRequest_clean (self : FriendRequest.t) : M unit :=
  a <- FriendRequest_get_from_user self ;;
  b <- FriendRequest_get_to_user self ;;
  if bool_decide (a = b)
  then raise (ValidationError [("__all__", "You cannot send a friend request to yourself.")])
  else
    s <- get ;;
    if objects_exists (Friendship_is a b) (friendships s)
    then raise (ValidationError [("__all__", "A friendship already exists.")])
    else ret tt.

(** ** Requests *)

Inductive method : Type := GET | POST.

(** [request.user] is the key kept in the session, if any, and
    [request.method]. *)
Record HttpRequest : Type := mkRequest {
  session_user : option nat;
  http_method : method
}.

Definition request_user (request : HttpRequest) (s : Store) : option User.t :=
  k ← session_user request; User_with_pk k <$> users s !! k.

(** [@login_required] *)
Definition login_required (request : HttpRequest) (view : User.t → M response) : M response :=
  s <- get ;;
  match request_user request s with
  | Some user => view user
  | None => ret (Redirect "habit:login" None)
  end.

(** The key of a saved instance. *)
Definition the_pk (k : option nat) : nat := default 0 k.

(** Python values, for the two places where the views look a value up by
    name. *)
Inductive pyval : Type :=
  | PInt (z : Z)
  | PStr (x : string)
  | PBool (b : bool)
  | PUser (k : option nat).

(** ** Friends *)

(** [FriendRequestForm], forms.py lines 241-266: one declared field,
    [to_user_email], and no model field ([fields = []]).
    [clean_to_user_email] returns the user found; [self.instance] is an
    object, hence true, and its [from_user] is read. *)
Definition clean_to_user_email (instance : FriendRequest.t) (email : string) : M nat :=
  s <- get ;;
  match objects_get (λ u, bool_decide (User.email u = email)) (users s) with
  | DoesNotExist =>
      raise (ValidationError [("to_user_email", "No user found with this email address.")])
  | Multiple => raise MultipleObjectsReturned
  | One to_user _ =>
      from_user <- FriendRequest_get_from_user instance ;;
      if bool_decide (to_user = from_user)
      then raise (ValidationError
             [("to_user_email", "You cannot send a friend request to yourself.")])
      else ret to_user
  end.

(** [form.is_valid()], returning [cleaned_data] when the form is valid:
    the field is cleaned, then the instance is validated ([_post_clean]
    runs [instance.full_clean], hence [FriendRequest.clean], whatever the
    field stage found).  The view binds the form to the posted data only,
    so the instance is a new [FriendRequest()]. *)
Definition FriendRequestForm_is_valid (to_user_email : option string)
    : M (option (list (string * pyval))) :=
  let instance := FriendRequest.mk None None None false in
  e_field <- try_except
    (match to_user_email with
     | None | Some "" => raise (ValidationError [("to_user_email", "This field is required.")])
     | Some email => to_user <- clean_to_user_email instance email ;; ret (inl to_user)
     end)
    (λ e, match e with ValidationError errs => Some (ret (inr errs)) | _ => None end) ;;
  e_clean <- collect (FriendRequest_clean instance) ;;
  match e_field, e_clean with
  | inl to_user, [] => ret (Some [("to_user_email", PUser (Some to_user))])
  | _, _ => ret None
  end.

(** [cleaned_data[key]] *)
Definition cleaned_data_get (cleaned_data : list (string * pyval)) (key : string) : M pyval :=
  match list_find (λ kv, kv.1 = key) cleaned_data with
  | Some (_, (_, v)) => ret v
  | None => raise (KeyError key)
  end.

(** [User.objects.get(email=v)]; a value that is not a string is
    compared through its [__str__], which for a user is the address. *)
Definition User_objects_get_email (v : pyval) : M User.t :=
  s <- get ;;
  let email :=
    match v with
    | PStr x => x
    | PUser k => default "" (User.email <$> (k ≫= λ k, users s !! k))
    | PInt z => pretty z
    | PBool b => if b then "True" else "False"
    end in
  match objects_get (λ u, bool_decide (User.email u = email)) (users s) with
  | One k u => ret (User_with_pk k u)
  | DoesNotExist => raise (ObjectDoesNotExist "User")
  | Multiple => raise MultipleObjectsReturned
  end.

(** [except User.DoesNotExist]: the exception of that name, and the one a
    foreign key onto a user raises when read unassigned, which derives
    from it. *)
Definition is_User_DoesNotExist (e : exn) : bool :=
  match e with
  | ObjectDoesNotExist model => bool_decide (model = "User")
  | RelatedObjectDoesNotExist field => bool_decide (field ∈ ["from_user"; "to_user"])
  | _ => false
  end.

(** The [try] block of [friend_request_send], views.py lines 152-160. *)
Definition friend_request_send_try (user : User.t) (email : pyval) : M unit :=
  try_except
    (to_user <- User_objects_get_email email ;;
     if negb (bool_decide (User.pk to_user = User.pk user))
     then
       get_or_create friend_requests set_friend_requests FriendRequest.pk
         FriendRequest_with_pk FriendRequest_violated
         (FriendRequest_is (the_pk (User.pk user)) (the_pk (User.pk to_user)))
         (FriendRequest.mk None (User.pk user) (User.pk to_user) false) ;;;
       messages_add SUCCESS ("Friend request sent to " +:+ User.username to_user)
     else messages_add ERROR "You cannot send a request to yourself.")
    (λ e, if is_User_DoesNotExist e
          then Some (messages_add ERROR "User with this email does not exist.")
          else None).

(** [friend_request_send], views.py lines 146-164.  The form has no
    field named [email]. *)
Definition friend_request_send (request : HttpRequest) (to_user_email : option string)
    : M response :=
  login_required request (λ user,
    match http_method request with
    | POST =>
        form <- FriendRequestForm_is_valid to_user_email ;;
        match form with
        | Some cleaned_data =>
            email <- cleaned_data_get cleaned_data "email" ;;
            friend_request_send_try user email ;;;
            ret (Redirect "habit:friends" None)
        | None => ret (Render "habit/friends.html")
        end
    | GET => ret (Render "habit/friends.html")
    end).

Definition Friendship_get_or_create (user friend : nat) : M (Friendship.t * bool) :=
  get_or_create friendships set_friendships Friendship.pk Friendship_with_pk
    Friendship_violated (Friendship_is user friend) (Friendship.mk None user friend).

(** Following a foreign key to a user. *)
Definition User_deref (k : nat) : M User.t :=
  s <- get ;;
  match users s !! k with
  | Some u => ret (User_with_pk k u)
  | None => raise (ObjectDoesNotExist "User")
  end.

(** [friend_request_accept], views.py lines 166-173.  [fr.from_user] on
    line 169 loads the sender. *)
Definition friend_request_accept (request : HttpRequest) (pk : nat) : M response :=
  login_required request (λ user,
    fr <- get_object_or_404 friend_requests FriendRequest_with_pk pk
            (λ r, bool_decide (FriendRequest.to_user r = User.pk user)) ;;
    from_user <- (a <- FriendRequest_get_from_user fr ;; User_deref a) ;;
    Friendship_get_or_create (the_pk (User.pk user)) (the_pk (User.pk from_user)) ;;;
    Friendship_get_or_create (the_pk (User.pk from_user)) (the_pk (User.pk user)) ;;;
    Model_delete set_friend_requests FriendRequest.pk fr ;;;
    messages_add SUCCESS ("You are now friends with " +:+ User.username from_user) ;;;
    ret (Redirect "habit:friends" None)).

(** [friend_request_reject], views.py lines 175-180. *)
Definition friend_request_reject (request : HttpRequest) (pk : nat) : M response :=
  login_required request (λ user,
    fr <- get_object_or_404 friend_requests FriendRequest_with_pk pk
            (λ r, bool_decide (FriendRequest.to_user r = User.pk user)) ;;
    Model_delete set_friend_requests FriendRequest.pk fr ;;;
    from_user <- (a <- FriendRequest_get_from_user fr ;; User_deref a) ;;
    messages_add INFO ("Friend request from " +:+ User.username from_user +:+ " rejected") ;;;
    ret (Redirect "habit:friends" None)).

(** [friend_remove], views.py lines 182-188: [Friendship] defines no
    [friendship_reverse]. *)
Definition friend_remove (request : HttpRequest) (pk : nat) : M response :=
  login_required request (λ user,
    friendship <- get_object_or_404 friendships Friendship_with_pk pk
                    (λ r, bool_decide (Some (Friendship.user r) = User.pk user)) ;;
    raise (AttributeError "friendship_reverse")).

(** ** Rewards *)

(** [getattr(reward, attr)]: the columns [class Reward] declares
    (models.py lines 350-356), and nothing else. *)
Definition Reward_getattr (self : Reward.t) (attr : string) : M pyval :=
  if bool_decide (attr = "id") || bool_decide (attr = "pk")
  then ret (PInt (Z.of_nat (the_pk (Reward.pk self))))
  else if bool_decide (attr = "user") then ret (PUser (Reward.user self))
  else if bool_decide (attr = "title") then ret (PStr (Reward.title self))
  else if bool_decide (attr = "description") then ret (PStr (Reward.description self))
  else if bool_decide (attr = "points_required") then ret (PInt (Reward.points_required self))
  else if bool_decide (attr = "is_claimed") then ret (PBool (Reward.is_claimed self))
  else if bool_decide (attr = "created_at") then ret (PInt (Reward.created_at self))
  else raise (AttributeError attr).

(** [value.add(user)]: none of the values above is a related manager. *)
Definition pyval_add (v : pyval) (user : User.t) : M unit :=
  raise (AttributeError "add").

(** [reward_claim], views.py lines 258-268. *)
Definition reward_claim (request : HttpRequest) (pk : nat) : M response :=
  login_required request (λ user,
    reward <- get_object_or_404 rewards Reward_with_pk pk (λ _, true) ;;
    (if (Reward.points_required reward <=? User.points user)%Z
     then
       user <- User_save (User_with_points
                 (User.points user - Reward.points_required reward) user) ;;
       claimed_by <- Reward_getattr reward "claimed_by" ;;
       pyval_add claimed_by user ;;;
       messages_add SUCCESS ("You claimed " +:+ Reward.title reward +:+ "!")
     else messages_add ERROR "Not enough points to claim this reward.") ;;;
    ret (Redirect "habit:rewards" None)).

(** [reward_add], views.py lines 246-256: [RewardForm] carries title,
    description and points (at least 1); the instance it saves has no
    owner. *)
Definition reward_add (request : HttpRequest) (title description : string)
    (points_required : option Z) (now : Z) : M response :=
  login_required request (λ user,
    match http_method request, points_required with
    | POST, Some p =>
        if bool_decide (title = "") || bool_decide (100 < len title)
           || (p <? 1)%Z
        then ret (Render "habit/reward_add.html")
        else
          Reward_save (Reward.mk None None title description p false now) ;;;
          messages_add SUCCESS "Reward created successfully!" ;;;
          ret (Redirect "habit:rewards" None)
    | _, _ => ret (Render "habit/reward_add.html")
    end).

(** ** Habit logs *)

(** The posted fields of [HabitLogForm] ([habit], [date], [status],
    [progress]); [None] is a field that is absent or does not parse. *)
Record LogPost : Type := mkLogPost {
  post_habit : option nat;
  post_date : option Z;
  post_status : option string;
  post_progress : option Z
}.

(** [HabitLogForm.clean_progress], forms.py lines 187-194. *)
Definition clean_progress (form_habit : option Habit.t) (progress : Z) : M Z :=
  match form_habit with
  | Some habit =>
      if (Habit.target_per_day habit <? progress)%Z
      then raise (ValidationError
             [("progress", "Progress cannot exceed the daily target of "
                           +:+ pretty (Habit.target_per_day habit) +:+ ".")])
      else ret progress
  | None => ret progress
  end.

(** The fields of [HabitLogForm], cleaned one by one: the errors of each.
    [progress] is an integer field with [min_value=0] followed by
    [clean_progress]. *)
Definition HabitLogForm_habit_errors (s : Store) (data : LogPost) : list (string * string) :=
  match post_habit data with
  | None => [("habit", "This field is required.")]
  | Some h => if bool_decide (habits s !! h = None)
              then [("habit", "Select a valid choice.")] else []
  end.

Definition HabitLogForm_date_errors (data : LogPost) : list (string * string) :=
  match post_date data with
  | None => [("date", "This field is required.")]
  | Some _ => []
  end.

Definition HabitLogForm_status_errors (data : LogPost) : list (string * string) :=
  match post_status data with
  | None => [("status", "This field is required.")]
  | Some x => if bool_decide (x ∈ STATUS_CHOICES) then []
              else [("status", "Select a valid choice.")]
  end.

Definition HabitLogForm_progress_field (form_habit : option Habit.t) (data : LogPost)
    : M unit :=
  match post_progress data with
  | None => raise (ValidationError [("progress", "This field is required.")])
  | Some p =>
      if (p <? 0)%Z
      then raise (ValidationError
             [("progress", "Ensure this value is greater than or equal to 0.")])
      else clean_progress form_habit p ;;; ret tt
  end.

(** A field that was cleaned is written to the instance; one that failed
    leaves the instance as it was. *)
Definition cleaned {A} (errs : list (string * string)) (posted : option A) (old : A) : A :=
  match errs, posted with
  | [], Some v => v
  | _, _ => old
  end.

Definition construct_instance (instance : HabitLog.t) (data : LogPost)
    (e_habit e_date e_status e_progress : list (string * string)) : HabitLog.t :=
  HabitLog.mk (HabitLog.pk instance)
    (cleaned e_habit (Some <$> post_habit data) (HabitLog.habit instance))
    (cleaned e_date (post_date data) (HabitLog.date instance))
    (cleaned e_progress (post_progress data) (HabitLog.progress instance))
    (HabitLog.completed instance)
    (cleaned e_status (post_status data) (HabitLog.status instance)).

(** [form.is_valid()] for [HabitLogForm(data, habit=form_habit,
    instance=instance)], returning the instance of
    [form.save(commit=False)] when the form is valid.  After the fields,
    the instance is validated: [HabitLog.clean] and, when both [habit]
    and [date] were cleaned, the uniqueness of the pair (the model's
    field validators repeat those of the form fields). *)
Definition HabitLogForm_is_valid (form_habit : option Habit.t)
    (instance : HabitLog.t) (data : LogPost) : M (option HabitLog.t) :=
  s <- get ;;
  e_progress <- collect (HabitLogForm_progress_field form_habit data) ;;
  let e_habit := HabitLogForm_habit_errors s data in
  let e_date := HabitLogForm_date_errors data in
  let e_status := HabitLogForm_status_errors data in
  let instance := construct_instance instance data e_habit e_date e_status e_progress in
  let e_fields := e_habit ++ e_date ++ e_status ++ e_progress in
  e_clean <- collect (HabitLog_clean instance) ;;
  e_unique <- collect (HabitLog_validate_unique instance (fst <$> e_fields)) ;;
  match e_fields ++ e_clean ++ e_unique with
  | [] => ret (Some instance)
  | _ => ret None
  end.

Definition HabitLog_with_habit (h : nat) (self : HabitLog.t) : HabitLog.t :=
  HabitLog.mk (HabitLog.pk self) (Some h) (HabitLog.date self)
    (HabitLog.progress self) (HabitLog.completed self) (HabitLog.status self).

(** [log_add], views.py lines 479-513, with [today] for [today_date()].
    The view is not behind [login_required]: looking a habit up by an
    anonymous user raises. *)
Definition log_add (request : HttpRequest) (today : Z) (habit_id : nat) (data : LogPost)
    : M response :=
  s <- get ;;
  match request_user request s with
  | None => raise TypeError
  | Some user =>
      habit <- get_object_or_404 habits Habit_with_pk habit_id
                 (λ h, bool_decide (Some (Habit.user h) = User.pk user)) ;;
      s <- get ;;
      match objects_get (λ l, bool_decide (HabitLog.habit l = Some habit_id)
                              && bool_decide (HabitLog.date l = today))
              (habit_logs s) with
      | One log_exist _ => ret (Redirect "habit:log_edit" (Some log_exist))
      | Multiple => raise MultipleObjectsReturned
      | DoesNotExist =>
          match http_method request with
          | POST =>
              form <- HabitLogForm_is_valid (Some habit)
                        (HabitLog.mk None None today 0 false "pending") data ;;
              match form with
              | Some log =>
                  HabitLog_save (HabitLog_with_habit habit_id log) ;;;
                  ret (Redirect "habit:log_list" None)
              | None =>
                  messages_add ERROR "Invalid Input" ;;;
                  ret (Render "habit/logs/log_add.html")
              end
          | GET => ret (Render "habit/logs/log_add.html")
          end
      end
  end.

(** [log_edit], views.py lines 445-469.  The form is built without
    [habit=], so its [clean_progress] lets every value through. *)
Definition log_edit (request : HttpRequest) (pk : nat) (data : LogPost) : M response :=
  login_required request (λ user,
    s <- get ;;
    log <- get_object_or_404 habit_logs HabitLog_with_pk pk
             (λ l, match HabitLog.habit l ≫= (habits s !!.) with
                   | Some h => bool_decide (Some (Habit.user h) = User.pk user)
                   | None => false
                   end) ;;
    match http_method request with
    | POST =>
        form <- HabitLogForm_is_valid None log data ;;
        match form with
        | Some log =>
            log <- HabitLog_save log ;;
            ret (Redirect "habit:habit_detail" (HabitLog.habit log))
        | None =>
            messages_add ERROR "Invalid Input" ;;;
            ret (Render "habit/logs/log_form.html")
        end
    | GET => ret (Render "habit/logs/log_form.html")
    end).

(** ** Habits

    Of a habit the store keeps what the log and streak rules read, the
    owner and the fields [Habit.clean] looks at; category, unit, time of
    day and description are left out. *)

Record HabitPost : Type := mkHabitPost {
  post_name : string;
  post_frequency : string;
  post_custom_days : option json;
  post_target_per_day : option Z;
  post_start_date : option Z;
  post_end_date : option Z
}.

(** [HabitForm.clean_target_per_day], forms.py lines 153-159. *)
Definition clean_target_per_day (target : Z) : M Z :=
  if (target <? 1)%Z
  then raise (ValidationError [("target_per_day", "Target must be at least 1.")])
  else if (99999 <? target)%Z
  then raise (ValidationError [("target_per_day", "Target cannot exceed 99999.")])
  else ret target.

(** [HabitForm.clean], forms.py lines 132-151. *)
Definition HabitForm_clean (data : HabitPost) : M unit :=
  if bool_decide (post_frequency data = "custom")
     && match post_custom_days data with Some v => negb (truthy v) | None => true end
  then raise (ValidationError
         [("custom_days", "Custom days are required for custom frequency.")])
  else
    match post_end_date data, post_start_date data with
    | Some e, Some b =>
        if (e <? b)%Z
        then raise (ValidationError [("end_date", "End date cannot be before start date.")])
        else ret tt
    | _, _ => ret tt
    end.

(** [form.is_valid()] for [HabitForm(data, instance=instance)], returning
    the instance of [form.save(commit=False)] when the form is valid. *)
Definition HabitForm_is_valid (instance : Habit.t) (data : HabitPost) : M (option Habit.t) :=
  match post_target_per_day data, post_start_date data with
  | Some target, Some start =>
      let candidate :=
        Habit.mk (Habit.pk instance) (Habit.user instance) (post_name data)
          (post_frequency data) (post_custom_days data) target
          (Habit.is_active instance) start (post_end_date data) in
      e_target <- collect (clean_target_per_day target ;;; ret tt) ;;
      e_form <- collect (HabitForm_clean data) ;;
      e_fields <- collect (Habit_clean_fields candidate) ;;
      e_clean <- collect (Habit_clean candidate) ;;
      match e_target ++ e_form ++ filter (λ e, e.1 ≠ "user") e_fields ++ e_clean with
      | [] => ret (Some candidate)
      | _ => ret None
      end
  | _, _ => ret None
  end.

Definition Habit_with_user (u : nat) (self : Habit.t) : Habit.t :=
  Habit.mk (Habit.pk self) u (Habit.name self) (Habit.frequency self)
    (Habit.custom_days self) (Habit.target_per_day self) (Habit.is_active self)
    (Habit.start_date self) (Habit.end_date self).

(** [habit_add], views.py lines 296-308 (and [habit_create], which
    differs in the page it redirects to). *)
Definition habit_add (request : HttpRequest) (data : HabitPost) : M response :=
  login_required request (λ user,
    match http_method request with
    | POST =>
        form <- HabitForm_is_valid
                  (Habit.mk None (the_pk (User.pk user)) "" "daily" None 1 true 0 None) data ;;
        match form with
        | Some habit =>
            Habit_save (Habit_with_user (the_pk (User.pk user)) habit) ;;;
            messages_add SUCCESS "Habit created successfully!" ;;;
            ret (Redirect "habit:streaks" None)
        | None => ret (Render "habit/habits/habit_add.html")
        end
    | GET => ret (Render "habit/habits/habit_add.html")
    end).

(** [habit_edit], views.py lines 345-356. *)
Definition habit_edit (request : HttpRequest) (pk : nat) (data : HabitPost) : M response :=
  login_required request (λ user,
    habit <- get_object_or_404 habits Habit_with_pk pk
               (λ h, bool_decide (Some (Habit.user h) = User.pk user)) ;;
    match http_method request with
    | POST =>
        form <- HabitForm_is_valid habit data ;;
        match form with
        | Some habit =>
            Habit_save habit ;;;
            messages_add SUCCESS "Habit updated successfully!" ;;;
            ret (Redirect "habit:habit_detail" (Habit.pk habit))
        | None => ret (Render "habit/habits/habit_add.html")
        end
    | GET => ret (Render "habit/habits/habit_add.html")
    end).

(** [habit_delete], views.py lines 358-365. *)
Definition habit_delete (request : HttpRequest) (pk : nat) : M response :=
  login_required request (λ user,
    habit <- get_object_or_404 habits Habit_with_pk pk
               (λ h, bool_decide (Some (Habit.user h) = User.pk user)) ;;
    match http_method request with
    | POST =>
        Habit_delete habit ;;;
        messages_add SUCCESS "Habit deleted successfully!" ;;;
        ret (Redirect "habit:habit_list" None)
    | GET => ret (Render "habit/habits/habit_confirm_delete.html")
    end).

(** ** Accounts *)

(** The posted fields of [UserRegisterForm] and [UserProfileForm] that end
    up in the row; [passwords_ok] stands for the framework's checks of
    the two password fields. *)
Record UserPost : Type := mkUserPost {
  post_email : string;
  post_username : string;
  post_contact : string;
  passwords_ok : bool
}.

(** [form.is_valid()] of either form on a candidate row: the two
    [clean_...] methods refuse an address or a name another user has,
    and the instance is validated. *)
Definition UserForm_is_valid (candidate : User.t) (ok : bool) : M (option User.t) :=
  errs <- collect (User_full_clean candidate) ;;
  match errs, ok with
  | [], true => ret (Some candidate)
  | _, _ => ret None
  end.

(** [register], views.py lines 117-131: a new user starts with the
    default of [points], 0. *)
Definition register (request : HttpRequest) (data : UserPost) : M response :=
  s <- get ;;
  match request_user request s, http_method request with
  | Some _, _ => ret (Redirect "habit:dashboard" None)
  | None, POST =>
      form <- UserForm_is_valid
                (User.mk None (post_email data) (post_username data)
                   (Some (post_contact data)) 0) (passwords_ok data) ;;
      match form with
      | Some user =>
          user <- User_save user ;;
          messages_add SUCCESS
            ("Welcome, " +:+ User.username user +:+ "! Your account has been created.") ;;;
          ret (Redirect "habit:dashboard" None)
      | None => ret (Render "habit/auth/registration.html")
      end
  | None, GET => ret (Render "habit/auth/registration.html")
  end.

(** [edit_profile], views.py lines 428-439. *)
Definition edit_profile (request : HttpRequest) (data : UserPost) : M response :=
  login_required request (λ user,
    match http_method request with
    | POST =>
        form <- UserForm_is_valid
                  (User.mk (User.pk user) (post_email data) (post_username data)
                     (Some (post_contact data)) (User.points user)) true ;;
        match form with
        | Some user =>
            User_save user ;;;
            messages_add SUCCESS "Profile updated successfully!" ;;;
            ret (Redirect "habit:profile" None)
        | None => ret (Render "habit/profile/edit_profile.html")
        end
    | GET => ret (Render "habit/profile/edit_profile.html")
    end).

(** ** The system as a transition system

    One step is a view applied to a request, or a write through the
    model layer (what the back office of admin.py and the forms do:
    [save] of an instance, [delete] of a habit).  A step that raises
    keeps the writes made before the exception.

    The views are those that write to the tables above.  The others
    only read (dashboard, the list and detail pages, profile), write
    tables that are kept beside the store (notifications and challenges,
    further down) or save a user with the same points (password change),
    which [SaveUser] covers. *)

Inductive view : Type :=
  | V_register (data : UserPost)
  | V_edit_profile (data : UserPost)
  | V_habit_add (data : HabitPost)
  | V_habit_edit (pk : nat) (data : HabitPost)
  | V_habit_delete (pk : nat)
  | V_log_add (today : Z) (habit_id : nat) (data : LogPost)
  | V_log_edit (pk : nat) (data : LogPost)
  | V_reward_add (title description : string) (points_required : option Z) (now : Z)
  | V_reward_claim (pk : nat)
  | V_friend_request_send (to_user_email : option string)
  | V_friend_request_accept (pk : nat)
  | V_friend_request_reject (pk : nat)
  | V_friend_remove (pk : nat).

Definition dispatch (v : view) (request : HttpRequest) : M response :=
  match v with
  | V_register data => register request data
  | V_edit_profile data => edit_profile request data
  | V_habit_add data => habit_add request data
  | V_habit_edit pk data => habit_edit request pk data
  | V_habit_delete pk => habit_delete request pk
  | V_log_add today habit_id data => log_add request today habit_id data
  | V_log_edit pk data => log_edit request pk data
  | V_reward_add title description points_required now =>
      reward_add request title description points_required now
  | V_reward_claim pk => reward_claim request pk
  | V_friend_request_send to_user_email => friend_request_send request to_user_email
  | V_friend_request_accept pk => friend_request_accept request pk
  | V_friend_request_reject pk => friend_request_reject request pk
  | V_friend_remove pk => friend_remove request pk
  end.

Inductive op : Type :=
  | Request (v : view) (request : HttpRequest)
  | SaveUser (u : User.t)
  | SaveHabit (h : Habit.t)
  | DeleteHabit (h : Habit.t)
  | SaveHabitLog (l : HabitLog.t)
  | SaveStreak (x : Streak.t)
  | SaveFriendship (f : Friendship.t)
  | SaveFriendRequest (r : FriendRequest.t)
  | SaveReward (r : Reward.t).

Definition run (o : op) (s : Store) : Store :=
  match o with
  | Request v request => (dispatch v request s).2
  | SaveUser u => (User_save u s).2
  | SaveHabit h => (Habit_save h s).2
  | DeleteHabit h => (Habit_delete h s).2
  | SaveHabitLog l => (HabitLog_save l s).2
  | SaveStreak x => (Streak_save x s).2
  | SaveFriendship f => (Friendship_save f s).2
  | SaveFriendRequest r => (FriendRequest_save r s).2
  | SaveReward r => (Reward_save r s).2
  end.

Inductive reachable : Store → Prop :=
  | reachable_empty : reachable empty_store
  | reachable_step s o : reachable s → reachable (run o s).

(** * What the statements are about *)

(** [moves R m]: whatever [m] does to the store is an [R]-step, whether
    it returns or raises.  With [R] a preorder the notion composes along
    the monad; it covers a computation that only reads ([R] is [eq]),
    one that leaves a table alone, and one that keeps an invariant. *)
Definition moves {A} (R : relation Store) (m : M A) : Prop :=
  ∀ s, R s (m s).2.

(** [keeps I]: a step that does not break [I]. *)
Definition keeps (I : Store → Prop) : relation Store := λ s s', I s → I s'.

(** A validator returns or raises a [ValidationError]; [collect] then
    returns its errors. *)
Definition validator (m : M unit) : Prop :=
  ∀ s, m s = (Returned tt, s) ∨ ∃ errs, errs ≠ [] ∧ m s = (Raised (ValidationError errs), s).

(** No balance is negative. *)
Definition points_nonnegative (s : Store) : Prop :=
  map_Forall (λ _ u, (0 ≤ User.points u)%Z) (users s).

(** Every streak row has its longest run at least its current one. *)
Definition streaks_ordered (s : Store) : Prop :=
  map_Forall (λ _ x, (Streak.current_streak x ≤ Streak.longest_streak x)%Z) (streaks s).

(** [unique_together = ('habit', 'date')] *)
Definition logs_unique (s : Store) : Prop :=
  ∀ k1 k2 l1 l2,
    habit_logs s !! k1 = Some l1 → habit_logs s !! k2 = Some l2 →
    HabitLog.habit l1 = HabitLog.habit l2 → HabitLog.date l1 = HabitLog.date l2 →
    k1 = k2.

(** [unique_together = ("user", "friend")] *)
Definition friendships_unique (s : Store) : Prop :=
  ∀ k1 k2 r1 r2,
    friendships s !! k1 = Some r1 → friendships s !! k2 = Some r2 →
    Friendship.user r1 = Friendship.user r2 → Friendship.friend r1 = Friendship.friend r2 →
    k1 = k2.

(** There is a friendship row from [u] to [f]. *)
Definition has_friendship (s : Store) (u f : nat) : Prop :=
  ∃ k r, friendships s !! k = Some r ∧ Friendship.user r = u ∧ Friendship.friend r = f.

(** ** A small world to run the code in

    Two users, alice (key 1) and bob (key 2); alice has a habit with a
    daily target of 10. *)
Definition alice : User.t := User.mk (Some 1) "alice@example.org" "alice" None 0.
Definition bob : User.t := User.mk (Some 2) "bob@example.org" "bob" None 0.
Definition water : Habit.t := Habit.mk (Some 1) 1 "water" "daily" None 10 true 0 None.

Definition world : Store :=
  set_habits (insert 1 water) (set_users (insert 2 bob ∘ insert 1 alice) empty_store).

Definition as_user (k : nat) : HttpRequest := mkRequest (Some k) POST.

Definition post_log (habit : nat) (date progress : Z) : LogPost :=
  mkLogPost (Some habit) (Some date) (Some "pending") (Some progress).

(** alice with 50 points and a reward that costs 50. *)
Definition movie : Reward.t := Reward.mk (Some 1) (Some 1) "Movie Night" "" 50 false 0.
Definition world_rewards : Store :=
  set_rewards (insert 1 movie) (set_users (insert 1 (User_with_points 50 alice)) world).

(** A pending request from alice to bob. *)
Definition world_request : Store :=
  set_friend_requests (insert 1 (FriendRequest.mk (Some 1) (Some 1) (Some 2) false)) world.

(** alice and bob already friends, in both directions. *)
Definition world_friends : Store :=
  set_friendships
    (insert 2 (Friendship.mk (Some 2) 2 1) ∘ insert 1 (Friendship.mk (Some 1) 1 2)) world.

(** A streak row whose current run exceeds its longest one. *)
Definition broken_streak : Streak.t := Streak.mk None 1 1 0 5 true None.

(** alice logs 3 of 10 for day 100, then edits the log to 10. *)
Definition first_submission : Store :=
  (log_add (as_user 1) 100 1 (post_log 1 100 3) world).2.

Definition second_submission : Store :=
  (log_edit (as_user 1) 1 (post_log 1 100 10) first_submission).2.

(** alice registers, is granted 50 points, and claims a reward of 30. *)
Definition grant_claim : list op :=
  [ Request (V_register (mkUserPost "alice@example.org" "alice" "" true)) (mkRequest None POST);
    SaveUser (User.mk (Some 1) "alice@example.org" "alice" None 50);
    SaveReward (Reward.mk None (Some 1) "Movie Night" "" 30 false 0);
    Request (V_reward_claim 1) (as_user 1) ].

(** ** The completion value in exact arithmetic

    [round_half_even n b] is the integer nearest to the fraction [n / b],
    the even one at a tie; [completion_value_exact] is the percentage
    [progress / target * 100] computed without rounding and then rounded
    to two decimals. *)
Definition round_half_even (n b : Z) : Z :=
  let k := (n / b)%Z in
  match (2 * (n mod b) ?= b)%Z with
  | Lt => k
  | Gt => (k + 1)%Z
  | Eq => if Z.even k then k else (k + 1)%Z
  end.

Definition completion_value_exact (progress target : Z) : spec_float :=
  decimal false (round_half_even (10000 * progress) target) 2.

(** bob's habit with a daily target of 4000, and a log of 107 for it. *)
Definition walk : Habit.t := Habit.mk (Some 2) 2 "walk" "daily" None 4000 true 0 None.
Definition world_walk : Store := set_habits (insert 2 walk) world.
Definition walked : HabitLog.t := HabitLog.mk None (Some 2) 100 107 false "pending".

(** * Further code: what each view writes, notifications, challenges *)

(** ** Which view can write which table *)

Definition writes_users (v : view) : bool :=
  match v with
  | V_register _ | V_edit_profile _ | V_reward_claim _ => true
  | _ => false
  end.

Definition writes_habits (v : view) : bool :=
  match v with
  | V_habit_add _ | V_habit_edit _ _ | V_habit_delete _ => true
  | _ => false
  end.

Definition writes_habit_logs (v : view) : bool :=
  match v with
  | V_log_add _ _ _ | V_log_edit _ _ | V_habit_delete _ => true
  | _ => false
  end.

Definition writes_streaks (v : view) : bool :=
  match v with
  | V_habit_delete _ => true
  | _ => false
  end.

Definition writes_friendships (v : view) : bool :=
  match v with
  | V_friend_request_accept _ => true
  | _ => false
  end.

Definition writes_friend_requests (v : view) : bool :=
  match v with
  | V_friend_request_accept _ | V_friend_request_reject _ => true
  | _ => false
  end.

(** [same f]: a step that leaves [f] of the store as it is. *)
Definition same {A} (f : Store → A) : relation Store := λ s s', f s' = f s.

(** ** More invariants *)

(** [unique=True] on [email] and on [username]. *)
Definition users_unique (s : Store) : Prop :=
  ∀ k1 k2 u1 u2,
    users s !! k1 = Some u1 → users s !! k2 = Some u2 →
    User.email u1 = User.email u2 ∨ User.username u1 = User.username u2 →
    k1 = k2.

(** [unique_together = ("from_user", "to_user")] *)
Definition friend_requests_unique (s : Store) : Prop :=
  ∀ k1 k2 r1 r2,
    friend_requests s !! k1 = Some r1 → friend_requests s !! k2 = Some r2 →
    FriendRequest.from_user r1 = FriendRequest.from_user r2 →
    FriendRequest.to_user r1 = FriendRequest.to_user r2 →
    k1 = k2.

(** The foreign keys of logs, streaks and habits name rows that exist. *)
Definition references_exist (s : Store) : Prop :=
  (∀ k l, habit_logs s !! k = Some l →
          ∃ h, HabitLog.habit l = Some h ∧ is_Some (habits s !! h))
  ∧ (∀ k x, streaks s !! k = Some x →
            is_Some (habits s !! Streak.habit x) ∧ is_Some (users s !! Streak.user x))
  ∧ (∀ k h, habits s !! k = Some h → is_Some (users s !! Habit.user h)).




(** What [HabitLog.save] leaves in a row: its key, a progress that is not
    negative, and a status that goes with [completed]. *)
Definition logs_status_consistent (s : Store) : Prop :=
  map_Forall (λ k l, HabitLog.pk l = Some k
                     ∧ (0 ≤ HabitLog.progress l)%Z
                     ∧ HabitLog.status l = if HabitLog.completed l then "done" else "pending")
    (habit_logs s).

(** No streak row is new or changed. *)
Definition fewer_streaks : relation Store := λ s s', streaks s' ⊆ streaks s.

(** The habit [h] is the user's; the log [k] is of a habit of the user. *)
Definition owns_habit (s : Store) (user : User.t) (h : nat) : Prop :=
  ∃ habit, habits s !! h = Some habit ∧ Some (Habit.user habit) = User.pk user.

Definition owns_log (s : Store) (user : User.t) (k : nat) : Prop :=
  ∃ l h, habit_logs s !! k = Some l ∧ HabitLog.habit l = Some h ∧ owns_habit s user h.

(** ** Notifications

    [class Notification] and the three views that write it.  The table is
    kept beside the store; the store is read for [request.user]. *)
Module Notification.
Record t : Type := mk {
  pk : option nat;
  user : nat;
  message : string;
  is_read : bool;
  created_at : Z
}.
End Notification.

Definition Notification_with_is_read (b : bool) (self : Notification.t) : Notification.t :=
  Notification.mk (Notification.pk self) (Notification.user self)
    (Notification.message self) b (Notification.created_at self).

Definition Notification_with_pk (k : nat) (self : Notification.t) : Notification.t :=
  Notification.mk (Some k) (Notification.user self) (Notification.message self)
    (Notification.is_read self) (Notification.created_at self).

(** [get_object_or_404(Notification, pk=pk, user=request.user)] *)
Definition Notification_get_or_404 (user : User.t) (pk : nat)
    (ns : gmap nat Notification.t) : outcome Notification.t :=
  match ns !! pk with
  | Some n => if bool_decide (Some (Notification.user n) = User.pk user)
              then Returned (Notification_with_pk pk n) else Raised Http404
  | None => Raised Http404
  end.

(** [notification_mark_read], views.py lines 206-211. *)
Definition notification_mark_read (request : HttpRequest) (pk : nat) (s : Store)
    (ns : gmap nat Notification.t) : outcome response * gmap nat Notification.t :=
  match request_user request s with
  | None => (Returned (Redirect "habit:login" None), ns)
  | Some user =>
      match Notification_get_or_404 user pk ns with
      | Returned notif =>
          let notif := Notification_with_is_read true notif in
          (Returned (Redirect "habit:notifications" None), <[pk := notif]> ns)
      | Raised e => (Raised e, ns)
      end
  end.

(** [notification_mark_all_read], views.py lines 213-216: one UPDATE on
    the unread notifications of the user. *)
Definition notification_mark_all_read (request : HttpRequest) (s : Store)
    (ns : gmap nat Notification.t) : outcome response * gmap nat Notification.t :=
  match request_user request s with
  | None => (Returned (Redirect "habit:login" None), ns)
  | Some user =>
      (Returned (Redirect "habit:notifications" None),
       (λ n, if bool_decide (Some (Notification.user n) = User.pk user)
                && negb (Notification.is_read n)
             then Notification_with_is_read true n else n) <$> ns)
  end.

(** [notification_delete], views.py lines 218-222. *)
Definition notification_delete (request : HttpRequest) (pk : nat) (s : Store)
    (ns : gmap nat Notification.t) : outcome response * gmap nat Notification.t :=
  match request_user request s with
  | None => (Returned (Redirect "habit:login" None), ns)
  | Some user =>
      match Notification_get_or_404 user pk ns with
      | Returned notif => (Returned (Redirect "habit:notifications" None), delete pk ns)
      | Raised e => (Raised e, ns)
      end
  end.

(** [unread_count] of the [notifications] view, views.py lines 196 and
    200: the unread notifications of the user, counted. *)
Definition unread_count (user : nat) (ns : gmap nat Notification.t) : nat :=
  length (objects_filter
            (λ n, bool_decide (Notification.user n = user) && negb (Notification.is_read n))
            ns).

(** ** Challenges

    [class Challenge], [ChallengeForm] and [challenge_create]. *)
Module Challenge.
Record t : Type := mk {
  pk : option nat;
  name : string;
  description : string;
  start_date : option Z;      (* [None] on an instance before the field is set *)
  end_date : option Z;
  created_by : option nat
}.
End Challenge.

(** [Challenge.clean], models.py lines 321-323.  Comparing with a date
    that is not set is a [TypeError]. *)
Definition Challenge_clean (self : Challenge.t) : outcome unit :=
  match Challenge.end_date self, Challenge.start_date self with
  | Some e, Some b =>
      if (e <=? b)%Z
      then Raised (ValidationError [("end_date", "End date must be after the start date.")])
      else Returned tt
  | _, _ => Raised TypeError
  end.

(** The posted fields of [ChallengeForm] as its fields parse them: the
    texts stripped of surrounding blanks, [None] for a date that is
    absent or does not parse. *)
Record ChallengePost : Type := mkChallengePost {
  post_challenge_name : string;
  post_description : string;
  post_challenge_start : option Z;
  post_challenge_end : option Z
}.

(** A text field of a form refuses a value with a null character. *)
Definition has_null (x : string) : bool :=
  bool_decide (Ascii.zero ∈ String.list_ascii_of_string x).

(** [ChallengeForm.clean], forms.py lines 223-234, with [today] for
    [timezone.now().date()]: its errors. *)
Definition ChallengeForm_clean (today : Z) (data : ChallengePost) : list (string * string) :=
  match post_challenge_start data, post_challenge_end data with
  | Some b, Some e =>
      if (e <=? b)%Z then [("__all__", "End date must be after start date.")]
      else if (b <? today)%Z then [("__all__", "Start date cannot be in the past.")]
      else []
  | _, _ => []
  end.

(** [form.is_valid()] for [ChallengeForm(data)], returning the instance of
    [form.save(commit=False)] when the form is valid: the fields, the
    form's [clean], then [Challenge.clean] on the instance built from the
    fields that were cleaned. *)
Definition ChallengeForm_is_valid (today : Z) (data : ChallengePost)
    : outcome (option Challenge.t) :=
  let e_name :=
    if bool_decide (post_challenge_name data = "")
    then [("name", "This field is required.")]
    else
      (if bool_decide (100 < len (post_challenge_name data))
       then [("name", "Ensure this value has at most 100 characters.")] else [])
      ++ (if has_null (post_challenge_name data)
          then [("name", "Null characters are not allowed.")] else []) in
  let e_description :=
    if has_null (post_description data)
    then [("description", "Null characters are not allowed.")] else [] in
  let e_start :=
    match post_challenge_start data with
    | None => [("start_date", "This field is required.")] | Some _ => [] end in
  let e_end :=
    match post_challenge_end data with
    | None => [("end_date", "This field is required.")] | Some _ => [] end in
  let instance :=
    Challenge.mk None (match e_name with [] => post_challenge_name data | _ => "" end)
      (match e_description with [] => post_description data | _ => "" end)
      (post_challenge_start data) (post_challenge_end data) None in
  let e_form := ChallengeForm_clean today data in
  match Challenge_clean instance with
  | Raised (ValidationError e_clean) =>
      Returned (match e_name ++ e_description ++ e_start ++ e_end ++ e_form ++ e_clean with
                | [] => Some instance | _ => None end)
  | Raised e => Raised e
  | Returned _ =>
      Returned (match e_name ++ e_description ++ e_start ++ e_end ++ e_form with
                | [] => Some instance | _ => None end)
  end.

(** [challenge_create], views.py lines 383-395.  The challenge is saved
    under the next key with the requester as [created_by]. *)
Definition challenge_create (request : HttpRequest) (today : Z) (data : ChallengePost)
    (s : Store) (cs : gmap nat Challenge.t)
    : outcome response * Store * gmap nat Challenge.t :=
  match request_user request s with
  | None => (Returned (Redirect "habit:login" None), s, cs)
  | Some user =>
      match http_method request with
      | POST =>
          match ChallengeForm_is_valid today data with
          | Returned (Some challenge) =>
              let k := next_pk cs in
              let challenge :=
                Challenge.mk (Some k) (Challenge.name challenge)
                  (Challenge.description challenge) (Challenge.start_date challenge)
                  (Challenge.end_date challenge) (User.pk user) in
              (Returned (Redirect "habit:challenge_list" None),
               set_flash (λ ms, ms ++ [(SUCCESS, "Challenge created successfully!")]) s,
               <[k := challenge]> cs)
          | Returned None => (Returned (Render "habit/challenges/challenge_form.html"), s, cs)
          | Raised e => (Raised e, s, cs)
          end
      | GET => (Returned (Render "habit/challenges/challenge_form.html"), s, cs)
      end
  end.

(** ** More of the small world *)

(** Two notifications for alice, one of them read, and one for bob. *)
Definition inbox : gmap nat Notification.t :=
  <[3 := Notification.mk (Some 3) 2 "alice sent you a request" false 30]>
  (<[2 := Notification.mk (Some 2) 1 "Streak: 3 days" false 20]>
  (<[1 := Notification.mk (Some 1) 1 "Welcome" true 10]> ∅)).

(** bob owns a habit too, and alice has a log and a streak for hers. *)
Definition reading : Habit.t := Habit.mk (Some 2) 2 "reading" "daily" None 5 true 0 None.

Definition world_logs : Store :=
  set_streaks (insert 1 (Streak.mk (Some 1) 1 1 0 0 true None))
    (set_habit_logs (insert 2 (HabitLog.mk (Some 2) (Some 2) 100 5 true "done")
                     ∘ insert 1 (HabitLog.mk (Some 1) (Some 1) 100 3 false "pending"))
       (set_habits (insert 2 reading) world)).

(** A history that fills every table. *)
Definition busy_day : list op :=
  [ Request (V_register (mkUserPost "alice@example.org" "alice" "" true)) (mkRequest None POST);
    Request (V_register (mkUserPost "bob@example.org" "bob" "" true)) (mkRequest None POST);
    Request (V_habit_add (mkHabitPost "water" "daily" None (Some 10%Z) (Some 5%Z) None))
      (as_user 1);
    Request (V_log_add 100 1 (post_log 1 100 3)) (as_user 1);
    SaveStreak (Streak_new 1 1);
    SaveFriendRequest (FriendRequest.mk None (Some 1) (Some 2) false);
    Request (V_friend_request_accept 1) (as_user 2) ].

Definition busy_store : Store := foldl (λ s o, run o s) empty_store busy_day.

(** The same day before bob answers: the request of alice is pending. *)
Definition asked_store : Store := foldl (λ s o, run o s) empty_store (take 6 busy_day).

(** ** The statements of [friend_request_accept]

    The view opens no transaction, so each statement that writes is
    committed when it returns.  These are the statements of views.py
    lines 169-172 once the request and its sender are loaded, and
    [sequence] runs statements one after the other. *)
Definition friend_request_accept_statements (user from_user : User.t)
    (fr : FriendRequest.t) : list (M unit) :=
  [ Friendship_get_or_create (the_pk (User.pk user)) (the_pk (User.pk from_user)) ;;; ret tt;
    Friendship_get_or_create (the_pk (User.pk from_user)) (the_pk (User.pk user)) ;;; ret tt;
    Model_delete set_friend_requests FriendRequest.pk fr;
    messages_add SUCCESS ("You are now friends with " +:+ User.username from_user) ].

Fixpoint sequence (ms : list (M unit)) : M unit :=
  match ms with
  | [] => ret tt
  | m :: ms => m ;;; sequence ms
  end.

(** * Reasoning about computations *)

Lemma bind_Returned {A B} (m : M A) (k : A → M B) s b s' :
  bind m k s = (Returned b, s') →
  ∃ a s1, m s = (Returned a, s1) ∧ k a s1 = (Returned b, s').
Proof.
  unfold bind. destruct (m s) as [[a|e] s1]; [eauto | discriminate].
Qed.

Lemma bind_eq {A B} (m : M A) (k : A → M B) s a s1 :
  m s = (Returned a, s1) → bind m k s = k a s1.
Proof. unfold bind. by intros ->. Qed.

Lemma bind_raised {A B} (m : M A) (k : A → M B) s e s1 :
  m s = (Raised e, s1) → bind m k s = (Raised e, s1).
Proof. unfold bind. by intros ->. Qed.

Section moves.
Context (R : relation Store) `{!PreOrder R}.

Lemma moves_ret {A} (a : A) : moves R (ret a).
Proof. intros s. reflexivity. Qed.

Lemma moves_raise {A} e : moves R (raise (A:=A) e).
Proof. intros s. reflexivity. Qed.

Lemma moves_get : moves R get.
Proof. intros s. reflexivity. Qed.

Lemma moves_modify f : (∀ s, R s (f s)) → moves R (modify f).
Proof. intros H s. apply H. Qed.

Lemma moves_bind {A B} (m : M A) (k : A → M B) :
  moves R m → (∀ a, moves R (k a)) → moves R (bind m k).
Proof.
  intros Hm Hk s. unfold bind. specialize (Hm s).
  destruct (m s) as [[a|e] s1]; simpl in *; [|done].
  etrans; [exact Hm | apply Hk].
Qed.

Lemma moves_try_except {A} (m : M A) h :
  moves R m → (∀ e k, h e = Some k → moves R k) → moves R (try_except m h).
Proof.
  intros Hm Hh s. unfold try_except. specialize (Hm s).
  destruct (m s) as [[a|e] s1]; simpl in *; [done|].
  destruct (h e) as [k|] eqn:E; [|done].
  etrans; [exact Hm | by apply (Hh e k)].
Qed.

Lemma moves_collect (m : M unit) : moves R m → moves R (collect m).
Proof.
  intros Hm. apply moves_try_except.
  - apply moves_bind; [done | intros; apply moves_ret].
  - intros [] k [= <-]; apply moves_ret.
Qed.

Lemma moves_full_clean (clean_fields clean : M unit) validate_unique :
  moves R clean_fields → moves R clean → (∀ ex, moves R (validate_unique ex)) →
  moves R (full_clean clean_fields clean validate_unique).
Proof.
  intros H1 H2 H3. unfold full_clean.
  repeat (apply moves_bind; [by auto using moves_collect | intros ?]).
  destruct (_ ++ _); [apply moves_ret | apply moves_raise].
Qed.

Lemma moves_login_required request view :
  (∀ user, moves R (view user)) → moves R (login_required request view).
Proof.
  intros H. unfold login_required. apply moves_bind; [apply moves_get | intros s].
  destruct (request_user request s); [apply H | apply moves_ret].
Qed.
End moves.

(** Peeling a computation apart along its structure. *)
Ltac moves_step :=
  lazymatch goal with
  | |- moves _ (ret _) => apply moves_ret; try tc_solve
  | |- moves _ (raise _) => apply moves_raise; try tc_solve
  | |- moves _ get => apply moves_get; try tc_solve
  | |- moves _ (bind _ _) => apply moves_bind; [try tc_solve | | intros ?]
  | |- moves _ (collect _) => apply moves_collect; [try tc_solve | ]
  | |- moves _ (full_clean _ _ _) => apply moves_full_clean; [try tc_solve | | | intros ?]
  | |- moves _ (login_required _ _) => apply moves_login_required; [try tc_solve | intros ?]
  | |- moves _ (try_except _ _) =>
      apply moves_try_except;
        [try tc_solve | | intros ? ? ?; repeat case_match; simplify_eq]
  | |- moves _ (if ?b then _ else _) => destruct b
  | |- moves _ (match ?x with _ => _ end) => destruct x
  | |- moves _ (let _ := _ in _) => cbv zeta
  end.

(** The computations that validate only read the store. *)
Ltac reads := repeat (moves_step || done).

Lemma HabitLog_get_habit_reads self : moves eq (HabitLog_get_habit self).
Proof. unfold HabitLog_get_habit. reads. Qed.

Lemma HabitLog_full_clean_reads self : moves eq (HabitLog_full_clean self).
Proof.
  unfold HabitLog_full_clean, HabitLog_clean_fields, HabitLog_clean,
    HabitLog_validate_unique, HabitLog_get_habit.
  reads.
Qed.

Lemma User_full_clean_reads self : moves eq (User_full_clean self).
Proof.
  unfold User_full_clean, User_clean_fields, User_validate_unique. reads.
Qed.

Lemma Habit_full_clean_reads self : moves eq (Habit_full_clean self).
Proof.
  unfold Habit_full_clean, Habit_clean_fields, Habit_clean. reads.
Qed.

Lemma reads_eq {A} (m : M A) s : moves eq m → (m s).2 = s.
Proof. intros H. symmetry. apply H. Qed.

Lemma reads_outcome {A} (m : M A) s o s' : moves eq m → m s = (o, s') → s' = s.
Proof. intros H E. pose proof (reads_eq m s H) as H'. rewrite E in H'. done. Qed.

Lemma collect_validator m s :
  validator m → ∃ errs, collect m s = (Returned errs, s)
                        ∧ (errs = [] ↔ m s = (Returned tt, s)).
Proof.
  intros H. unfold collect, try_except, bind, ret.
  destruct (H s) as [-> | (errs & Hne & ->)]; simpl.
  - exists []. done.
  - exists errs. split; [done|]. split; [done | intros [=]].
Qed.

Lemma HabitLog_clean_fields_validator self : validator (HabitLog_clean_fields self).
Proof.
  intros s. unfold HabitLog_clean_fields, bind, get, ret, raise.
  destruct (_ ++ _) eqn:E; [by left | right]. eexists; split; [|done]. done.
Qed.

Lemma HabitLog_validate_unique_validator self ex :
  validator (HabitLog_validate_unique self ex).
Proof.
  intros s. unfold HabitLog_validate_unique, bind, get, ret, raise.
  destruct (_ || _); [by left|].
  destruct (HabitLog_has_clash _ _ _); [right | by left].
  eexists; split; [|done]. done.
Qed.

Section Model_facts.
Context {R : Type}.
Variable table : Store → gmap nat R.
Variable set_table : (gmap nat R → gmap nat R) → Store → Store.
Variable get_pk : R → option nat.
Variable with_pk : nat → R → R.
Variable violated : Store → nat → R → option string.

Lemma Model_save_Returned self s r s' :
  Model_save table set_table get_pk with_pk violated self s = (Returned r, s') →
  let k := default (next_pk (table s)) (get_pk self) in
  r = with_pk k self ∧ violated s k r = None ∧ s' = set_table (insert k r) s.
Proof.
  unfold Model_save, bind, get, modify, ret, raise. simpl.
  destruct (violated _ _ _) eqn:E; [discriminate|].
  intros [= <- <-]. done.
Qed.

Lemma Model_save_Raised self s e s' :
  Model_save table set_table get_pk with_pk violated self s = (Raised e, s') → s' = s.
Proof.
  unfold Model_save, bind, get, modify, ret, raise. simpl.
  destruct (violated _ _ _) eqn:E; [|discriminate]. by intros [= _ <-].
Qed.

Lemma get_object_or_404_Returned k filters s r s' :
  get_object_or_404 table with_pk k filters s = (Returned r, s') →
  s' = s ∧ ∃ r0, table s !! k = Some r0 ∧ filters r0 = true ∧ r = with_pk k r0.
Proof.
  unfold get_object_or_404, bind, get, ret, raise.
  destruct (table s !! k) as [r0|]; [|discriminate].
  destruct (filters r0) eqn:E; [|discriminate].
  intros [= <- <-]. eauto.
Qed.

Lemma get_object_or_404_reads k filters :
  moves eq (get_object_or_404 table with_pk k filters).
Proof. unfold get_object_or_404. reads. Qed.
End Model_facts.

(** What [HabitLog.save] does when it returns: the row it wrote, under
    which key, and what validation had established. *)
Lemma HabitLog_save_Returned self s self' s' :
  HabitLog_save self s = (Returned self', s') →
  ∃ h habit,
    HabitLog.habit self = Some h ∧ habits s !! h = Some habit ∧
    let k := default (next_pk (habit_logs s)) (HabitLog.pk self) in
    let completed := (Habit.target_per_day habit <=? HabitLog.progress self)%Z in
    self' = HabitLog.mk (Some k) (Some h) (HabitLog.date self) (HabitLog.progress self)
              completed (if completed then "done" else "pending") ∧
    (0 ≤ HabitLog.progress self ≤ Habit.target_per_day habit)%Z ∧
    HabitLog_has_clash s (Some k) self' = false ∧
    s' = set_habit_logs (insert k self') s.
Proof.
  unfold HabitLog_save. intros H.
  apply bind_Returned in H as (habit & s1 & Hh & H).
  pose proof (reads_outcome _ _ _ _ (HabitLog_get_habit_reads self) Hh) as ->.
  cbv zeta in H. apply bind_Returned in H as ([] & s1 & Hc & H).
  pose proof (reads_outcome _ _ _ _ (HabitLog_full_clean_reads _) Hc) as ->.
  apply Model_save_Returned in H as (-> & Hv & ->). simpl in *.
  unfold HabitLog_get_habit, bind, get, ret, raise in Hh.
  destruct (HabitLog.habit self) as [h|] eqn:Eh; [|done].
  destruct (habits s !! h) as [habit'|] eqn:Ehab; simplify_eq.
  exists h, habit.
  assert (HabitLog_has_clash s (Some (default (next_pk (habit_logs s)) (HabitLog.pk self)))
            (HabitLog.mk (Some (default (next_pk (habit_logs s)) (HabitLog.pk self)))
               (Some h) (HabitLog.date self) (HabitLog.progress self)
               (Habit.target_per_day habit <=? HabitLog.progress self)%Z
               (if (Habit.target_per_day habit <=? HabitLog.progress self)%Z
                then "done" else "pending")) = false
          ∧ (0 ≤ HabitLog.progress self)%Z) as [Hclash Hpos].
  { unfold HabitLog_violated, HabitLog_with_pk in Hv. simpl in Hv.
    rewrite bool_decide_eq_false_2 in Hv; [|by rewrite Ehab].
    destruct (HabitLog.progress self <? 0)%Z eqn:Eneg; [done|].
    apply Z.ltb_ge in Eneg. split; [|done].
    by destruct (HabitLog_has_clash _ _ _). }
  split_and!; try done.
  (* validation passed, so [clean] did *)
  revert Hc. unfold HabitLog_full_clean, full_clean.
  set (inst := HabitLog.mk _ _ _ _ _ _).
  destruct (collect_validator _ s (HabitLog_clean_fields_validator inst))
    as (e1 & E1 & Hf).
  rewrite (bind_eq _ _ _ _ _ E1).
  assert (Hclean : HabitLog_clean inst s =
    if (Habit.target_per_day habit <? HabitLog.progress self)%Z
    then (Raised (ValidationError
            [("progress", "Progress cannot exceed the daily target of "
                          +:+ pretty (Habit.target_per_day habit) +:+ ".")]), s)
    else (Returned tt, s)).
  { unfold HabitLog_clean, HabitLog_get_habit, bind, get, ret, raise. simpl.
    rewrite Ehab. by destruct (_ <? _)%Z. }
  destruct (Habit.target_per_day habit <? HabitLog.progress self)%Z eqn:Elt.
  - unfold collect at 1, try_except, bind at 1 2. rewrite Hclean. simpl.
    clear E1. unfold bind.
    match goal with
    | |- context [collect (HabitLog_validate_unique ?i ?ex) ?s] =>
        destruct (collect (HabitLog_validate_unique i ex) s) as [[e3|?] ?]
    end; simpl; [|done].
    by destruct e1.
  - apply Z.ltb_ge in Elt. lia.
Qed.

Lemma HabitLog_save_Raised self s e s' :
  HabitLog_save self s = (Raised e, s') → s' = s.
Proof.
  unfold HabitLog_save, bind. intros H.
  destruct (HabitLog_get_habit self s) as [[habit|?] s1] eqn:Hh;
    pose proof (reads_outcome _ _ _ _ (HabitLog_get_habit_reads self) Hh) as ->;
    [|by simplify_eq].
  cbv zeta in H.
  destruct (HabitLog_full_clean _ s) as [[[]|?] s1] eqn:Hc;
    pose proof (reads_outcome _ _ _ _ (HabitLog_full_clean_reads _) Hc) as ->;
    [|by simplify_eq].
  by apply Model_save_Raised in H.
Qed.

(** What a valid [HabitLogForm] had to establish. *)
Lemma HabitLogForm_is_valid_reads form_habit instance data :
  moves eq (HabitLogForm_is_valid form_habit instance data).
Proof.
  unfold HabitLogForm_is_valid, HabitLogForm_progress_field, clean_progress,
    HabitLog_clean, HabitLog_validate_unique, HabitLog_get_habit.
  reads.
Qed.

Lemma collect_Returned_nil m s s' :
  collect m s = (Returned [], s') → m s = (Returned tt, s') ∨ m s = (Raised (ValidationError []), s').
Proof.
  unfold collect, try_except, bind, ret.
  destruct (m s) as [[[]|e] s1]; simpl.
  - intros [= <-]. by left.
  - destruct e; try done. simpl. intros [= -> <-]. by right.
Qed.

Lemma HabitLog_clean_eq self s h habit :
  HabitLog.habit self = Some h → habits s !! h = Some habit →
  HabitLog_clean self s =
    if (Habit.target_per_day habit <? HabitLog.progress self)%Z
    then (Raised (ValidationError
            [("progress", "Progress cannot exceed the daily target of "
                          +:+ pretty (Habit.target_per_day habit) +:+ ".")]), s)
    else (Returned tt, s).
Proof.
  intros Eh Ehab.
  unfold HabitLog_clean, HabitLog_get_habit, bind, get, ret, raise.
  rewrite Eh, Ehab. by destruct (_ <? _)%Z.
Qed.

Lemma HabitLogForm_is_valid_Some form_habit instance data s log s' :
  HabitLogForm_is_valid form_habit instance data s = (Returned (Some log), s') →
  s' = s ∧
  ∃ h habit d st p,
    data = mkLogPost (Some h) (Some d) (Some st) (Some p) ∧
    habits s !! h = Some habit ∧
    log = HabitLog.mk (HabitLog.pk instance) (Some h) d p (HabitLog.completed instance) st ∧
    (0 ≤ p ≤ Habit.target_per_day habit)%Z ∧
    (∀ fh, form_habit = Some fh → (p ≤ Habit.target_per_day fh)%Z) ∧
    HabitLog_has_clash s (HabitLog.pk instance) log = false.
Proof.
  intros H.
  pose proof (reads_outcome _ _ _ _ (HabitLogForm_is_valid_reads _ _ _) H) as ->.
  split; [done|]. revert H.
  unfold HabitLogForm_is_valid. intros H.
  apply bind_Returned in H as (s0 & s1 & Hg & H).
  injection Hg as Hs0 Hs1. subst s0 s1.
  apply bind_Returned in H as (e_progress & s1 & Hp & H). cbv zeta in H.
  apply bind_Returned in H as (e_clean & s2 & Hc & H).
  apply bind_Returned in H as (e_unique & s3 & Hu & H).
  destruct (_ ++ _) eqn:E in H; [|discriminate]. injection H as Hlog Hs3. subst s3 log.
  apply app_eq_nil in E as [E1 E2].
  apply app_eq_nil in E2 as [-> ->].
  apply app_eq_nil in E1 as [Ehabit E1].
  apply app_eq_nil in E1 as [Edate E1].
  apply app_eq_nil in E1 as [Estatus ->].
  assert (s1 = s) as ->.
  { eapply reads_outcome; [|exact Hp].
    unfold HabitLogForm_progress_field, clean_progress. reads. }
  assert (s2 = s) as ->.
  { eapply reads_outcome; [|exact Hc]. unfold HabitLog_clean, HabitLog_get_habit. reads. }
  destruct data as [ph pd pst pp].
  unfold HabitLogForm_habit_errors, HabitLogForm_date_errors, HabitLogForm_status_errors in *.
  simpl in *.
  destruct ph as [h|]; [|done].
  destruct (habits s !! h) as [habit|] eqn:Ehab; [|done].
  destruct pd as [d|]; [|done]. destruct pst as [st|]; [|done].
  exists h, habit, d, st.
  (* the progress field *)
  unfold HabitLogForm_progress_field in Hp. simpl in Hp.
  destruct pp as [p|]; [|by apply collect_Returned_nil in Hp as [Hp|Hp]].
  exists p.
  destruct (p <? 0)%Z eqn:Eneg; [by apply collect_Returned_nil in Hp as [Hp|Hp]|].
  apply Z.ltb_ge in Eneg.
  assert (Hfh : ∀ fh, form_habit = Some fh → (p ≤ Habit.target_per_day fh)%Z).
  { intros fh ->. apply collect_Returned_nil in Hp.
    unfold clean_progress, bind, raise, ret in Hp.
    destruct (Habit.target_per_day fh <? p)%Z eqn:E'; [by destruct Hp|].
    by apply Z.ltb_ge in E'. }
  unfold construct_instance, cleaned in *. simpl in *.

  destruct (bool_decide (st ∈ STATUS_CHOICES)); [|done]. simpl in *.
  apply collect_Returned_nil in Hc.
  erewrite HabitLog_clean_eq in Hc by done. simpl in Hc.
  destruct (Habit.target_per_day habit <? p)%Z eqn:Elt; [by destruct Hc|].
  apply Z.ltb_ge in Elt.
  split_and!; try done.
  apply collect_Returned_nil in Hu.
  unfold HabitLog_validate_unique, bind, get, ret, raise in Hu. simpl in Hu.
  destruct (HabitLog_has_clash _ _ _); [by destruct Hu | done].
Qed.

(** ** Invariants along the steps *)

#[global] Instance keeps_preorder I : PreOrder (keeps I).
Proof.
  split; [intros s Hs; exact Hs | intros s1 s2 s3 H1 H2 H; exact (H2 (H1 H))].
Qed.

Ltac unfold_views :=
  unfold dispatch, register, edit_profile, habit_add, habit_edit, habit_delete,
    log_add, log_edit, reward_add, reward_claim, friend_request_send,
    friend_request_accept, friend_request_reject, friend_remove,
    friend_request_send_try, Friendship_get_or_create, UserForm_is_valid,
    HabitForm_is_valid, HabitLogForm_is_valid, FriendRequestForm_is_valid,
    HabitLogForm_progress_field, clean_progress, clean_target_per_day,
    HabitForm_clean, clean_to_user_email, cleaned_data_get, User_objects_get_email,
    User_deref, Reward_getattr, pyval_add, messages_add,
    FriendRequest_clean, FriendRequest_get_from_user, FriendRequest_get_to_user,
    HabitLog_clean, HabitLog_get_habit, HabitLog_validate_unique,
    HabitLog_clean_fields, Habit_clean_fields, Habit_clean,
    User_clean_fields, User_validate_unique,
    HabitLog_full_clean, User_full_clean, Habit_full_clean.

Ltac unfold_writes :=
  unfold User_save, Habit_save, HabitLog_save, Streak_save, Friendship_save,
    FriendRequest_save, Reward_save, Habit_delete, get_or_create, get_object_or_404,
    Model_delete.

(** [keeps_with tac]: walk through a computation; [tac] settles the writes
    to the table the invariant is about, every other write leaves the
    invariant as it is. *)
Ltac keeps_with tac :=
  repeat first
    [ tac
    | moves_step
    | apply moves_modify; intros ? ?; assumption
    | progress unfold_views
    | progress unfold_writes
    | progress unfold Model_save ].

Section Model_keeps.
Context {R : Type}.
Variable table : Store → gmap nat R.
Variable set_table : (gmap nat R → gmap nat R) → Store → Store.
Variable get_pk : R → option nat.
Variable with_pk : nat → R → R.
Variable violated : Store → nat → R → option string.

Lemma Model_save_keeps (I : Store → Prop) self :
  (∀ s k row, I s → violated s k row = None → I (set_table (insert k row) s)) →
  moves (keeps I) (Model_save table set_table get_pk with_pk violated self).
Proof.
  intros H s Hs. unfold Model_save, bind, get, modify, ret, raise. simpl.
  destruct (violated _ _ _) eqn:E; simpl; [done|]. by apply H.
Qed.
End Model_keeps.

Lemma User_Model_save_keeps self :
  moves (keeps points_nonnegative)
    (Model_save users set_users User.pk User_with_pk User_violated self).
Proof.
  apply Model_save_keeps. intros s k row Hs Hv.
  unfold points_nonnegative. simpl. apply map_Forall_insert_2; [|done].
  unfold User_violated in Hv. destruct (User.points row <? 0)%Z eqn:E; [done|].
  by apply Z.ltb_ge in E.
Qed.

Lemma run_points_nonnegative o s :
  points_nonnegative s → points_nonnegative (run o s).
Proof.
  assert (∀ A (m : M A), moves (keeps points_nonnegative) m →
            points_nonnegative s → points_nonnegative (m s).2) as H.
  { intros A m Hm. apply Hm. }
  destruct o as [v request| | | | | | | |]; simpl; apply H;
    [destruct v; simpl|..];
    keeps_with ltac:(apply User_Model_save_keeps).
Qed.

Lemma HabitLog_no_clash s k row :
  HabitLog_has_clash s (Some k) row = false →
  ∀ k' r, habit_logs s !! k' = Some r →
    HabitLog.habit r = HabitLog.habit row → HabitLog.date r = HabitLog.date row → k' = k.
Proof.
  unfold HabitLog_has_clash. intros H%bool_decide_eq_false k' r Hr Eh Ed.
  destruct (decide (k' = k)) as [|Hne]; [done|]. exfalso. apply H.
  exists k', r. split; [done|]. unfold HabitLog_clash.
  rewrite (bool_decide_eq_true_2 _ Eh), (bool_decide_eq_true_2 _ Ed). simpl.
  rewrite bool_decide_eq_false_2; [done | congruence].
Qed.

Lemma HabitLog_Model_save_keeps self :
  moves (keeps logs_unique)
    (Model_save habit_logs set_habit_logs HabitLog.pk HabitLog_with_pk HabitLog_violated self).
Proof.
  apply Model_save_keeps. intros s k row Hs Hv.
  assert (HabitLog_has_clash s (Some k) row = false) as Hc.
  { unfold HabitLog_violated in Hv. repeat case_match; simplify_eq. done. }
  pose proof (HabitLog_no_clash _ _ _ Hc) as Hn.
  intros k1 k2 l1 l2. simpl. rewrite !lookup_insert.
  repeat case_decide; intros; simplify_eq; eauto.
  symmetry. eauto.
Qed.

Lemma filter_keeps_logs_unique P `{∀ x, Decision (P x)} :
  moves (keeps logs_unique) (modify (set_habit_logs (filter P))).
Proof.
  apply moves_modify. intros s Hs k1 k2 l1 l2. simpl.
  intros [H1 _]%map_lookup_filter_Some [H2 _]%map_lookup_filter_Some. by apply Hs.
Qed.

Lemma run_logs_unique o s : logs_unique s → logs_unique (run o s).
Proof.
  assert (∀ A (m : M A), moves (keeps logs_unique) m →
            logs_unique s → logs_unique (m s).2) as H.
  { intros A m Hm. apply Hm. }
  destruct o as [v request| | | | | | | |]; simpl; apply H;
    [destruct v; simpl|..];
    keeps_with ltac:(first [apply HabitLog_Model_save_keeps | apply filter_keeps_logs_unique]).
Qed.

Lemma filter_keeps_streaks_ordered P `{∀ x, Decision (P x)} :
  moves (keeps streaks_ordered) (modify (set_streaks (filter P))).
Proof.
  apply moves_modify. intros s Hs k x. simpl.
  intros [H1 _]%map_lookup_filter_Some. by apply (Hs k).
Qed.

Lemma Streak_Model_save_keeps self :
  (Streak.current_streak self ≤ Streak.longest_streak self)%Z →
  moves (keeps streaks_ordered)
    (Model_save streaks set_streaks Streak.pk Streak_with_pk Streak_violated self).
Proof.
  intros Hle s Hs. unfold Model_save, bind, get, modify, ret, raise. simpl.
  destruct (Streak_violated _ _ _); simpl; [done|].
  apply map_Forall_insert_2; [done|done].
Qed.

Lemma run_streaks_ordered o s :
  match o with
  | SaveStreak x => (Streak.current_streak x ≤ Streak.longest_streak x)%Z
  | _ => True
  end →
  streaks_ordered s → streaks_ordered (run o s).
Proof.
  assert (∀ A (m : M A), moves (keeps streaks_ordered) m →
            streaks_ordered s → streaks_ordered (m s).2) as H.
  { intros A m Hm. apply Hm. }
  intros Ho.
  destruct o as [v request| | | | |x| | |]; simpl; apply H;
    [destruct v; simpl|..];
    keeps_with ltac:(first [by apply Streak_Model_save_keeps
                           | apply filter_keeps_streaks_ordered]).
Qed.

(** ** Lookups *)

Section objects.
Context {R : Type} (P : R → bool) (table : gmap nat R).

Lemma elem_of_objects_filter k r :
  (k, r) ∈ objects_filter P table ↔ table !! k = Some r ∧ P r = true.
Proof.
  unfold objects_filter. rewrite elem_of_map_to_list, map_lookup_filter_Some. done.
Qed.

Lemma objects_get_One k r :
  objects_get P table = One k r → table !! k = Some r ∧ P r = true.
Proof.
  unfold objects_get. intros H. apply elem_of_objects_filter.
  destruct (objects_filter P table) as [|[k' r'] [|]]; simplify_eq. set_solver.
Qed.

Lemma objects_get_DoesNotExist k r :
  objects_get P table = DoesNotExist → table !! k = Some r → P r = false.
Proof.
  unfold objects_get. intros H Hk.
  destruct (P r) eqn:E; [|done].
  assert ((k, r) ∈ objects_filter P table) as Hin by by apply elem_of_objects_filter.
  destruct (objects_filter P table) as [|[k' r'] [|]]; simplify_eq. set_solver.
Qed.

Lemma objects_get_Multiple :
  objects_get P table = Multiple →
  ∃ k1 k2 r1 r2, k1 ≠ k2 ∧ table !! k1 = Some r1 ∧ P r1 = true
                 ∧ table !! k2 = Some r2 ∧ P r2 = true.
Proof.
  unfold objects_get. intros H.
  pose proof (NoDup_map_to_list (filter (λ kv, P kv.2 = true) table)) as Hnd.
  fold (objects_filter P table) in Hnd.
  assert (∀ kr, kr ∈ objects_filter P table → table !! kr.1 = Some kr.2 ∧ P kr.2 = true)
    as Hall by (intros [??]; apply elem_of_objects_filter).
  destruct (objects_filter P table) as [|[k1 r1] [|[k2 r2] l]]; simplify_eq.
  exists k1, k2, r1, r2.
  destruct (Hall (k1, r1)) as [H1 H1']; [apply list_elem_of_here|].
  destruct (Hall (k2, r2)) as [H2 H2'];
    [apply list_elem_of_further, list_elem_of_here|].
  split_and!; try done. intros ->. simpl in *. simplify_eq.
  apply NoDup_cons in Hnd as [Hnd _]. apply Hnd, list_elem_of_here.
Qed.

Lemma objects_exists_false k r :
  objects_exists P table = false → table !! k = Some r → P r = false.
Proof.
  unfold objects_exists. intros H Hk.
  destruct (P r) eqn:E; [|done].
  assert ((k, r) ∈ objects_filter P table) as Hin by by apply elem_of_objects_filter.
  destruct (objects_filter P table); [set_solver | done].
Qed.
End objects.

Lemma Friendship_is_true u f r :
  Friendship_is u f r = true ↔ Friendship.user r = u ∧ Friendship.friend r = f.
Proof.
  unfold Friendship_is. rewrite andb_true_iff, !bool_decide_eq_true. done.
Qed.

Lemma next_pk_fresh {R} (table : gmap nat R) : table !! next_pk table = None.
Proof.
  unfold next_pk. apply not_elem_of_dom.
  pose proof (is_fresh ({[0]} ∪ dom table)) as H. set_solver.
Qed.


Lemma request_user_Some request s user :
  request_user request s = Some user →
  ∃ k u, session_user request = Some k ∧ users s !! k = Some u ∧ user = User_with_pk k u.
Proof.
  unfold request_user. destruct (session_user request) as [k|]; simpl; [|done].
  destruct (users s !! k) as [u|] eqn:E; simpl; [|done]. intros [= <-]. by exists k, u.
Qed.

(** ** The log views *)

(** What [log_add] can do to the logs: nothing, or one [HabitLog.save] of
    the posted values under the habit of the URL. *)
Lemma log_add_cases request today habit_id data s out s' :
  log_add request today habit_id data s = (out, s') →
  habit_logs s' = habit_logs s
  ∨ ∃ habit h d st p log',
      habits s !! habit_id = Some habit ∧
      data = mkLogPost (Some h) (Some d) (Some st) (Some p) ∧
      (p ≤ Habit.target_per_day habit)%Z ∧
      (∀ k l, habit_logs s !! k = Some l →
              HabitLog.habit l = Some habit_id → HabitLog.date l ≠ today) ∧
      HabitLog_save (HabitLog.mk None (Some habit_id) d p false st) s = (Returned log', s').
Proof.
  unfold log_add. unfold bind at 1, get at 1.
  destruct (request_user request s) as [user|]; [|intros [= <- <-]; by left].
  unfold bind at 1.
  destruct (get_object_or_404 _ _ _ _ s) as [[habit|e1] s1] eqn:Eg.
  2:{ intros [= <- <-]. left. f_equal. eapply reads_outcome; [|exact Eg].
      apply get_object_or_404_reads. }
  apply get_object_or_404_Returned in Eg as (-> & habit0 & Hhab & _ & ->).
  unfold bind at 1, get at 1.
  destruct (objects_get _ _) eqn:Eo; [intros [= <- <-]; by left| |intros [= <- <-]; by left].
  assert (∀ k l, habit_logs s !! k = Some l →
                 HabitLog.habit l = Some habit_id → HabitLog.date l ≠ today) as Htoday.
  { intros k l Hk Hh Hd.
    pose proof (objects_get_DoesNotExist _ _ _ _ Eo Hk) as Hf. simpl in Hf.
    rewrite !bool_decide_eq_true_2 in Hf by done. done. }
  destruct (http_method request); [intros [= <- <-]; by left|].
  unfold bind at 1.
  destruct (HabitLogForm_is_valid _ _ _ s) as [[[log|]|e1] s1] eqn:Ef.
  - apply HabitLogForm_is_valid_Some in Ef
      as (-> & h & habit & d & st & p & -> & Hh & -> & Hrange & Hfh & Hclash).
    unfold HabitLog_with_habit. simpl.
    unfold bind at 1.
    destruct (HabitLog_save _ s) as [[log'|e1] s1] eqn:Es; intros [= <- <-].
    + right. exists habit0, h, d, st, p, log'. split_and!; try done.
      apply (Hfh _ eq_refl).
    + left. f_equal. by apply HabitLog_save_Raised in Es.
  - pose proof (reads_outcome _ _ _ _ (HabitLogForm_is_valid_reads _ _ _) Ef) as ->.
    intros [= <- <-]. by left.
  - pose proof (reads_outcome _ _ _ _ (HabitLogForm_is_valid_reads _ _ _) Ef) as ->.
    intros [= <- <-]. by left.
Qed.

(** What [log_edit] can do to the logs: nothing, or one [HabitLog.save]
    of the posted values under the key of the log that is edited. *)
Lemma log_edit_cases request pk data s out s' :
  log_edit request pk data s = (out, s') →
  habit_logs s' = habit_logs s
  ∨ ∃ log0 h habit d st p log',
      habit_logs s !! pk = Some log0 ∧
      data = mkLogPost (Some h) (Some d) (Some st) (Some p) ∧
      habits s !! h = Some habit ∧
      (p ≤ Habit.target_per_day habit)%Z ∧
      HabitLog_save (HabitLog.mk (Some pk) (Some h) d p (HabitLog.completed log0) st) s
        = (Returned log', s').
Proof.
  unfold log_edit, login_required. unfold bind at 1, get at 1.
  destruct (request_user request s) as [user|]; [|intros [= <- <-]; by left].
  unfold bind at 1, get at 1. unfold bind at 1.
  destruct (get_object_or_404 _ _ _ _ s) as [[log|e1] s1] eqn:Eg.
  2:{ intros [= <- <-]. left. f_equal. eapply reads_outcome; [|exact Eg].
      apply get_object_or_404_reads. }
  apply get_object_or_404_Returned in Eg as (-> & log0 & Hlog & _ & ->).
  destruct (http_method request); [intros [= <- <-]; by left|].
  unfold bind at 1.
  destruct (HabitLogForm_is_valid _ _ _ s) as [[[log|]|e1] s1] eqn:Ef.
  - apply HabitLogForm_is_valid_Some in Ef
      as (-> & h & habit & d & st & p & -> & Hh & -> & Hrange & Hfh & Hclash).
    simpl. unfold bind at 1.
    destruct (HabitLog_save _ s) as [[log'|e1] s1] eqn:Es; intros [= <- <-].
    + right. exists log0, h, habit, d, st, p, log'. split_and!; try done. lia.
    + left. f_equal. by apply HabitLog_save_Raised in Es.
  - pose proof (reads_outcome _ _ _ _ (HabitLogForm_is_valid_reads _ _ _) Ef) as ->.
    intros [= <- <-]. by left.
  - pose proof (reads_outcome _ _ _ _ (HabitLogForm_is_valid_reads _ _ _) Ef) as ->.
    intros [= <- <-]. by left.
Qed.

(** ** Saving a user *)

Lemma User_save_Raised self s e s' : User_save self s = (Raised e, s') → s' = s.
Proof.
  unfold User_save. cbv zeta. unfold bind. intros H.
  destruct (User_full_clean _ s) as [[[]|?] s1] eqn:Hc;
    pose proof (reads_outcome _ _ _ _ (User_full_clean_reads _) Hc) as ->;
    [|by simplify_eq].
  by apply Model_save_Raised in H.
Qed.

Lemma User_save_Returned self s self' s' :
  User_save self s = (Returned self', s') →
  ∃ k, User.pk self' = Some k ∧ User.points self' = User.points self
       ∧ s' = set_users (insert k self') s.
Proof.
  unfold User_save. cbv zeta. intros H.
  apply bind_Returned in H as ([] & s1 & Hc & H).
  pose proof (reads_outcome _ _ _ _ (User_full_clean_reads _) Hc) as ->.
  apply Model_save_Returned in H as (-> & _ & ->). simpl. eauto.
Qed.

(** With enough points the view never gets past [reward.claimed_by]: it
    raises, reports nothing and records nothing; the debit stays if the
    user could be saved. *)
Lemma reward_claim_affordable request pk s user reward :
  request_user request s = Some user →
  rewards s !! pk = Some reward →
  (Reward.points_required reward ≤ User.points user)%Z →
  ∃ e s',
    reward_claim request pk s = (Raised e, s')
    ∧ rewards s' = rewards s ∧ flash s' = flash s
    ∧ (s' = s
       ∨ e = AttributeError "claimed_by"
         ∧ ∃ k user', s' = set_users (insert k user') s
             ∧ User.points user' = (User.points user - Reward.points_required reward)%Z).
Proof.
  intros Hu Hr Hle.
  unfold reward_claim, login_required. unfold bind at 1, get at 1. rewrite Hu.
  unfold get_object_or_404. unfold bind at 1 2 3, get at 1. rewrite Hr.
  unfold ret at 1. simpl.
  apply Z.leb_le in Hle. rewrite Hle.
  unfold bind at 1.
  destruct (User_save _ s) as [[user'|e] s1] eqn:Es.
  - apply User_save_Returned in Es as (k & Hk & Hp & ->).
    exists (AttributeError "claimed_by"). eexists. split; [reflexivity|].
    split_and!; try done. right. split; [done|]. by exists k, user'.
  - apply User_save_Raised in Es as ->. exists e, s. split_and!; try done. by left.
Qed.

(** ** When a save goes through *)

Lemma HabitLog_has_clash_false s k self :
  (∀ k' r, habit_logs s !! k' = Some r →
           HabitLog.habit r = HabitLog.habit self → HabitLog.date r = HabitLog.date self →
           k = Some k') →
  HabitLog_has_clash s k self = false.
Proof.
  intros H. unfold HabitLog_has_clash. apply bool_decide_eq_false.
  intros (k' & r & Hr & Hc). unfold HabitLog_clash in Hc.
  apply andb_true_iff in Hc as [[Hh Hd]%andb_true_iff Hk].
  apply bool_decide_eq_true in Hh, Hd. apply negb_true_iff, bool_decide_eq_false in Hk.
  apply Hk. by eapply H.
Qed.

(** A save goes through when the habit exists, the progress is within
    0 and the target, and no other log has the pair (habit, date). *)
Lemma HabitLog_save_succeeds self s h habit :
  HabitLog.habit self = Some h → habits s !! h = Some habit →
  (0 ≤ HabitLog.progress self ≤ Habit.target_per_day habit)%Z →
  (∀ k' r, habit_logs s !! k' = Some r →
           HabitLog.habit r = Some h → HabitLog.date r = HabitLog.date self →
           HabitLog.pk self = Some k') →
  ∃ self' s', HabitLog_save self s = (Returned self', s').
Proof.
  intros Eh Ehab [Hpos Hle] Hfree.
  unfold HabitLog_save.
  assert (HabitLog_get_habit self s = (Returned habit, s)) as E0.
  { unfold HabitLog_get_habit, bind, get, ret. by rewrite Eh, Ehab. }
  rewrite (bind_eq _ _ _ _ _ E0). cbv zeta.
  set (inst := HabitLog.mk _ _ _ _ _ _).
  assert (HabitLog_full_clean inst s = (Returned tt, s)) as Efc.
  { unfold HabitLog_full_clean, full_clean.
    assert (collect (HabitLog_clean_fields inst) s = (Returned [], s)) as E1.
    { unfold HabitLog_clean_fields, collect, try_except, bind, get, ret. simpl.
      rewrite Eh, Ehab. simpl.
      apply Z.ltb_ge in Hpos. rewrite Hpos.
      by destruct (Habit.target_per_day habit <=? HabitLog.progress self)%Z. }
    rewrite (bind_eq _ _ _ _ _ E1).
    assert (collect (HabitLog_clean inst) s = (Returned [], s)) as E2.
    { unfold collect, try_except, bind.
      rewrite (HabitLog_clean_eq inst s h habit Eh Ehab). simpl.
      by apply Z.ltb_ge in Hle as ->. }
    rewrite (bind_eq _ _ _ _ _ E2).
    assert (collect (HabitLog_validate_unique inst []) s = (Returned [], s)) as E3.
    { unfold HabitLog_validate_unique, collect, try_except, bind, get, ret. simpl.
      rewrite HabitLog_has_clash_false; [done|].
      intros k' r Hr Hh Hd. simpl in *. apply (Hfree k' r Hr); congruence. }
    simpl. rewrite (bind_eq _ _ _ _ _ E3). done. }
  rewrite (bind_eq _ _ _ _ _ Efc).
  unfold Model_save, bind, get, modify, ret.
  assert (HabitLog_violated s (default (next_pk (habit_logs s)) (HabitLog.pk inst))
            (HabitLog_with_pk (default (next_pk (habit_logs s)) (HabitLog.pk inst)) inst)
          = None) as ->; [|by eexists _, _].
  unfold HabitLog_violated. simpl. rewrite Eh, Ehab. simpl.
  apply Z.ltb_ge in Hpos. rewrite Hpos.
  rewrite HabitLog_has_clash_false; [done|].
  intros k' r Hr Hh Hd. simpl in *.
  rewrite (Hfree k' r Hr); [done|congruence|done].
Qed.

(** * More about the views and the tables *)

(** ** What a view leaves alone *)

#[global] Instance same_preorder {A} (f : Store → A) : PreOrder (same f).
Proof.
  split; [intros s; reflexivity | intros s1 s2 s3 H1 H2; unfold same in *; congruence].
Qed.

(** [same_with tac]: walk through a computation; [tac] settles the places
    where the table is written, every other write is to another table. *)
Ltac same_with tac :=
  repeat first
    [ tac
    | moves_step
    | apply moves_modify; intros ?; reflexivity
    | progress unfold_views
    | progress unfold_writes
    | progress unfold Model_save ].

Lemma moves_eq_any {A} (R : relation Store) `{!PreOrder R} (m : M A) :
  moves eq m → moves R m.
Proof. intros H s. rewrite <- (H s). reflexivity. Qed.

(** A reward without an owner cannot be saved. *)
Lemma Reward_save_no_owner self s :
  Reward.user self = None →
  Reward_save self s = (Raised (IntegrityError "NOT NULL user_id"), s).
Proof.
  intros H. unfold Reward_save, Model_save, bind, get, Reward_violated. simpl.
  by rewrite H.
Qed.

(** [FriendRequestForm] bound to the posted data alone never validates:
    [FriendRequest.clean] reads [from_user] of an instance that has none. *)
Lemma FriendRequestForm_is_valid_raises to_user_email s :
  ∃ e, FriendRequestForm_is_valid to_user_email s = (Raised e, s)
       ∧ (e = RelatedObjectDoesNotExist "from_user" ∨ e = MultipleObjectsReturned).
Proof.
  unfold FriendRequestForm_is_valid. cbv zeta.
  destruct to_user_email as [[|a email]|].
  - eexists; split; [reflexivity | by left].
  - unfold clean_to_user_email, try_except, bind at 1 2 3, get at 1.
    destruct (objects_get _ _) as [k u| |]; simpl.
    + eexists; split; [reflexivity | by left].
    + eexists; split; [reflexivity | by left].
    + eexists; split; [reflexivity | by right].
  - eexists; split; [reflexivity | by left].
Qed.

Lemma friend_request_send_eq request to_user_email s :
  friend_request_send request to_user_email s =
    match request_user request s with
    | None => (Returned (Redirect "habit:login" None), s)
    | Some _ =>
        match http_method request with
        | GET => (Returned (Render "habit/friends.html"), s)
        | POST =>
            match FriendRequestForm_is_valid to_user_email s with
            | (Raised e, _) => (Raised e, s)
            | (Returned _, _) => (Raised MultipleObjectsReturned, s)
            end
        end
    end.
Proof.
  unfold friend_request_send, login_required. unfold bind at 1, get at 1.
  destruct (request_user request s); [|done].
  destruct (http_method request); [done|].
  destruct (FriendRequestForm_is_valid_raises to_user_email s) as (e & E & _).
  rewrite (bind_raised _ _ _ _ _ E). by rewrite E.
Qed.

Lemma friend_request_send_reads request to_user_email :
  moves eq (friend_request_send request to_user_email).
Proof.
  intros s. rewrite friend_request_send_eq.
  destruct (request_user request s); [|done].
  destruct (http_method request); [done|].
  by destruct (FriendRequestForm_is_valid _ _) as [[?|?] ?].
Qed.

Lemma dispatch_same_users v request :
  writes_users v = false → moves (same users) (dispatch v request).
Proof.
  intros H. destruct v; try discriminate; simpl; same_with fail.
Qed.

Lemma dispatch_same_habits v request :
  writes_habits v = false → moves (same habits) (dispatch v request).
Proof.
  intros H. destruct v; try discriminate; simpl; same_with fail.
Qed.

Lemma dispatch_same_habit_logs v request :
  writes_habit_logs v = false → moves (same habit_logs) (dispatch v request).
Proof.
  intros H. destruct v; try discriminate; simpl; same_with fail.
Qed.

Lemma dispatch_same_friendships v request :
  writes_friendships v = false → moves (same friendships) (dispatch v request).
Proof.
  intros H. destruct v; try discriminate; simpl; same_with fail.
Qed.

Lemma dispatch_same_friend_requests v request :
  writes_friend_requests v = false → moves (same friend_requests) (dispatch v request).
Proof.
  intros H. destruct v; try discriminate; simpl;
    try (apply moves_eq_any; [tc_solve | apply friend_request_send_reads]);
    same_with fail.
Qed.

Lemma dispatch_same_rewards v request : moves (same rewards) (dispatch v request).
Proof.
  destruct v; simpl;
    same_with ltac:(
      idtac; lazymatch goal with
      | |- moves _ (Reward_save _) =>
          intros s; rewrite Reward_save_no_owner by done; reflexivity
      end).
Qed.

#[global] Instance fewer_streaks_preorder : PreOrder fewer_streaks.
Proof.
  split; [intros s; unfold fewer_streaks; done |].
  intros s1 s2 s3 H1 H2. unfold fewer_streaks in *. by etrans.
Qed.

Lemma dispatch_fewer_streaks v request : moves fewer_streaks (dispatch v request).
Proof.
  destruct v; simpl;
    same_with ltac:(
      idtac; lazymatch goal with
      | |- moves _ (modify (set_streaks (filter _))) =>
          apply moves_modify; intros s; apply map_filter_subseteq
      | |- moves _ (modify _) =>
          apply moves_modify; intros s; unfold fewer_streaks; simpl; reflexivity
      end).
Qed.

(** ** Uniqueness *)

Lemma other_user_has_false s k (P : User.t → Prop) `{∀ u, Decision (P u)} :
  other_user_has s (Some k) P = false →
  ∀ k' u, users s !! k' = Some u → P u → k' = k.
Proof.
  unfold other_user_has. intros Hf%bool_decide_eq_false k' u Hu HP.
  destruct (decide (k' = k)) as [|Hne]; [done|]. exfalso. apply Hf.
  exists k', u. split; [done|]. split; [done | congruence].
Qed.

Lemma User_Model_save_keeps_unique self :
  moves (keeps users_unique)
    (Model_save users set_users User.pk User_with_pk User_violated self).
Proof.
  apply Model_save_keeps. intros s k row Hs Hv.
  unfold User_violated in Hv.
  destruct (User.points row <? 0)%Z; [done|].
  destruct (other_user_has s (Some k) (λ u, User.email u = User.email row)) eqn:He; [done|].
  destruct (other_user_has s (Some k) (λ u, User.username u = User.username row)) eqn:Hn;
    [done|].
  pose proof (other_user_has_false _ _ _ He) as He'.
  pose proof (other_user_has_false _ _ _ Hn) as Hn'.
  intros k1 k2 u1 u2. simpl. rewrite !lookup_insert.
  repeat case_decide; intros H1 H2 Hor; simplify_eq; [done| | |by eapply Hs].
  - symmetry. destruct Hor; eauto.
  - destruct Hor; eauto.
Qed.

Lemma run_users_unique o s : users_unique s → users_unique (run o s).
Proof.
  assert (∀ A (m : M A), moves (keeps users_unique) m →
            users_unique s → users_unique (m s).2) as H.
  { intros A m Hm. apply Hm. }
  destruct o as [v request| | | | | | | |]; simpl; apply H;
    [destruct v; simpl|..];
    keeps_with ltac:(apply User_Model_save_keeps_unique).
Qed.

Lemma Friendship_Model_save_keeps_unique self :
  moves (keeps friendships_unique)
    (Model_save friendships set_friendships Friendship.pk Friendship_with_pk
       Friendship_violated self).
Proof.
  apply Model_save_keeps. intros s k row Hs Hv.
  assert (∀ k' r, friendships s !! k' = Some r →
            Friendship.user r = Friendship.user row →
            Friendship.friend r = Friendship.friend row → k' = k) as Hn.
  { intros k' r Hr Hu Hf. unfold Friendship_violated in Hv.
    repeat case_match; simplify_eq.
    destruct (decide (k' = k)) as [|Hne]; [done|].
    match goal with H : bool_decide (map_Exists _ _) = false |- _ =>
      apply bool_decide_eq_false in H; exfalso; apply H end.
    exists k', r. split; [done|]. split; [by apply Friendship_is_true | done]. }
  intros k1 k2 r1 r2. simpl. rewrite !lookup_insert.
  repeat case_decide; intros; simplify_eq; eauto.
  symmetry. eauto.
Qed.

Lemma run_friendships_unique o s : friendships_unique s → friendships_unique (run o s).
Proof.
  assert (∀ A (m : M A), moves (keeps friendships_unique) m →
            friendships_unique s → friendships_unique (m s).2) as H.
  { intros A m Hm. apply Hm. }
  destruct o as [v request| | | | | | | |]; simpl; apply H;
    [destruct v; simpl|..];
    keeps_with ltac:(apply Friendship_Model_save_keeps_unique).
Qed.

Lemma FriendRequest_Model_save_keeps_unique self :
  moves (keeps friend_requests_unique)
    (Model_save friend_requests set_friend_requests FriendRequest.pk FriendRequest_with_pk
       FriendRequest_violated self).
Proof.
  apply Model_save_keeps. intros s k row Hs Hv.
  assert (∀ k' r, friend_requests s !! k' = Some r →
            FriendRequest.from_user r = FriendRequest.from_user row →
            FriendRequest.to_user r = FriendRequest.to_user row → k' = k) as Hn.
  { intros k' r Hr Hu Hf. unfold FriendRequest_violated in Hv.
    destruct (FriendRequest.from_user row) as [a|] eqn:Ea; [|done].
    destruct (FriendRequest.to_user row) as [b|] eqn:Eb; [|done].
    repeat case_match; simplify_eq.
    destruct (decide (k' = k)) as [|Hne]; [done|].
    match goal with H : bool_decide (map_Exists _ _) = false |- _ =>
      apply bool_decide_eq_false in H; exfalso; apply H end.
    exists k', r. split; [done|]. split; [|done].
    unfold FriendRequest_is. by rewrite !bool_decide_eq_true_2. }
  intros k1 k2 r1 r2. simpl. rewrite !lookup_insert.
  repeat case_decide; intros; simplify_eq; eauto.
  symmetry. eauto.
Qed.

Lemma delete_keeps_friend_requests_unique k :
  moves (keeps friend_requests_unique) (modify (set_friend_requests (delete k))).
Proof.
  apply moves_modify. intros s Hs k1 k2 r1 r2. simpl.
  intros [_ H1]%lookup_delete_Some [_ H2]%lookup_delete_Some. by apply Hs.
Qed.

Lemma run_friend_requests_unique o s :
  friend_requests_unique s → friend_requests_unique (run o s).
Proof.
  assert (∀ A (m : M A), moves (keeps friend_requests_unique) m →
            friend_requests_unique s → friend_requests_unique (m s).2) as H.
  { intros A m Hm. apply Hm. }
  destruct o as [v request| | | | | | | |]; simpl; apply H;
    [destruct v; simpl|..];
    keeps_with ltac:(first [ apply FriendRequest_Model_save_keeps_unique
                           | apply delete_keeps_friend_requests_unique ]).
Qed.

(** ** Foreign keys *)

Lemma User_Model_save_keeps_references self :
  moves (keeps references_exist)
    (Model_save users set_users User.pk User_with_pk User_violated self).
Proof.
  apply Model_save_keeps. intros s k row (Hl & Hx & Hh) _.
  split_and!; simpl.
  - done.
  - intros k' x Hk'. destruct (Hx k' x Hk') as [? Hu]. split; [done|].
    apply lookup_insert_is_Some. destruct (decide (k = Streak.user x)); auto.
  - intros k' h Hk'. apply lookup_insert_is_Some.
    destruct (decide (k = Habit.user h)); eauto.
Qed.

Lemma Habit_Model_save_keeps_references self :
  moves (keeps references_exist)
    (Model_save habits set_habits Habit.pk Habit_with_pk Habit_violated self).
Proof.
  apply Model_save_keeps. intros s k row (Hl & Hx & Hh) Hv.
  split_and!; simpl.
  - intros k' l Hk'. destruct (Hl k' l Hk') as (h & Eh & Hs). exists h. split; [done|].
    apply lookup_insert_is_Some. destruct (decide (k = h)); auto.
  - intros k' x Hk'. destruct (Hx k' x Hk') as [Hs ?]. split; [|done].
    apply lookup_insert_is_Some. destruct (decide (k = Streak.habit x)); auto.
  - intros k' h. rewrite lookup_insert. case_decide.
    + intros [= <-]. unfold Habit_violated in Hv. case_bool_decide as Hu; [done|].
      by apply not_eq_None_Some.
    + apply Hh.
Qed.

Lemma HabitLog_Model_save_keeps_references self :
  moves (keeps references_exist)
    (Model_save habit_logs set_habit_logs HabitLog.pk HabitLog_with_pk HabitLog_violated self).
Proof.
  apply Model_save_keeps. intros s k row (Hl & Hx & Hh) Hv.
  split_and!; simpl; [|done..].
  intros k' l. rewrite lookup_insert. case_decide; [|apply Hl].
  intros [= <-]. unfold HabitLog_violated in Hv.
  destruct (HabitLog.habit row) as [h|]; [|done]. exists h. split; [done|].
  case_bool_decide as Hu; [done|]. by apply not_eq_None_Some.
Qed.

Lemma Streak_Model_save_keeps_references self :
  moves (keeps references_exist)
    (Model_save streaks set_streaks Streak.pk Streak_with_pk Streak_violated self).
Proof.
  apply Model_save_keeps. intros s k row (Hl & Hx & Hh) Hv.
  split_and!; simpl; [done| |done].
  intros k' x. rewrite lookup_insert. case_decide; [|apply Hx].
  intros [= <-]. unfold Streak_violated in Hv.
  repeat case_bool_decide; try done. split; by apply not_eq_None_Some.
Qed.

(** Deleting a habit takes its logs and streaks along, so nothing is left
    pointing at it. *)
Lemma Habit_delete_keeps_references self :
  moves (keeps references_exist) (Habit_delete self).
Proof.
  unfold Habit_delete. destruct (Habit.pk self) as [k|]; [|by intros s].
  intros s (Hl & Hx & Hh). unfold bind, modify. simpl.
  split_and!; simpl.
  - intros k' l [Hk' Hne]%map_lookup_filter_Some. simpl in Hne.
    destruct (Hl k' l Hk') as (h & Eh & Hs). exists h. split; [done|].
    rewrite lookup_delete_ne; [done | congruence].
  - intros k' x [Hk' Hne]%map_lookup_filter_Some. simpl in Hne.
    destruct (Hx k' x Hk') as [Hs ?]. split; [|done].
    rewrite lookup_delete_ne; [done | congruence].
  - intros k' h [_ Hk']%lookup_delete_Some. by eapply Hh.
Qed.

Lemma run_references_exist o s : references_exist s → references_exist (run o s).
Proof.
  assert (∀ A (m : M A), moves (keeps references_exist) m →
            references_exist s → references_exist (m s).2) as H.
  { intros A m Hm. apply Hm. }
  destruct o as [v request| | | | | | | |]; simpl; apply H;
    [destruct v; simpl|..];
    keeps_with ltac:(first [ apply User_Model_save_keeps_references
                           | apply Habit_Model_save_keeps_references
                           | apply HabitLog_Model_save_keeps_references
                           | apply Streak_Model_save_keeps_references
                           | apply Habit_delete_keeps_references ]).
Qed.

(** ** Stored habits are valid *)





(** ** Stored logs carry the flags of their save *)

Lemma HabitLog_save_keeps_status self :
  moves (keeps logs_status_consistent) (HabitLog_save self).
Proof.
  intros s Hs. destruct (HabitLog_save self s) as [[self'|e] s'] eqn:E; simpl.
  - apply HabitLog_save_Returned in E as (h & habit & _ & _ & E). cbv zeta in E.
    destruct E as (-> & Hr & _ & ->). simpl.
    apply map_Forall_insert_2; [|done]. simpl. split_and!; [done|lia|done].
  - by apply HabitLog_save_Raised in E as ->.
Qed.

Lemma filter_keeps_logs_status P `{∀ x, Decision (P x)} :
  moves (keeps logs_status_consistent) (modify (set_habit_logs (filter P))).
Proof.
  apply moves_modify. intros s Hs k l. simpl.
  intros [H1 _]%map_lookup_filter_Some. by apply (Hs k).
Qed.

Lemma run_logs_status_consistent o s :
  logs_status_consistent s → logs_status_consistent (run o s).
Proof.
  assert (∀ A (m : M A), moves (keeps logs_status_consistent) m →
            logs_status_consistent s → logs_status_consistent (m s).2) as H.
  { intros A m Hm. apply Hm. }
  destruct o as [v request| | | | | | | |]; simpl; apply H;
    [destruct v; simpl|..];
    keeps_with ltac:(first [ apply HabitLog_save_keeps_status
                           | apply filter_keeps_logs_status ]).
Qed.

(** ** Whose habit, whose log *)

Lemma get_habit_or_404_foreign user pk s :
  ¬ owns_habit s user pk →
  get_object_or_404 habits Habit_with_pk pk
    (λ h, bool_decide (Some (Habit.user h) = User.pk user)) s = (Raised Http404, s).
Proof.
  intros Hn. unfold get_object_or_404, bind, get, ret, raise.
  destruct (habits s !! pk) as [habit|] eqn:E; [|done].
  case_bool_decide as Ho; [|done]. destruct Hn. by exists habit.
Qed.

Lemma get_habit_or_404_own user pk s habit :
  habits s !! pk = Some habit → Some (Habit.user habit) = User.pk user →
  get_object_or_404 habits Habit_with_pk pk
    (λ h, bool_decide (Some (Habit.user h) = User.pk user)) s
  = (Returned (Habit_with_pk pk habit), s).
Proof.
  intros E Ho. unfold get_object_or_404, bind, get, ret, raise.
  by rewrite E, bool_decide_eq_true_2.
Qed.

Lemma log_add_owner request today habit_id data s out s' :
  log_add request today habit_id data s = (out, s') →
  s' = s ∨ ∃ user, request_user request s = Some user ∧ owns_habit s user habit_id.
Proof.
  unfold log_add. unfold bind at 1, get at 1.
  destruct (request_user request s) as [user|]; [|intros [= _ <-]; by left].
  unfold bind at 1.
  destruct (get_object_or_404 _ _ _ _ s) as [[habit|e1] s1] eqn:Eg.
  - apply get_object_or_404_Returned in Eg as (-> & habit0 & Hhab & Ho & ->).
    apply bool_decide_eq_true in Ho. intros _. right. exists user. split; [done|].
    by exists habit0.
  - intros [= _ <-]. left. eapply reads_outcome; [|exact Eg].
    apply get_object_or_404_reads.
Qed.

(** ** Accounts *)

Lemma collect_Raised m s e s' :
  collect m s = (Raised e, s') → ∀ errs, e ≠ ValidationError errs.
Proof.
  unfold collect, try_except, bind, ret.
  destruct (m s) as [[[]|e0] s1]; [done|].
  destruct e0; simpl; intros; simplify_eq; done.
Qed.

Lemma full_clean_Raised clean_fields clean validate_unique s errs s' :
  full_clean clean_fields clean validate_unique s = (Raised (ValidationError errs), s') →
  errs ≠ [].
Proof.
  unfold full_clean, bind. intros H.
  destruct (collect clean_fields s) as [[e1|ex] s1] eqn:E1;
    [|injection H as -> _; by destruct (collect_Raised _ _ _ _ E1 errs)].
  destruct (collect clean s1) as [[e2|ex] s2] eqn:E2;
    [|injection H as -> _; by destruct (collect_Raised _ _ _ _ E2 errs)].
  destruct (collect (validate_unique _) s2) as [[e3|ex] s3] eqn:E3;
    [|injection H as -> _; by destruct (collect_Raised _ _ _ _ E3 errs)].
  destruct (e1 ++ e2 ++ e3); [done|]. by injection H as <- _.
Qed.


Lemma UserForm_is_valid_reads candidate ok : moves eq (UserForm_is_valid candidate ok).
Proof.
  unfold UserForm_is_valid. apply moves_bind; [tc_solve| |].
  - apply moves_collect; [tc_solve|]. apply User_full_clean_reads.
  - intros errs. destruct errs, ok; reads.
Qed.

Lemma UserForm_is_valid_Some candidate ok s user s' :
  UserForm_is_valid candidate ok s = (Returned (Some user), s') →
  user = candidate ∧ ok = true ∧ s' = s ∧ User_full_clean candidate s = (Returned tt, s).
Proof.
  intros H. pose proof (reads_outcome _ _ _ _ (UserForm_is_valid_reads _ _) H) as ->.
  unfold UserForm_is_valid in H.
  apply bind_Returned in H as (errs & s1 & H1 & H).
  destruct errs; [|done]. destruct ok; [|done]. injection H as <- ->.
  split_and!; try done.
  apply collect_Returned_nil in H1 as [H1|H1]; [done|].
  by apply full_clean_Raised in H1.
Qed.

Lemma User_save_Returned_row self s self' s' :
  User_save self s = (Returned self', s') →
  let k := default (next_pk (users s)) (User.pk self) in
  self' = User.mk (Some k) (User.email self) (User.username self)
            (match User.contact self with Some "" => None | c => c end) (User.points self)
  ∧ s' = set_users (insert k self') s.
Proof.
  unfold User_save. cbv zeta. intros H.
  apply bind_Returned in H as ([] & s1 & Hc & H).
  pose proof (reads_outcome _ _ _ _ (User_full_clean_reads _) Hc) as ->.
  apply Model_save_Returned in H as (-> & _ & ->). done.
Qed.


(** ** Friends and rewards *)

Lemma login_required_Some request view s user :
  request_user request s = Some user → login_required request view s = view user s.
Proof. intros H. unfold login_required, bind, get. by rewrite H. Qed.

Lemma login_required_None request view s :
  request_user request s = None →
  login_required request view s = (Returned (Redirect "habit:login" None), s).
Proof. intros H. unfold login_required, bind, get. by rewrite H. Qed.

(** ** Counting rows *)

Section count.
Context {R : Type} (P : R → bool).

Lemma length_objects_filter (table : gmap nat R) :
  length (objects_filter P table) = size (filter (λ kv : nat * R, P kv.2 = true) table).
Proof. unfold objects_filter. apply length_map_to_list. Qed.

Lemma length_objects_filter_delete (table : gmap nat R) k r :
  table !! k = Some r →
  length (objects_filter P (delete k table)) + (if P r then 1 else 0)
  = length (objects_filter P table).
Proof.
  intros Hk. rewrite !length_objects_filter, map_filter_delete, map_size_delete.
  destruct (P r) eqn:E.
  - assert (filter (λ kv : nat * R, P kv.2 = true) table !! k = Some r) as Hf
      by by apply map_lookup_filter_Some.
    rewrite Hf. simpl.
    assert (size (filter (λ kv : nat * R, P kv.2 = true) table) ≠ 0); [|lia].
    apply map_size_non_empty_iff. intros He. by rewrite He in Hf.
  - assert (filter (λ kv : nat * R, P kv.2 = true) table !! k = None) as ->; [|simpl; lia].
    apply map_lookup_filter_None. right. intros x Hx. simpl. rewrite Hk in Hx.
    injection Hx as <-. by rewrite E.
Qed.

Lemma length_objects_filter_insert (table : gmap nat R) k r r' :
  table !! k = Some r →
  length (objects_filter P (<[k := r']> table)) + (if P r then 1 else 0)
  = length (objects_filter P table) + (if P r' then 1 else 0).
Proof.
  intros Hk. rewrite <- (length_objects_filter_delete table k r Hk).
  rewrite <- (insert_delete_eq table k r').
  rewrite !length_objects_filter.
  rewrite map_filter_insert. simpl. destruct (P r') eqn:E.
  - rewrite decide_True by done. rewrite map_size_insert_None; [lia|].
    apply map_lookup_filter_None. left. apply lookup_delete_eq.
  - rewrite decide_False by done. rewrite delete_delete_eq. lia.
Qed.
End count.

(** ** Notifications *)

Lemma Notification_get_or_404_own user pk ns n :
  ns !! pk = Some n → Some (Notification.user n) = User.pk user →
  Notification_get_or_404 user pk ns = Returned (Notification_with_pk pk n).
Proof. intros Hn Ho. unfold Notification_get_or_404. by rewrite Hn, bool_decide_eq_true_2. Qed.

Lemma Notification_get_or_404_foreign user pk ns :
  (∀ n, ns !! pk = Some n → Some (Notification.user n) ≠ User.pk user) →
  Notification_get_or_404 user pk ns = Raised Http404.
Proof.
  intros Hn. unfold Notification_get_or_404. destruct (ns !! pk) as [n|] eqn:E; [|done].
  rewrite bool_decide_eq_false_2; [done|]. by apply Hn.
Qed.

(** ** Challenges *)

(** A [ChallengeForm] is valid exactly when the name is there, short
    enough and, like the description, free of null characters, and the
    dates run from today or later to a later day. *)
Lemma ChallengeForm_is_valid_Some today data c :
  ChallengeForm_is_valid today data = Returned (Some c) ↔
  ∃ b e, post_challenge_start data = Some b ∧ post_challenge_end data = Some e
         ∧ (today ≤ b < e)%Z
         ∧ post_challenge_name data ≠ ""
         ∧ len (post_challenge_name data) ≤ 100
         ∧ has_null (post_challenge_name data) = false
         ∧ has_null (post_description data) = false
         ∧ c = Challenge.mk None (post_challenge_name data) (post_description data)
                 (Some b) (Some e) None.
Proof.
  destruct data as [name description start end_]. unfold ChallengeForm_is_valid. simpl.
  split.
  - unfold Challenge_clean, ChallengeForm_clean. simpl.
    destruct start as [b|], end_ as [e|]; try done.
    destruct (e <=? b)%Z eqn:Ele.
    { intros H. exfalso. repeat case_match; simplify_eq. }
    apply Z.leb_gt in Ele. destruct (b <? today)%Z eqn:Elt.
    { intros H. exfalso. repeat case_match; simplify_eq. }
    apply Z.ltb_ge in Elt.
    case_bool_decide as Hn; [done|]. case_bool_decide as Hl; [done|].
    destruct (has_null name); [done|]. destruct (has_null description); [done|]. simpl.
    intros [= <-]. exists b, e. split_and!; try done; lia.
  - intros (b & e & -> & -> & [Hb He] & Hn & Hl & Hzn & Hzd & ->).
    unfold Challenge_clean, ChallengeForm_clean. simpl.
    apply Z.leb_gt in He. rewrite He. apply Z.ltb_ge in Hb. rewrite Hb.
    rewrite (bool_decide_eq_false_2 (name = "")) by done.
    rewrite (bool_decide_eq_false_2 (100 < _)) by lia. by rewrite Hzn, Hzd.
Qed.

(** ** The habit views *)

Lemma HabitForm_is_valid_reads instance data : moves eq (HabitForm_is_valid instance data).
Proof.
  unfold HabitForm_is_valid, clean_target_per_day, HabitForm_clean, Habit_clean_fields,
    Habit_clean.
  reads.
Qed.

Lemma HabitForm_is_valid_Some instance data s h s' :
  HabitForm_is_valid instance data s = (Returned (Some h), s') →
  s' = s ∧ Habit.pk h = Habit.pk instance ∧ Habit.user h = Habit.user instance.
Proof.
  intros H. pose proof (reads_outcome _ _ _ _ (HabitForm_is_valid_reads _ _) H) as ->.
  split; [done|]. unfold HabitForm_is_valid in H.
  destruct (post_target_per_day data) as [target|]; [|done].
  destruct (post_start_date data) as [start|]; [|done].
  apply bind_Returned in H as (e1 & s1 & _ & H).
  apply bind_Returned in H as (e2 & s2 & _ & H).
  apply bind_Returned in H as (e3 & s3 & _ & H).
  apply bind_Returned in H as (e4 & s4 & _ & H).
  destruct (_ ++ _); [|done]. by injection H as <- _.
Qed.

Lemma Habit_save_Returned self s r s' :
  Habit_save self s = (Returned r, s') →
  let k := default (next_pk (habits s)) (Habit.pk self) in
  r = Habit_with_pk k self ∧ s' = set_habits (insert k r) s.
Proof.
  unfold Habit_save. intros H.
  apply bind_Returned in H as ([] & s1 & Hc & H).
  pose proof (reads_outcome _ _ _ _ (Habit_full_clean_reads _) Hc) as ->.
  apply Model_save_Returned in H as (-> & _ & ->). done.
Qed.

Lemma Habit_save_Raised self s e s' : Habit_save self s = (Raised e, s') → s' = s.
Proof.
  unfold Habit_save, bind. intros H.
  destruct (Habit_full_clean _ s) as [[[]|?] s1] eqn:Hc;
    pose proof (reads_outcome _ _ _ _ (Habit_full_clean_reads _) Hc) as ->;
    [|by simplify_eq].
  by apply Model_save_Raised in H.
Qed.

(** What [habit_add] can do to the habits: nothing, or one new habit of
    the requester. *)
Lemma habit_add_cases request data s out s' :
  habit_add request data s = (out, s') →
  habits s' = habits s
  ∨ ∃ k h, session_user request = Some k ∧ Habit.user h = k
           ∧ habits s' = <[next_pk (habits s) := h]> (habits s).
Proof.
  unfold habit_add.
  destruct (request_user request s) as [user|] eqn:Hu;
    [rewrite (login_required_Some _ _ _ _ Hu) | rewrite (login_required_None _ _ _ Hu)];
    [|intros [= _ <-]; by left].
  apply request_user_Some in Hu as (k0 & u0 & Hk0 & _ & ->). simpl.
  destruct (http_method request); [intros [= _ <-]; by left|].
  unfold bind at 1.
  destruct (HabitForm_is_valid _ _ s) as [[[h|]|e] s1] eqn:Ef.
  - apply HabitForm_is_valid_Some in Ef as (-> & Hpk & _). simpl in Hpk.
    unfold bind at 1.
    destruct (Habit_save _ s) as [[r|e] s1] eqn:Es.
    + apply Habit_save_Returned in Es as [-> ->]. simpl. rewrite Hpk. simpl.
      intros [= _ <-]. right. eexists k0, _. split_and!; [done| |done]. done.
    + apply Habit_save_Raised in Es as ->. intros [= _ <-]. by left.
  - pose proof (reads_outcome _ _ _ _ (HabitForm_is_valid_reads _ _) Ef) as ->.
    intros [= _ <-]. by left.
  - pose proof (reads_outcome _ _ _ _ (HabitForm_is_valid_reads _ _) Ef) as ->.
    intros [= _ <-]. by left.
Qed.

(** What [habit_edit] can do to the habits: nothing, or rewrite the habit
    of the URL, which stays with its owner. *)
Lemma habit_edit_cases request pk data s out s' :
  habit_edit request pk data s = (out, s') →
  habits s' = habits s
  ∨ ∃ h0 h, habits s !! pk = Some h0 ∧ Habit.user h = Habit.user h0
            ∧ habits s' = <[pk := h]> (habits s).
Proof.
  unfold habit_edit.
  destruct (request_user request s) as [user|] eqn:Hu;
    [rewrite (login_required_Some _ _ _ _ Hu) | rewrite (login_required_None _ _ _ Hu)];
    [|intros [= _ <-]; by left].
  unfold bind at 1.
  destruct (get_object_or_404 _ _ _ _ s) as [[habit|e1] s1] eqn:Eg.
  2:{ intros [= _ <-]. left. f_equal. eapply reads_outcome; [|exact Eg].
      apply get_object_or_404_reads. }
  apply get_object_or_404_Returned in Eg as (-> & h0 & Hh0 & _ & ->).
  destruct (http_method request); [intros [= _ <-]; by left|].
  unfold bind at 1.
  destruct (HabitForm_is_valid _ _ s) as [[[h|]|e] s1] eqn:Ef.
  - apply HabitForm_is_valid_Some in Ef as (-> & Hpk & Huser). simpl in Hpk, Huser.
    unfold bind at 1.
    destruct (Habit_save _ s) as [[r|e] s1] eqn:Es.
    + apply Habit_save_Returned in Es as [-> ->]. simpl. rewrite Hpk. simpl.
      intros [= _ <-]. right. eexists h0, _. split_and!; [done| |done]. done.
    + apply Habit_save_Raised in Es as ->. intros [= _ <-]. by left.
  - pose proof (reads_outcome _ _ _ _ (HabitForm_is_valid_reads _ _) Ef) as ->.
    intros [= _ <-]. by left.
  - pose proof (reads_outcome _ _ _ _ (HabitForm_is_valid_reads _ _) Ef) as ->.
    intros [= _ <-]. by left.
Qed.

Lemma habit_delete_cases request pk s out s' :
  habit_delete request pk s = (out, s') →
  habits s' = habits s ∨ habits s' = delete pk (habits s).
Proof.
  unfold habit_delete.
  destruct (request_user request s) as [user|] eqn:Hu;
    [rewrite (login_required_Some _ _ _ _ Hu) | rewrite (login_required_None _ _ _ Hu)];
    [|intros [= _ <-]; by left].
  unfold bind at 1.
  destruct (get_object_or_404 _ _ _ _ s) as [[habit|e1] s1] eqn:Eg.
  2:{ intros [= _ <-]. left. f_equal. eapply reads_outcome; [|exact Eg].
      apply get_object_or_404_reads. }
  apply get_object_or_404_Returned in Eg as (-> & h0 & Hh0 & _ & ->).
  destruct (http_method request); intros [= _ <-]; [by left | by right].
Qed.

Lemma dispatch_same_streaks v request :
  writes_streaks v = false → moves (same streaks) (dispatch v request).
Proof.
  intros H. destruct v; try discriminate; simpl; same_with fail.
Qed.

Lemma reachable_busy_store : reachable busy_store.
Proof. cbv [busy_store busy_day foldl]. repeat constructor. Qed.

(** * Binary64 arithmetic

    What rounding to nearest costs in [HabitLog.completion_value]: the
    facts about the operations of [SpecFloat] at 53 bits that the claim
    on the completion value needs. *)

Section binary64.
Local Open Scope Z_scope.

(** Powers of two. *)
Lemma pow2_pos k : 0 ≤ k → 0 < 2 ^ k.
Proof. intros. apply Z.pow_pos_nonneg; lia. Qed.

Lemma pow2_succ k : 0 ≤ k → 2 ^ (k + 1) = 2 * 2 ^ k.
Proof. intros. rewrite Z.pow_add_r by lia. lia. Qed.

(** [digits2_pos p] is the number of bits of [p]. *)
Lemma digits2_pos_bounds p :
  2 ^ (Zpos (digits2_pos p) - 1) ≤ Zpos p < 2 ^ Zpos (digits2_pos p).
Proof.
  induction p as [p IH|p IH|]; simpl digits2_pos; [| |simpl; lia];
    rewrite Pos2Z.inj_succ;
    replace (Z.succ (Zpos (digits2_pos p)) - 1) with (Zpos (digits2_pos p)) by lia;
    rewrite Z.pow_succ_r by lia;
    assert (2 ^ Zpos (digits2_pos p) = 2 * 2 ^ (Zpos (digits2_pos p) - 1)) as E
      by (rewrite <- pow2_succ by lia; f_equal; lia);
    lia.
Qed.

Lemma digits2_pos_unique p k :
  2 ^ (k - 1) ≤ Zpos p < 2 ^ k → Zpos (digits2_pos p) = k.
Proof.
  intros [Hl Hu]. pose proof (digits2_pos_bounds p) as [Hl' Hu'].
  destruct (Z.lt_trichotomy (Zpos (digits2_pos p)) k) as [H|[H|H]]; [|done|].
  - assert (2 ^ Zpos (digits2_pos p) ≤ 2 ^ (k - 1)) by (apply Z.pow_le_mono_r; lia). lia.
  - assert (2 ^ k ≤ 2 ^ (Zpos (digits2_pos p) - 1)) by (apply Z.pow_le_mono_r; lia). lia.
Qed.

(** Shifting right by [n] bits divides the mantissa by [2^n]. *)
Lemma shr_1_m mrs : 0 ≤ shr_m mrs → shr_m (shr_1 mrs) = shr_m mrs / 2.
Proof.
  destruct mrs as [m r s]. destruct m as [|[p|p|]|p]; cbn [shr_1 shr_m]; try lia; intros _.
  - done.
  - apply (Z.div_unique_pos _ 2 _ 1); lia.
  - apply (Z.div_unique_pos _ 2 _ 0); lia.
  - done.
Qed.

Lemma iter_pos_shr_1_m p mrs :
  0 ≤ shr_m mrs → shr_m (iter_pos shr_1 p mrs) = shr_m mrs / 2 ^ Zpos p.
Proof.
  revert mrs. induction p as [p IH|p IH|]; intros mrs Hm; simpl iter_pos.
  - assert (0 ≤ shr_m (shr_1 mrs)) as H1 by (rewrite shr_1_m by done; apply Z.div_pos; lia).
    assert (0 ≤ shr_m (iter_pos shr_1 p (shr_1 mrs))) as H2
      by (rewrite IH by done; apply Z.div_pos; [done|apply pow2_pos; lia]).
    rewrite IH, IH, shr_1_m by done.
    assert (0 < 2 ^ Zpos p) by (apply pow2_pos; lia).
    rewrite !Z.div_div by lia. f_equal.
    replace (Zpos p~1) with (Zpos p + Zpos p + 1) by lia.
    rewrite pow2_succ, Z.pow_add_r by lia. lia.
  - assert (0 ≤ shr_m (iter_pos shr_1 p mrs)) as H2
      by (rewrite IH by done; apply Z.div_pos; [done|apply pow2_pos; lia]).
    rewrite IH, IH by done.
    assert (0 < 2 ^ Zpos p) by (apply pow2_pos; lia).
    rewrite !Z.div_div by lia. f_equal.
    replace (Zpos p~0) with (Zpos p + Zpos p) by lia.
    rewrite Z.pow_add_r by lia. lia.
  - rewrite shr_1_m by done. done.
Qed.

Lemma shr_spec mrs e n :
  0 ≤ shr_m mrs → 0 ≤ n →
  shr_m (shr mrs e n).1 = shr_m mrs / 2 ^ n ∧ (shr mrs e n).2 = e + n.
Proof.
  intros Hm Hn. destruct n as [|p|p]; simpl; [|split; [by apply iter_pos_shr_1_m|done]|lia].
  rewrite Z.div_1_r. split; [done|lia].
Qed.

Lemma shr_m_of_loc m l : shr_m (shr_record_of_loc m l) = m.
Proof. by destruct l as [|[]]. Qed.

Lemma round_nearest_even_bounds m l :
  round_nearest_even m l = m ∨ round_nearest_even m l = m + 1.
Proof. destruct l as [|[]]; simpl; auto. destruct (Z.even m); auto. Qed.

Lemma fexp_normal e : -1074 ≤ e - 53 → fexp prec emax e = e - 53.
Proof. unfold fexp, SpecFloat.emin, prec, emax. lia. Qed.

(** Rounding a mantissa [mx] of at least 53 bits at exponent [ex], away
    from the subnormal and the overflow range: the result is finite and
    normal, and it is one of the two 53-bit neighbours of [mx]; with
    [t] the weight of the last bit kept, the result and [mx] lie in the
    same interval of width [t]. *)
Lemma binary_round_aux_faithful sx mx ex lx :
  2 ^ 52 ≤ mx → -1074 ≤ ex → Zdigits2 mx + ex ≤ 1023 →
  ∃ m e t,
    binary_round_aux prec emax sx mx ex lx = S754_finite sx m e
    ∧ 2 ^ 52 ≤ Zpos m < 2 ^ 53
    ∧ ex ≤ e ≤ ex + Zdigits2 mx - 52
    ∧ 0 < t
    ∧ 2 ^ 52 * t ≤ mx / t * t
    ∧ mx / t * t ≤ mx < mx / t * t + t
    ∧ mx / t * t ≤ Zpos m * 2 ^ (e - ex) ≤ mx / t * t + t.
Proof.
  intros Hmx Hex Hd.
  destruct mx as [|p|p]; [lia| |lia].
  cbn [Zdigits2] in *.
  pose proof (digits2_pos_bounds p) as [Hl Hu].
  set (d := Zpos (digits2_pos p)) in *.
  assert (53 ≤ d) as Hd53.
  { destruct (Z.le_gt_cases 53 d) as [|H]; [done|].
    assert (2 ^ d ≤ 2 ^ 52) by (apply Z.pow_le_mono_r; lia). lia. }
  set (n1 := d - 53).
  assert (0 < 2 ^ n1) as Ht by (apply pow2_pos; lia).
  assert (2 ^ (d - 1) = 2 ^ 52 * 2 ^ n1) as E1
    by (rewrite <- Z.pow_add_r by lia; f_equal; lia).
  assert (2 ^ d = 2 ^ 53 * 2 ^ n1) as E2
    by (rewrite <- Z.pow_add_r by lia; f_equal; lia).
  set (mf := Zpos p / 2 ^ n1).
  assert (2 ^ 52 ≤ mf < 2 ^ 53) as [Hmf1 Hmf2].
  { split; [apply Z.div_le_lower_bound|apply Z.div_lt_upper_bound]; lia. }
  pose proof (Z.div_mod (Zpos p) (2 ^ n1) ltac:(lia)) as Hdm.
  pose proof (Z.mod_pos_bound (Zpos p) (2 ^ n1) Ht) as Hmod.
  fold mf in Hdm.
  unfold binary_round_aux, shr_fexp. cbn [Zdigits2]. fold d.
  rewrite (fexp_normal (d + ex)) by lia.
  replace (d + ex - 53 - ex) with n1 by (unfold n1; lia).
  pose proof (shr_spec (shr_record_of_loc (Zpos p) lx) ex n1) as Hs1.
  rewrite shr_m_of_loc in Hs1. destruct Hs1 as [Hs1 Hs2]; [lia|lia|].
  destruct (shr (shr_record_of_loc (Zpos p) lx) ex n1) as [mrs' e'].
  cbn [fst snd] in Hs1, Hs2. fold mf in Hs1. subst e'.
  set (m1 := round_nearest_even (shr_m mrs') (loc_of_shr_record mrs')).
  assert (m1 = mf ∨ m1 = mf + 1) as Hm1
    by (unfold m1; rewrite <- Hs1; apply round_nearest_even_bounds).
  clearbody m1. clear Hs1 mrs'.
  destruct (Z.eq_dec m1 (2 ^ 53)) as [->|Hne].
  - (* the rounding carried into a 54th bit *)
    assert (mf + 1 = 2 ^ 53) as Hc by lia.
    exists 4503599627370496%positive, (ex + n1 + 1), (2 ^ n1).
    split.
    { change (Zdigits2 (2 ^ 53)) with 54.
      change (2 ^ 53) with 9007199254740992. change (emax - prec) with 971.
      rewrite (fexp_normal (54 + (ex + n1))) by lia.
      replace (54 + (ex + n1) - 53 - (ex + n1)) with 1 by lia.
      cbn -[Z.add Z.leb].
      replace (ex + n1 + 1 <=? 971) with true by (symmetry; apply Z.leb_le; lia).
      done. }
    replace (ex + n1 + 1 - ex) with (n1 + 1) by lia. rewrite pow2_succ by lia.
    change (Zpos 4503599627370496) with (2 ^ 52).
    change (Zpos p / 2 ^ n1) with mf.
    assert (d - 52 = n1 + 1) by (unfold n1; lia).
    clearbody mf. generalize dependent (2 ^ n1). intros T; intros. split_and!; nia.
  - assert (2 ^ 52 ≤ m1 < 2 ^ 53) as Hm1b by lia.
    destruct m1 as [|q|q]; [lia| |lia].
    exists q, (ex + n1), (2 ^ n1).
    split.
    { cbn [Zdigits2]. rewrite (digits2_pos_unique q 53) by (change (53 - 1) with 52; lia).
      rewrite (fexp_normal (53 + (ex + n1))) by lia.
      replace (53 + (ex + n1) - 53 - (ex + n1)) with 0 by lia.
      change (emax - prec) with 971. cbn -[Z.add Z.leb].
      replace (ex + n1 <=? 971) with true by (symmetry; apply Z.leb_le; lia).
      done. }
    replace (ex + n1 - ex) with n1 by lia.
    change (Zpos p / 2 ^ n1) with mf.
    assert (d - 52 = n1 + 1) by (unfold n1; lia).
    clearbody mf. generalize dependent (2 ^ n1). intros T; intros. split_and!; nia.
Qed.

Lemma digits2_pos_le p k : Zpos p < 2 ^ k → Zpos (digits2_pos p) ≤ k.
Proof.
  intros Hu. pose proof (digits2_pos_bounds p) as [Hl _].
  destruct (Z.le_gt_cases (Zpos (digits2_pos p)) k) as [|H]; [done|].
  assert (2 ^ k ≤ 2 ^ (Zpos (digits2_pos p) - 1)) by (apply Z.pow_le_mono_r; lia). lia.
Qed.

(** The product of two normal floats is off by at most [2^-52] of the
    exact product. *)
Lemma SFmul_faithful m1 e1 m2 e2 :
  2 ^ 52 ≤ Zpos m1 < 2 ^ 53 → 2 ^ 52 ≤ Zpos m2 < 2 ^ 53 →
  -1074 ≤ e1 + e2 ≤ 900 →
  ∃ m e,
    SFmul prec emax (S754_finite false m1 e1) (S754_finite false m2 e2)
    = S754_finite false m e
    ∧ 2 ^ 52 ≤ Zpos m < 2 ^ 53
    ∧ e1 + e2 ≤ e ≤ e1 + e2 + 54
    ∧ 2 ^ 52 * Z.abs (Zpos m * 2 ^ (e - (e1 + e2)) - Zpos m1 * Zpos m2)
      ≤ Zpos m1 * Zpos m2.
Proof.
  intros H1 H2 He. cbn [SFmul xorb].
  assert (Zdigits2 (Zpos (m1 * m2)) ≤ 106) as Hd.
  { apply digits2_pos_le. rewrite Pos2Z.inj_mul. change (2 ^ 106) with (2 ^ 53 * 2 ^ 53). nia. }
  destruct (binary_round_aux_faithful false (Zpos (m1 * m2)) (e1 + e2) loc_Exact)
    as (m & e & t & -> & Hm & Hee & Ht & HL & Hmx & HV).
  { rewrite Pos2Z.inj_mul. change (2 ^ 52) with (1 * 2 ^ 52). nia. }
  { lia. }
  { lia. }
  exists m, e. rewrite Pos2Z.inj_mul in *. split_and!; try done; lia.
Qed.

(** The quotient of two integers below [2^53] is a normal float, off by
    at most [2^-52] of the exact quotient; [s] is the scale at which the
    quotient is computed. *)
Lemma SFdiv_faithful (a b : positive) :
  Zpos a < 2 ^ 53 → Zpos b < 2 ^ 53 →
  ∃ m e s,
    SFdiv prec emax (S754_finite false a 0) (S754_finite false b 0) = S754_finite false m e
    ∧ 2 ^ 52 ≤ Zpos m < 2 ^ 53
    ∧ 1 ≤ s ≤ 105
    ∧ - s ≤ e ≤ 2 - s
    ∧ 2 ^ 52 * Z.abs (Zpos m * 2 ^ (e + s) * Zpos b - Zpos a * 2 ^ s) ≤ Zpos a * 2 ^ s.
Proof.
  intros Ha Hb.
  pose proof (digits2_pos_bounds a) as [Hal Hau].
  pose proof (digits2_pos_bounds b) as [Hbl Hbu].
  pose proof (digits2_pos_le a 53 Ha) as Hda.
  pose proof (digits2_pos_le b 53 Hb) as Hdb.
  set (d1 := Zpos (digits2_pos a)) in *. set (d2 := Zpos (digits2_pos b)) in *.
  assert (1 ≤ d1 ∧ 1 ≤ d2) as [Hd1 Hd2] by (unfold d1, d2; lia).
  set (s := 53 + d2 - d1).
  cbn [SFdiv xorb]. unfold SFdiv_core_binary. cbn [Zdigits2]. fold d1 d2.
  replace (Z.min (fexp prec emax (d1 + 0 - (d2 + 0))) (0 - 0)) with (- s)
    by (unfold fexp, SpecFloat.emin, prec, emax, s; lia).
  replace (0 - 0 - - s) with s by lia.
  assert (match s with
          | 0 => Zpos a
          | Zpos _ => Z.shiftl (Zpos a) s
          | Zneg _ => 0
          end = Zpos a * 2 ^ s) as ->.
  { destruct s eqn:Es; [lia| |lia]. apply Z.shiftl_mul_pow2. lia. }
  set (A := Zpos a * 2 ^ s).
  assert (0 < 2 ^ s) as HS by (apply pow2_pos; lia).
  assert (Z.div_eucl A (Zpos b) = (A / Zpos b, A mod Zpos b)) as ->
    by (unfold Z.div, Z.modulo; by destruct (Z.div_eucl A (Zpos b))).
  pose proof (Z.div_mod A (Zpos b) ltac:(lia)) as Hdm.
  pose proof (Z.mod_pos_bound A (Zpos b) ltac:(lia)) as Hmod.
  set (q0 := A / Zpos b) in *.
  assert (2 ^ (d1 - 1) * 2 ^ s = 2 ^ 52 * 2 ^ d2) as E1
    by (rewrite <- !Z.pow_add_r by lia; f_equal; unfold s; lia).
  assert (2 ^ d1 * 2 ^ s = 2 ^ 54 * 2 ^ (d2 - 1)) as E2
    by (rewrite <- !Z.pow_add_r by lia; f_equal; unfold s; lia).
  assert (2 ^ 52 ≤ q0 < 2 ^ 54) as [Hq1 Hq2].
  { unfold q0. split; [apply Z.div_le_lower_bound|apply Z.div_lt_upper_bound]; try lia.
    - unfold A. nia.
    - unfold A. nia. }
  assert (Zdigits2 q0 ≤ 54) as Hdq.
  { destruct q0 as [|q|q]; [lia| |lia]. by apply digits2_pos_le. }
  destruct (binary_round_aux_faithful false q0 (- s) (new_location (Zpos b) (A mod Zpos b)))
    as (m & e & t & -> & Hm & Hee & Ht & HL & Hmx & HV); [lia|unfold s; lia|unfold s; lia|].
  exists m, e, s. replace (e - - s) with (e + s) in HV by lia.
  split_and!; try done; try (unfold s; lia).
  fold A. clearbody A q0. generalize dependent (q0 / t * t). intros L; intros.
  generalize dependent (Zpos m * 2 ^ (e + s)). intros V; intros.
  generalize dependent (A mod Zpos b). intros r; intros.
  nia.
Qed.

(** [nearest_even M e] is within one half of [M * 2^e]; the statement
    is scaled by [2^K] to stay in the integers. *)
Lemma nearest_even_spec M e K :
  0 ≤ M → 0 ≤ K → 0 ≤ e + K →
  0 ≤ nearest_even M e
  ∧ (2 * nearest_even M e - 1) * 2 ^ K ≤ 2 * (M * 2 ^ (e + K))
  ∧ 2 * (M * 2 ^ (e + K)) ≤ (2 * nearest_even M e + 1) * 2 ^ K.
Proof.
  intros HM HK HeK.
  assert (0 < 2 ^ K) by (by apply pow2_pos).
  assert (0 < 2 ^ (e + K)) as Hc by (by apply pow2_pos).
  destruct e as [|p|p]; cbn [nearest_even].
  - rewrite Z.mul_1_r. change (0 + K) with K. nia.
  - rewrite Z.pow_add_r by lia. assert (0 < 2 ^ Zpos p) by (apply pow2_pos; lia). nia.
  - assert (0 < 2 ^ Zpos p) as Hd by (apply pow2_pos; lia).
    assert (2 ^ K = 2 ^ Zpos p * 2 ^ (Zneg p + K)) as ->
      by (rewrite <- Z.pow_add_r by lia; f_equal; lia).
    pose proof (Z.div_mod M (2 ^ Zpos p) ltac:(lia)) as Hdm.
    pose proof (Z.mod_pos_bound M (2 ^ Zpos p) Hd) as Hmod.
    assert (0 ≤ M / 2 ^ Zpos p) as Hq by (apply Z.div_pos; lia).
    generalize dependent (M / 2 ^ Zpos p). intros q; intros.
    generalize dependent (M mod 2 ^ Zpos p). intros r; intros.
    generalize dependent (2 ^ Zpos p). intros d; intros.
    generalize dependent (2 ^ (Zneg p + K)). intros c; intros.
    assert (∀ n, 0 ≤ n → (2 * n - 1) * d ≤ 2 * M ≤ (2 * n + 1) * d →
              0 ≤ n ∧ (2 * n - 1) * (d * c) ≤ 2 * (M * c)
              ∧ 2 * (M * c) ≤ (2 * n + 1) * (d * c)) as Hn.
    { intros n ? [? ?]. split_and!; [done| |].
      - replace ((2 * n - 1) * (d * c)) with ((2 * n - 1) * d * c) by lia.
        replace (2 * (M * c)) with (2 * M * c) by lia.
        apply Z.mul_le_mono_nonneg_r; lia.
      - replace ((2 * n + 1) * (d * c)) with ((2 * n + 1) * d * c) by lia.
        replace (2 * (M * c)) with (2 * M * c) by lia.
        apply Z.mul_le_mono_nonneg_r; lia. }
    destruct (Z.compare_spec (2 * r) d); [destruct (Z.even q)|..]; apply Hn; nia.
Qed.

Lemma float_of_int_100 : float_of_int 100 = S754_finite false 7036874417766400 (-46).
Proof. reflexivity. Qed.

(** The hundredths that [round(a / b * 100, 2)] comes to are a nearest
    integer to [10000 * a / b], for [a] and [b] below [2^31]. *)
Lemma percentage_hundredths (a b : positive) :
  Zpos a < 2 ^ 31 → Zpos b < 2 ^ 31 →
  ∃ mp ep m e,
    SFdiv prec emax (S754_finite false a 0) (S754_finite false b 0)
    = S754_finite false mp ep
    ∧ SFmul prec emax (S754_finite false mp ep) (float_of_int 100) = S754_finite false m e
    ∧ 0 ≤ nearest_even (Zpos m * 100) e
    ∧ (2 * nearest_even (Zpos m * 100) e - 1) * Zpos b ≤ 20000 * Zpos a
    ∧ 20000 * Zpos a ≤ (2 * nearest_even (Zpos m * 100) e + 1) * Zpos b.
Proof.
  intros Ha Hb.
  destruct (SFdiv_faithful a b) as (mp & ep & s & Ediv & Hmp & Hs & Hep & Hp); [lia|lia|].
  rewrite float_of_int_100.
  destruct (SFmul_faithful mp ep 7036874417766400 (-46))
    as (m & e & Emul & Hm & He & Hw); [done|done|lia|].
  exists mp, ep, m, e. split; [done|]. split; [done|]. clear Ediv Emul.
  destruct (nearest_even_spec (Zpos m * 100) e (46 + s)) as (Hn0 & Hn1 & Hn2); [lia|lia|lia|].
  split; [done|].
  set (n := nearest_even (Zpos m * 100) e) in *. clearbody n.
  (* everything in units of 2^-(46+s) *)
  assert (0 < 2 ^ s) as HS by (apply pow2_pos; lia).
  assert (0 < 2 ^ (ep + s)) as HU by (apply pow2_pos; lia).
  assert (2 ^ (46 + s) = 2 ^ 46 * 2 ^ s) as E1 by (rewrite Z.pow_add_r by lia; done).
  assert (2 ^ (e + (46 + s)) = 2 ^ (e - (ep + -46)) * 2 ^ (ep + s)) as E2
    by (rewrite <- Z.pow_add_r by lia; f_equal; lia).
  rewrite E1, E2 in *. clear E1 E2.
  set (P := Zpos mp * 2 ^ (ep + s)) in *.
  set (W := Zpos m * 2 ^ (e - (ep + -46))) in *.
  assert (2 ^ 52 * Z.abs (W * 2 ^ (ep + s) - P * 7036874417766400) ≤ P * 7036874417766400) as Hw2.
  { replace (W * 2 ^ (ep + s) - P * 7036874417766400)
      with ((W - Zpos mp * 7036874417766400) * 2 ^ (ep + s)) by (unfold P; lia).
    rewrite Z.abs_mul, (Z.abs_eq (2 ^ (ep + s))) by lia.
    replace (P * 7036874417766400) with (Zpos mp * 7036874417766400 * 2 ^ (ep + s))
      by (unfold P; lia).
    rewrite Z.mul_assoc. apply Z.mul_le_mono_nonneg_r; lia. }
  replace (Zpos m * 100 * (2 ^ (e - (ep + -46)) * 2 ^ (ep + s)))
    with (100 * (W * 2 ^ (ep + s))) in Hn1, Hn2 by (unfold W; lia).
  clear Hw. generalize dependent (W * 2 ^ (ep + s)). intros W2; intros.
  assert (0 ≤ P) by (unfold P; lia).
  clearbody P. clear W HU He Hm Hep Hmp.
  generalize dependent (2 ^ s). intros S; intros.
  change (2 ^ 31) with 2147483648 in *. change (2 ^ 52) with 4503599627370496 in *.
  change (2 ^ 46) with 70368744177664 in *.
  assert (0 < Zpos a) by lia. assert (0 < Zpos b) by lia.
  generalize dependent (Zpos a). intros A; intros.
  generalize dependent (Zpos b). intros B; intros.
  (* |P B - A S| ≤ A S / 2^52 ; |W2 - P c| ≤ P c / 2^52 *)
  assert (4503599627370496 * Z.abs (W2 * B - 7036874417766400 * (A * S))
          ≤ 3 * 7036874417766400 * (A * S)) as Herr.
  { replace (W2 * B - 7036874417766400 * (A * S))
      with (B * (W2 - P * 7036874417766400) + 7036874417766400 * (P * B - A * S)) by lia.
    assert (P * B ≤ 2 * (A * S)) by lia.
    nia. }
  split; nia.
Qed.

(** A decimal with two places and fewer than 53 bits is read as a finite
    float. *)
Lemma decimal_2_finite (n : Z) :
  0 ≤ n < 2 ^ 53 →
  ∀ s, finite_or_overflow (decimal false n 2) s = (Returned (decimal false n 2), s).
Proof.
  intros Hn s. destruct n as [|p|p]; [done| |lia]. unfold decimal.
  change (exact_int (10 ^ Z.of_nat 2)) with (S754_finite false 100 0).
  destruct (SFdiv_faithful p 100) as (m & e & k & -> & _); [lia|done|done].
Qed.

(** A nearest integer off a tie is the one that rounding half to even
    gives. *)
Lemma round_half_even_unique (N b n : Z) :
  0 < b →
  (2 * n - 1) * b ≤ 2 * N → 2 * N ≤ (2 * n + 1) * b →
  2 * (N mod b) ≠ b →
  n = round_half_even N b.
Proof.
  intros Hb H1 H2 Htie. unfold round_half_even.
  pose proof (Z.div_mod N b ltac:(lia)) as Hdm.
  pose proof (Z.mod_pos_bound N b Hb) as Hmod.
  generalize dependent (N / b). intros k; intros.
  generalize dependent (N mod b). intros r; intros.
  destruct (Z.compare_spec (2 * r) b); [lia|nia|nia].
Qed.

End binary64.

(** * The claims *)

(** C1.  [HabitLog.save] recomputes [completed] and [status] from
    [progress]: whatever the caller put in the two fields, the save behaves
    the same; after a save that goes through, the instance and the
    stored row have [completed] exactly when [progress >= target_per_day]
    of the habit, and [status] 'done' exactly when completed, 'pending'
    otherwise; and the save does go through when the habit exists, the
    progress lies between 0 and the target and no other log has the same
    habit and date. *)
Theorem HabitLog_save_recomputes_completed_and_status (s : Store) (self : HabitLog.t) :
  (∀ completed status,
     HabitLog_save
       (HabitLog.mk (HabitLog.pk self) (HabitLog.habit self) (HabitLog.date self)
          (HabitLog.progress self) completed status) s
     = HabitLog_save self s)
  ∧ (∀ self' s',
       HabitLog_save self s = (Returned self', s') →
       ∃ k h habit,
         HabitLog.habit self = Some h ∧ habits s !! h = Some habit ∧
         HabitLog.pk self' = Some k ∧ habit_logs s' !! k = Some self' ∧
         HabitLog.progress self' = HabitLog.progress self ∧
         (HabitLog.completed self' = true
            ↔ (Habit.target_per_day habit ≤ HabitLog.progress self')%Z) ∧
         HabitLog.status self' = (if HabitLog.completed self' then "done" else "pending"))
  ∧ (∀ h habit,
       HabitLog.habit self = Some h → habits s !! h = Some habit →
       (0 ≤ HabitLog.progress self ≤ Habit.target_per_day habit)%Z →
       (∀ k' r, habit_logs s !! k' = Some r →
                HabitLog.habit r = Some h → HabitLog.date r = HabitLog.date self →
                HabitLog.pk self = Some k') →
       ∃ self' s', HabitLog_save self s = (Returned self', s')).
Proof.
  split_and!.
  - intros completed status. reflexivity.
  - intros self' s' H.
    apply HabitLog_save_Returned in H as (h & habit & Eh & Ehab & H).
    cbv zeta in H. destruct H as (-> & Hrange & _ & ->).
    eexists _, h, habit. split_and!; try done.
    + simpl. apply lookup_insert_eq.
    + simpl. apply Z.leb_le.
  - intros h habit. apply HabitLog_save_succeeds.
Qed.

(** C1 at a concrete input: saving a log at the target with
    [completed=False], [status='pending'] stores it completed and done, as
    does saving it with the flags already set. *)
Lemma HabitLog_save_recomputes_witness :
  HabitLog_save (HabitLog.mk None (Some 1) 100 10 false "pending") world
  = HabitLog_save (HabitLog.mk None (Some 1) 100 10 true "done") world
  ∧ ∃ self' s',
      HabitLog_save (HabitLog.mk None (Some 1) 100 10 false "pending") world
      = (Returned self', s')
      ∧ HabitLog.completed self' = true ∧ HabitLog.status self' = "done".
Proof.
  destruct (HabitLog_save_recomputes_completed_and_status world
              (HabitLog.mk None (Some 1) 100 10 true "done")) as [H1 _].
  split; [exact (H1 false "pending")|].
  destruct (HabitLog_save (HabitLog.mk None (Some 1) 100 10 false "pending") world)
    as [[self'|e] s'] eqn:E; [|by vm_compute in E].
  exists self', s'. split; [done|].
  destruct (HabitLog_save_recomputes_completed_and_status world
              (HabitLog.mk None (Some 1) 100 10 false "pending")) as (_ & H & _).
  destruct (H self' s' E) as (k & h & habit & Eh & Ehab & _ & _ & Hp & Hc & Hs).
  assert (HabitLog.completed self' = true) as Hct.
  { apply Hc. rewrite Hp. vm_compute in Eh, Ehab. simplify_eq. done. }
  split; [done|]. by rewrite Hs, Hct.
Defined.

(** C2.  For a habit and a progress above its [target_per_day]:
    [HabitLog.save] raises a [ValidationError] carrying the message of
    [HabitLog.clean] on [progress] and leaves the store as it was; and
    neither [log_add] for that habit nor [log_edit] with that habit posted
    creates or changes any log row. *)
Theorem progress_above_target_is_rejected
    (s : Store) (h : nat) (habit : Habit.t) (p : Z) :
  habits s !! h = Some habit →
  (Habit.target_per_day habit < p)%Z →
  (∀ self, HabitLog.habit self = Some h → HabitLog.progress self = p →
     ∃ errs,
       HabitLog_save self s = (Raised (ValidationError errs), s)
       ∧ ("progress", "Progress cannot exceed the daily target of "
                      +:+ pretty (Habit.target_per_day habit) +:+ ".") ∈ errs)
  ∧ (∀ request today data, post_progress data = Some p →
       habit_logs (log_add request today h data s).2 = habit_logs s)
  ∧ (∀ request pk data, post_habit data = Some h → post_progress data = Some p →
       habit_logs (log_edit request pk data s).2 = habit_logs s).
Proof.
  intros Ehab Hlt. split_and!.
  - intros self Eh <-.
    unfold HabitLog_save.
    assert (HabitLog_get_habit self s = (Returned habit, s)) as E0.
    { unfold HabitLog_get_habit, bind, get, ret. by rewrite Eh, Ehab. }
    rewrite (bind_eq _ _ _ _ _ E0).
    cbv zeta. set (inst := HabitLog.mk _ _ _ _ _ _).
    assert (∃ errs, HabitLog_full_clean inst s = (Raised (ValidationError errs), s)
              ∧ ("progress", "Progress cannot exceed the daily target of "
                     +:+ pretty (Habit.target_per_day habit) +:+ ".") ∈ errs)
      as (errs & Efc & Hin).
    { unfold HabitLog_full_clean, full_clean.
      destruct (collect_validator _ s (HabitLog_clean_fields_validator inst))
        as (e1 & E1 & _).
      rewrite (bind_eq _ _ _ _ _ E1).
      assert (collect (HabitLog_clean inst) s =
        (Returned [("progress", "Progress cannot exceed the daily target of "
                       +:+ pretty (Habit.target_per_day habit) +:+ ".")], s)) as E2.
      { unfold collect, try_except, bind.
        rewrite (HabitLog_clean_eq inst s h habit Eh Ehab). simpl.
        by apply Z.ltb_lt in Hlt as ->. }
      rewrite (bind_eq _ _ _ _ _ E2).
      match goal with
      | |- context [collect (HabitLog_validate_unique ?i ?ex)] =>
          destruct (collect_validator _ s (HabitLog_validate_unique_validator i ex))
            as (e3 & E3 & _)
      end.
      rewrite (bind_eq _ _ _ _ _ E3).
      exists (e1 ++ [("progress", "Progress cannot exceed the daily target of "
                       +:+ pretty (Habit.target_per_day habit) +:+ ".")] ++ e3).
      split.
      - destruct e1; reflexivity.
      - set_solver. }
    exists errs. split; [|done]. by rewrite (bind_raised _ _ _ _ _ Efc).
  - intros request today data Hp.
    destruct (log_add request today h data s) as [out s'] eqn:E.
    apply log_add_cases in E as [E | (habit' & h' & d & st & p' & log' & Hh & -> & Hle & _)];
      [done|].
    simpl in Hp. simplify_eq. lia.
  - intros request pk data Hh Hp.
    destruct (log_edit request pk data s) as [out s'] eqn:E.
    apply log_edit_cases in E
      as [E | (log0 & h' & habit' & d & st & p' & log' & _ & -> & Hh' & Hle & _)]; [done|].
    simpl in Hh, Hp. simplify_eq. lia.
Qed.

(** C2 at a concrete input: progress 11 against a target of 10. *)
Lemma progress_above_target_is_rejected_witness :
  ∃ errs,
    HabitLog_save (HabitLog.mk None (Some 1) 100 11 false "pending") world
      = (Raised (ValidationError errs), world)
    ∧ ("progress", "Progress cannot exceed the daily target of 10.") ∈ errs.
Proof.
  destruct (progress_above_target_is_rejected world 1 water 11) as (H & _ & _);
    [reflexivity | simpl; lia |].
  exact (H (HabitLog.mk None (Some 1) 100 11 false "pending") eq_refl eq_refl).
Defined.

(** C3, at the failing input.  alice has 50 points and claims a reward
    that costs 50: [reward_claim] saves her with 0 points and then raises
    [AttributeError] on [reward.claimed_by]; the reward row is untouched
    and still unclaimed, and no message is flashed. *)
Lemma reward_claim_debits_and_fails :
  reward_claim (as_user 1) 1 world_rewards
  = (Raised (AttributeError "claimed_by"), set_users (insert 1 alice) world_rewards)
  ∧ User.points <$> users world_rewards !! 1 = Some 50%Z
  ∧ User.points alice = 0%Z
  ∧ rewards (set_users (insert 1 alice) world_rewards) !! 1 = Some movie
  ∧ Reward.is_claimed movie = false.
Proof. split_and!; vm_compute; reflexivity. Qed.

(** C4.  With fewer points than the reward requires, [reward_claim]
    returns its redirect having flashed the error "Not enough points to
    claim this reward." and nothing else: every table, the user's points
    and the reward included, is as before. *)
Theorem reward_claim_insufficient_points
    (request : HttpRequest) (pk : nat) (s : Store) (user : User.t) (reward : Reward.t) :
  request_user request s = Some user →
  rewards s !! pk = Some reward →
  (User.points user < Reward.points_required reward)%Z →
  reward_claim request pk s
  = (Returned (Redirect "habit:rewards" None),
     set_flash (λ ms, ms ++ [(ERROR, "Not enough points to claim this reward.")]) s).
Proof.
  intros Hu Hr Hlt.
  unfold reward_claim, login_required. unfold bind at 1, get at 1. rewrite Hu.
  unfold get_object_or_404. unfold bind at 1 2, get at 1. rewrite Hr.
  unfold ret at 1. simpl.
  apply Z.leb_gt in Hlt. rewrite Hlt. reflexivity.
Qed.

(** C4 at a concrete input: bob has no points, the reward costs 50. *)
Lemma reward_claim_insufficient_points_witness :
  reward_claim (as_user 2) 1 world_rewards
  = (Returned (Redirect "habit:rewards" None),
     set_flash (λ ms, ms ++ [(ERROR, "Not enough points to claim this reward.")])
       world_rewards).
Proof.
  apply (reward_claim_insufficient_points (as_user 2) 1 world_rewards bob movie);
    [reflexivity | reflexivity | simpl; lia].
Defined.

(** C5 fails as stated.  Saving a streak row with [current_streak = 5]
    and [longest_streak = 0] succeeds, nothing in the model layer checks
    the two against each other, and the store no longer has the
    invariant. *)
Lemma Streak_save_breaks_order :
  streaks_ordered world
  ∧ Streak_save broken_streak world
    = (Returned (Streak.mk (Some 1) 1 1 0 5 true None),
       set_streaks (insert 1 (Streak.mk (Some 1) 1 1 0 5 true None)) world)
  ∧ ¬ streaks_ordered (run (SaveStreak broken_streak) world).
Proof.
  split_and!.
  - apply map_Forall_empty.
  - vm_compute. reflexivity.
  - intros H.
    assert (streaks (run (SaveStreak broken_streak) world) !! 1
            = Some (Streak.mk (Some 1) 1 1 0 5 true None)) as E by (vm_compute; reflexivity).
    apply H in E. simpl in E. lia.
Qed.

(** C5, in the form the code supports.  The empty store has the
    invariant; a streak built with the declared defaults has both counters
    at 0; and every step of the system keeps
    [longest_streak >= current_streak] on all rows, provided that when the
    step saves a streak row, that row itself has it (no view saves one). *)
Theorem streaks_ordered_unless_saved_unordered :
  streaks_ordered empty_store
  ∧ (∀ user habit,
       Streak.current_streak (Streak_new user habit) = 0%Z
       ∧ Streak.longest_streak (Streak_new user habit) = 0%Z)
  ∧ (∀ o s,
       match o with
       | SaveStreak x => (Streak.current_streak x ≤ Streak.longest_streak x)%Z
       | _ => True
       end →
       streaks_ordered s → streaks_ordered (run o s)).
Proof.
  split_and!.
  - apply map_Forall_empty.
  - done.
  - intros o s. apply run_streaks_ordered.
Qed.

(** C5 at a concrete input: a default streak is saved, then alice logs a
    day. *)
Lemma streaks_ordered_witness :
  streaks_ordered (run (Request (V_log_add 100 1 (post_log 1 100 10)) (as_user 1))
                     (run (SaveStreak (Streak_new 1 1)) world))
  ∧ streaks (run (Request (V_log_add 100 1 (post_log 1 100 10)) (as_user 1))
               (run (SaveStreak (Streak_new 1 1)) world)) !! 1
    = Some (Streak.mk (Some 1) 1 1 0 0 true None).
Proof.
  destruct streaks_ordered_unless_saved_unordered as (_ & _ & H).
  split; [|vm_compute; reflexivity].
  apply H; [exact I|]. apply H; [simpl; lia|]. apply map_Forall_empty.
Defined.

(** C6 fails as stated.  alice has logged 3 for day 100; posting 5 for
    the same habit and day to [log_add] returns a redirect to the edit
    view and changes nothing: the existing log still has progress 3. *)
Lemma log_add_twice_does_not_update :
  habit_logs first_submission !! 1
    = Some (HabitLog.mk (Some 1) (Some 1) 100 3 false "pending")
  ∧ log_add (as_user 1) 100 1 (post_log 1 100 5) first_submission
    = (Returned (Redirect "habit:log_edit" (Some 1)), first_submission)
  ∧ HabitLog.progress <$> habit_logs first_submission !! 1 ≠ Some 5%Z.
Proof.
  split_and!; [vm_compute; reflexivity | vm_compute; reflexivity |].
  vm_compute. intros [=].
Qed.

(** C6, in the form the code supports.  In every reachable store there
    is at most one log per (habit, date).  [log_add] changes no log row
    when the habit already has a log for today or for the posted date;
    when it has one for today (the store being free of duplicates) the
    view returns a redirect to [log_edit] of that log and leaves the whole
    store as it was.  [log_edit] never changes the set of log keys: it
    updates in place. *)
Theorem one_log_per_habit_and_date :
  (∀ s, reachable s → logs_unique s)
  ∧ (∀ s request today habit_id data k l,
       habit_logs s !! k = Some l → HabitLog.habit l = Some habit_id →
       HabitLog.date l = today ∨ post_date data = Some (HabitLog.date l) →
       habit_logs (log_add request today habit_id data s).2 = habit_logs s)
  ∧ (∀ s request today habit_id data user habit k l,
       logs_unique s →
       request_user request s = Some user →
       habits s !! habit_id = Some habit → Some (Habit.user habit) = User.pk user →
       habit_logs s !! k = Some l → HabitLog.habit l = Some habit_id →
       HabitLog.date l = today →
       log_add request today habit_id data s
       = (Returned (Redirect "habit:log_edit" (Some k)), s))
  ∧ (∀ s request pk data,
       dom (habit_logs (log_edit request pk data s).2) = dom (habit_logs s)).
Proof.
  split_and!.
  - intros s Hs. induction Hs as [|s o _ IH].
    + intros k1 k2 l1 l2 H. simpl in H. by rewrite lookup_empty in H.
    + by apply run_logs_unique.
  - intros s request today habit_id data k l Hk Hh Hd.
    destruct (log_add request today habit_id data s) as [out s'] eqn:E.
    apply log_add_cases in E
      as [E | (habit & h & d & st & p & log' & _ & -> & _ & Htoday & Hsave)]; [done|].
    exfalso. destruct Hd as [Hd | Hd]; [by eapply Htoday|].
    simpl in Hd. injection Hd as ->.
    apply HabitLog_save_Returned in Hsave as (h' & habit' & [= <-] & _ & Hsave).
    cbv zeta in Hsave. destruct Hsave as (-> & _ & Hclash & _). simpl in Hclash.
    pose proof (HabitLog_no_clash _ _ _ Hclash k l Hk Hh eq_refl) as ->.
    by rewrite next_pk_fresh in Hk.
  - intros s request today habit_id data user habit k l Hu Hreq Hhab Hown Hk Hh Hd.
    unfold log_add. unfold bind at 1, get at 1. rewrite Hreq.
    unfold get_object_or_404. unfold bind at 1 2, get at 1. rewrite Hhab.
    rewrite bool_decide_eq_true_2 by done. unfold ret at 1.
    unfold bind at 1, get at 1.
    destruct (objects_get _ _) as [k' l'| |] eqn:Eo.
    + apply objects_get_One in Eo as [Hk' [Hh' Hd']%andb_true_iff].
      apply bool_decide_eq_true in Hh', Hd'.
      assert (k' = k) as -> by (eapply Hu; eauto; congruence). done.
    + pose proof (objects_get_DoesNotExist _ _ _ _ Eo Hk) as Hf. simpl in Hf.
      rewrite !bool_decide_eq_true_2 in Hf by done. done.
    + exfalso. apply objects_get_Multiple in Eo
        as (k1 & k2 & l1 & l2 & Hne & H1 & [Hh1 Hd1]%andb_true_iff
            & H2 & [Hh2 Hd2]%andb_true_iff).
      apply bool_decide_eq_true in Hh1, Hd1, Hh2, Hd2.
      apply Hne. eapply Hu; eauto; congruence.
  - intros s request pk data.
    destruct (log_edit request pk data s) as [out s'] eqn:E.
    apply log_edit_cases in E
      as [E | (log0 & h & habit & d & st & p & log' & Hlog & _ & _ & _ & Hsave)];
      [simpl; by rewrite E|].
    apply HabitLog_save_Returned in Hsave as (h' & habit' & _ & _ & Hsave).
    cbv zeta in Hsave. destruct Hsave as (_ & _ & _ & ->). simpl.
    rewrite dom_insert_L. apply elem_of_dom_2 in Hlog.
    apply subseteq_union_1_L. by apply singleton_subseteq_l.
Qed.

(** C6 at a concrete input: after the log is added and then edited there
    is one row, the edited one. *)
Lemma one_log_per_habit_and_date_witness :
  logs_unique second_submission
  ∧ habit_logs second_submission
    = {[ 1 := HabitLog.mk (Some 1) (Some 1) 100 10 true "done" ]}.
Proof.
  destruct one_log_per_habit_and_date as (H & _ & _ & _).
  split; [|vm_compute; reflexivity].
  apply (H second_submission).
  change second_submission with
    (run (Request (V_log_edit 1 (post_log 1 100 10)) (as_user 1))
       (run (Request (V_log_add 100 1 (post_log 1 100 3)) (as_user 1))
          (run (SaveHabit (Habit.mk None 1 "water" "daily" None 10 true 0 None))
             (run (SaveUser (User.mk None "bob@example.org" "bob" None 0))
                (run (SaveUser (User.mk None "alice@example.org" "alice" None 0))
                   empty_store))))).
  repeat constructor.
Defined.

(** C7, at the failing input.  alice already has a pending request to
    bob and posts bob's address again.  [friend_request_send] raises
    [RelatedObjectDoesNotExist]: the form reads [from_user] of an instance
    that has none; no [ValidationError], no message.  The [try] block
    the form guards would not reject it either: [get_or_create] returns
    the existing row and the view flashes success; and
    [FriendRequest.clean] accepts the duplicate, it looks at friendships
    only.  With alice and bob already friends the [try] block creates
    the request. *)
Lemma duplicate_friend_request_not_rejected :
  friend_request_send (as_user 1) (Some "bob@example.org") world_request
  = (Raised (RelatedObjectDoesNotExist "from_user"), world_request)
  ∧ friend_request_send_try alice (PStr "bob@example.org") world_request
    = (Returned tt,
       set_flash (λ ms, ms ++ [(SUCCESS, "Friend request sent to bob")]) world_request)
  ∧ FriendRequest_clean (FriendRequest.mk None (Some 1) (Some 2) false) world_request
    = (Returned tt, world_request)
  ∧ friend_request_send_try alice (PStr "bob@example.org") world_friends
    = (Returned tt,
       set_flash (λ ms, ms ++ [(SUCCESS, "Friend request sent to bob")])
         (set_friend_requests
            (insert 1 (FriendRequest.mk (Some 1) (Some 1) (Some 2) false)) world_friends)).
Proof. split_and!; vm_compute; reflexivity. Qed.







Lemma reachable_asked_store : reachable asked_store.
Proof. cbv [asked_store busy_day take foldl]. repeat constructor. Qed.



(** The claim of C8 says the three writes happen atomically.  They do
    not: on the reachable store where the request of alice is pending,
    the view run by bob is the sequence of its four statements, and after
    the first of them the store holds the friendship from bob to alice,
    none from alice to bob, and the request. *)
Lemma friend_request_accept_not_atomic :
  let fr := FriendRequest.mk (Some 1) (Some 1) (Some 2) false in
  let statements := friend_request_accept_statements bob alice fr in
  let s1 := (sequence (take 1 statements) asked_store).2 in
  reachable asked_store
  ∧ friend_request_accept (as_user 2) 1 asked_store
    = (sequence statements ;;; ret (Redirect "habit:friends" None)) asked_store
  ∧ has_friendship s1 2 1
  ∧ ¬ has_friendship s1 1 2
  ∧ friend_requests s1 !! 1 = Some fr.
Proof.
  cbv zeta. split; [apply reachable_asked_store|].
  split; [vm_compute; reflexivity|].
  split.
  { exists 1, (Friendship.mk (Some 1) 2 1).
    split; [vm_compute; reflexivity|]. split; reflexivity. }
  split; [|vm_compute; reflexivity].
  intros (k & r & Hk & Hu & Hf).
  apply elem_of_map_to_list in Hk. vm_compute in Hk.
  apply list_elem_of_singleton in Hk. injection Hk as -> ->.
  discriminate.
Qed.

(** C9.  For a log whose habit is stored, with a progress from 0 and a
    target from 1, both up to 2147483647: [completion_value] returns the
    float nearest to [n / 100] for a number of hundredths [n] that is a
    nearest integer to the exact [progress / target * 100 * 100] (it is
    off by at most one half), so it is never clamped ([n] is at least
    10000 times the whole part of [progress / target]); and unless the
    exact percentage lies halfway between two hundredths, the value is
    the exact percentage rounded to two decimals.  At a tie either
    neighbour can come out (see [completion_value_not_the_exact_rounding]). *)
Theorem completion_value_is_a_nearest_hundredth
    (self : HabitLog.t) (h : nat) (habit : Habit.t) (s : Store) :
  HabitLog.habit self = Some h → habits s !! h = Some habit →
  (0 ≤ HabitLog.progress self ≤ 2147483647)%Z →
  (1 ≤ Habit.target_per_day habit ≤ 2147483647)%Z →
  ∃ n : Z,
    HabitLog_completion_value self s = (Returned (decimal false n 2), s)
    ∧ ((2 * n - 1) * Habit.target_per_day habit ≤ 20000 * HabitLog.progress self)%Z
    ∧ (20000 * HabitLog.progress self ≤ (2 * n + 1) * Habit.target_per_day habit)%Z
    ∧ (10000 * (HabitLog.progress self / Habit.target_per_day habit) ≤ n)%Z
    ∧ ((2 * ((10000 * HabitLog.progress self) mod Habit.target_per_day habit)
        ≠ Habit.target_per_day habit)%Z →
       decimal false n 2
       = completion_value_exact (HabitLog.progress self) (Habit.target_per_day habit)).
Proof.
  intros Eh Ehab Ha Hb.
  unfold HabitLog_completion_value, HabitLog_get_habit, bind, get, ret.
  rewrite Eh, Ehab.
  remember (HabitLog.progress self) as a eqn:Ea.
  remember (Habit.target_per_day habit) as b eqn:Eb. clear Ea Eb Eh Ehab.
  assert (∀ n : Z,
            (0 ≤ n)%Z → ((2 * n - 1) * b ≤ 20000 * a)%Z → (20000 * a ≤ (2 * n + 1) * b)%Z →
            (n < 2 ^ 53)%Z
            ∧ (10000 * (a / b) ≤ n)%Z
            ∧ ((2 * ((10000 * a) mod b) ≠ b)%Z →
               decimal false n 2 = completion_value_exact a b)) as Hrest.
  { intros n Hn0 Hn1 Hn2. split_and!.
    - change (2 ^ 53)%Z with 9007199254740992%Z. nia.
    - pose proof (Z.mul_div_le a b ltac:(lia)).
      generalize dependent (a / b)%Z. intros k; intros. nia.
    - intros Htie. unfold completion_value_exact. f_equal.
      apply round_half_even_unique; [lia|lia|lia|done]. }
  unfold int_truediv. replace (b =? 0)%Z with false by lia.
  destruct b as [|pb|pb]; [lia| |lia]. destruct a as [|pa|pa]; [| |lia].
  - exists 0%Z. destruct (Hrest 0%Z) as (_ & ? & ?); [lia|lia|lia|].
    split_and!; [done|lia|lia|done|done].
  - destruct (percentage_hundredths pa pb)
      as (mp & ep & m & e & Ediv & Emul & Hn0 & Hn1 & Hn2); [lia|lia|].
    exists (nearest_even (Zpos m * 100) e).
    destruct (Hrest (nearest_even (Zpos m * 100) e)) as (Hn & ? & ?); [done|done|done|].
    split_and!; [|done..].
    cbn [exact_int]. rewrite Ediv. cbn [finite_or_overflow].
    unfold float_mul_int, ret. rewrite Emul. cbn [float_round].
    change (323 <? Z.of_nat 2)%Z with false. change (10 ^ Z.of_nat 2)%Z with 100%Z.
    cbn [negb]. by apply decimal_2_finite.
Qed.

(** C9 at a concrete input: 3 of alice's target of 10 is 30.00. *)
Lemma completion_value_is_a_nearest_hundredth_witness :
  ∃ n : Z,
    HabitLog_completion_value (HabitLog.mk None (Some 1) 100 3 false "pending") world
    = (Returned (decimal false n 2), world)
    ∧ ((2 * n - 1) * 10 ≤ 20000 * 3)%Z
    ∧ (20000 * 3 ≤ (2 * n + 1) * 10)%Z
    ∧ (10000 * (3 / 10) ≤ n)%Z
    ∧ ((2 * ((10000 * 3) mod 10) ≠ 10)%Z →
       decimal false n 2 = completion_value_exact 3 10).
Proof.
  apply (completion_value_is_a_nearest_hundredth
           (HabitLog.mk None (Some 1) 100 3 false "pending") 1 water world);
    [reflexivity|reflexivity|simpl; lia|simpl; lia].
Defined.

(** The claim of C9 says the value is the exact percentage rounded to two
    decimals.  For 107 against a target of 4000 the exact percentage is
    2.675, halfway between 2.67 and 2.68, and rounds to 2.68 (to the even
    hundredth, and also when halves go up); the code returns 2.67, for
    the float that [107 / 4000 * 100] comes to lies below 2.675. *)
Lemma completion_value_not_the_exact_rounding :
  habits world_walk !! 2 = Some walk
  ∧ (2 * (10000 * HabitLog.progress walked) = 535 * Habit.target_per_day walk)%Z
  ∧ completion_value_exact (HabitLog.progress walked) (Habit.target_per_day walk)
    = decimal false 268 2
  ∧ HabitLog_completion_value walked world_walk = (Returned (decimal false 267 2), world_walk)
  ∧ decimal false 267 2 ≠ decimal false 268 2.
Proof.
  split_and!; [vm_compute; reflexivity..|]. vm_compute. discriminate.
Qed.

(** C10.  In every store reachable from the empty one by views and
    model-layer writes, every user's [points] is at least 0: a save of a
    user validates the field, and [reward_claim] subtracts only under its
    guard. *)
Theorem points_never_negative (s : Store) :
  reachable s → ∀ k u, users s !! k = Some u → (0 ≤ User.points u)%Z.
Proof.
  intros Hs. cut (points_nonnegative s); [intros H k u; apply H|].
  induction Hs as [|s o _ IH].
  - apply map_Forall_empty.
  - by apply run_points_nonnegative.
Qed.

(** C10 at a concrete input: after the claim alice has 20 points. *)
Lemma points_never_negative_witness :
  users (foldl (λ s o, run o s) empty_store grant_claim) !! 1
  = Some (User.mk (Some 1) "alice@example.org" "alice" None 20)
  ∧ (0 ≤ 20)%Z.
Proof.
  split; [vm_compute; reflexivity|].
  apply (points_never_negative (foldl (λ s o, run o s) empty_store grant_claim)
           ltac:(repeat constructor) 1
           (User.mk (Some 1) "alice@example.org" "alice" None 20)).
  vm_compute. reflexivity.
Defined.

(** * Further properties of the code *)

(** X1.  A view writes only the tables it is there for: users are written by
    [register], [edit_profile] and [reward_claim] alone, habits by the
    three habit views, logs by [log_add], [log_edit] and [habit_delete],
    streaks by [habit_delete], friendships by [friend_request_accept],
    friend requests by accepting and rejecting.  In particular
    [friend_request_send] stores no request and [friend_remove] removes no
    friendship. *)
Theorem views_write_only_their_tables v request s :
  let s' := (dispatch v request s).2 in
  (writes_users v = false → users s' = users s)
  ∧ (writes_habits v = false → habits s' = habits s)
  ∧ (writes_habit_logs v = false → habit_logs s' = habit_logs s)
  ∧ (writes_streaks v = false → streaks s' = streaks s)
  ∧ (writes_friendships v = false → friendships s' = friendships s)
  ∧ (writes_friend_requests v = false → friend_requests s' = friend_requests s).
Proof.
  cbv zeta. split_and!; intros H.
  - by apply dispatch_same_users.
  - by apply dispatch_same_habits.
  - by apply dispatch_same_habit_logs.
  - by apply dispatch_same_streaks.
  - by apply dispatch_same_friendships.
  - by apply dispatch_same_friend_requests.
Qed.

(** X1 at a concrete input: alice's first log changes the logs and leaves
    users, habits and friend requests alone. *)
Lemma views_write_only_their_tables_witness :
  habit_logs first_submission ≠ habit_logs world
  ∧ users first_submission = users world
  ∧ habits first_submission = habits world
  ∧ friend_requests first_submission = friend_requests world.
Proof.
  split; [vm_compute; discriminate|].
  destruct (views_write_only_their_tables (V_log_add 100 1 (post_log 1 100 3)) (as_user 1)
              world) as (Hu & Hh & _ & _ & _ & Hr).
  split_and!; [apply Hu | apply Hh | apply Hr]; reflexivity.
Defined.

(** X2.  No view creates or changes a streak row, and no view changes the
    rewards: a streak that is there after a view was there before, as it
    is, and the table of rewards is the same. *)
Theorem views_never_update_streaks_or_rewards v request s :
  let s' := (dispatch v request s).2 in
  rewards s' = rewards s
  ∧ (∀ k x, streaks s' !! k = Some x → streaks s !! k = Some x).
Proof.
  cbv zeta. split.
  - apply dispatch_same_rewards.
  - intros k x Hk.
    by eapply lookup_weaken; [|apply (dispatch_fewer_streaks v request s)].
Qed.

(** X3.  In every reachable store no two users share an address or a name
    ([unique=True]), no two friendships share (user, friend) and no two
    friend requests share (from_user, to_user) ([unique_together]). *)
Theorem unique_constraints_hold s :
  reachable s → users_unique s ∧ friendships_unique s ∧ friend_requests_unique s.
Proof.
  induction 1 as [|s o _ (IH1 & IH2 & IH3)].
  - split_and!; intros k1 k2 r1 r2 H; exfalso; revert H; apply lookup_empty_Some.
  - split_and!;
      [by apply run_users_unique | by apply run_friendships_unique
      | by apply run_friend_requests_unique].
Qed.

(** X3 at a concrete input: the store after the busy day, with the
    friendship in both directions. *)
Lemma unique_constraints_hold_witness :
  friendships busy_store
  = <[2 := Friendship.mk (Some 2) 1 2]> {[ 1 := Friendship.mk (Some 1) 2 1 ]}
  ∧ users_unique busy_store ∧ friendships_unique busy_store
  ∧ friend_requests_unique busy_store.
Proof.
  split; [vm_compute; reflexivity|].
  apply (unique_constraints_hold busy_store reachable_busy_store).
Defined.

(** X4.  In every reachable store the foreign keys resolve: the habit of a
    log, the habit and the user of a streak, the user of a habit.  The
    cascade of [habit.delete()] is what keeps this when a habit goes. *)
Theorem foreign_keys_resolve s :
  reachable s →
  (∀ k l, habit_logs s !! k = Some l →
          ∃ h, HabitLog.habit l = Some h ∧ is_Some (habits s !! h))
  ∧ (∀ k x, streaks s !! k = Some x →
            is_Some (habits s !! Streak.habit x) ∧ is_Some (users s !! Streak.user x))
  ∧ (∀ k h, habits s !! k = Some h → is_Some (users s !! Habit.user h)).
Proof.
  intros Hs. change (references_exist s).
  induction Hs as [|s o _ IH].
  - split_and!; intros k x H; exfalso; revert H; apply lookup_empty_Some.
  - by apply run_references_exist.
Qed.

(** X4 at a concrete input: the log of the busy day points at a habit that
    is there. *)
Lemma foreign_keys_resolve_witness :
  habit_logs busy_store !! 1 = Some (HabitLog.mk (Some 1) (Some 1) 100 3 false "pending")
  ∧ ∃ h, Some 1 = Some h ∧ is_Some (habits busy_store !! h).
Proof.
  assert (habit_logs busy_store !! 1
          = Some (HabitLog.mk (Some 1) (Some 1) 100 3 false "pending")) as E
    by (vm_compute; reflexivity).
  split; [exact E|].
  destruct (foreign_keys_resolve busy_store reachable_busy_store) as (Hl & _ & _).
  exact (Hl 1 _ E).
Defined.



(** X6.  In every reachable store a log carries its own key, a progress that
    is not negative, and the status that goes with [completed]: 'done'
    when completed, 'pending' otherwise. *)
Theorem stored_logs_status_matches_completed s :
  reachable s →
  ∀ k l, habit_logs s !! k = Some l →
    HabitLog.pk l = Some k
    ∧ (0 ≤ HabitLog.progress l)%Z
    ∧ HabitLog.status l = if HabitLog.completed l then "done" else "pending".
Proof.
  intros Hs. change (logs_status_consistent s).
  induction Hs as [|s o _ IH].
  - apply map_Forall_empty.
  - by apply run_logs_status_consistent.
Qed.

(** X6 at a concrete input: the log of the busy day. *)
Lemma stored_logs_status_witness :
  habit_logs busy_store !! 1 = Some (HabitLog.mk (Some 1) (Some 1) 100 3 false "pending")
  ∧ (0 ≤ 3)%Z.
Proof.
  assert (habit_logs busy_store !! 1
          = Some (HabitLog.mk (Some 1) (Some 1) 100 3 false "pending")) as E
    by (vm_compute; reflexivity).
  split; [exact E|].
  destruct (stored_logs_status_matches_completed busy_store reachable_busy_store 1 _ E)
    as (_ & H & _).
  exact H.
Defined.

(** X7.  No view hands a habit to another user: a habit that is there after
    a view either was there before with the same owner, or is new and
    owned by the user of the request. *)
Theorem habit_owner_is_fixed v request s k h' :
  habits (dispatch v request s).2 !! k = Some h' →
  (∃ h, habits s !! k = Some h ∧ Habit.user h' = Habit.user h)
  ∨ (habits s !! k = None ∧ session_user request = Some (Habit.user h')).
Proof.
  destruct (writes_habits v) eqn:Hw.
  2:{ rewrite (dispatch_same_habits v request Hw s). intros Hk. left. by exists h'. }
  destruct v; try discriminate; simpl.
  - destruct (habit_add request data s) as [out s'] eqn:E. simpl.
    destruct (habit_add_cases _ _ _ _ _ E) as [-> | (k0 & h & Hk0 & Hh & ->)].
    + intros Hk. left. by exists h'.
    + intros [[<- <-] | [_ Hk]]%lookup_insert_Some.
      * right. split; [apply next_pk_fresh | congruence].
      * left. by exists h'.
  - destruct (habit_edit request pk data s) as [out s'] eqn:E. simpl.
    destruct (habit_edit_cases _ _ _ _ _ _ E) as [-> | (h0 & h & Hh0 & Hh & ->)].
    + intros Hk. left. by exists h'.
    + intros [[<- <-] | [_ Hk]]%lookup_insert_Some.
      * left. by exists h0.
      * left. by exists h'.
  - destruct (habit_delete request pk s) as [out s'] eqn:E. simpl.
    destruct (habit_delete_cases _ _ _ _ _ E) as [-> | ->].
    + intros Hk. left. by exists h'.
    + intros [_ Hk]%lookup_delete_Some. left. by exists h'.
Qed.

(** X7 at a concrete input: bob adds a habit; it is new and his. *)
Lemma habit_owner_is_fixed_witness :
  habits (dispatch (V_habit_add (mkHabitPost "reading" "daily" None (Some 5%Z) (Some 0%Z) None))
            (as_user 2) world).2 !! 2
  = Some reading
  ∧ ((∃ h, habits world !! 2 = Some h ∧ Habit.user reading = Habit.user h)
     ∨ (habits world !! 2 = None ∧ session_user (as_user 2) = Some (Habit.user reading))).
Proof.
  assert (habits (dispatch (V_habit_add
                    (mkHabitPost "reading" "daily" None (Some 5%Z) (Some 0%Z) None))
            (as_user 2) world).2 !! 2 = Some reading) as E by (vm_compute; reflexivity).
  split; [exact E|].
  exact (habit_owner_is_fixed _ _ _ _ _ E).
Defined.

(** X8.  For a user who is logged in, a habit that is not theirs (or is not
    there) is a 404 in [habit_edit], [habit_delete] and [log_add], and
    the store stays as it is. *)
Theorem habit_views_refuse_foreign_habit request pk s user :
  request_user request s = Some user → ¬ owns_habit s user pk →
  (∀ data, habit_edit request pk data s = (Raised Http404, s))
  ∧ habit_delete request pk s = (Raised Http404, s)
  ∧ (∀ today data, log_add request today pk data s = (Raised Http404, s)).
Proof.
  intros Hu Hn. pose proof (get_habit_or_404_foreign user pk s Hn) as E.
  split_and!; intros.
  - unfold habit_edit, login_required. unfold bind at 1, get at 1. rewrite Hu.
    by rewrite (bind_raised _ _ _ _ _ E).
  - unfold habit_delete, login_required. unfold bind at 1, get at 1. rewrite Hu.
    by rewrite (bind_raised _ _ _ _ _ E).
  - unfold log_add. unfold bind at 1, get at 1. rewrite Hu.
    by rewrite (bind_raised _ _ _ _ _ E).
Qed.

(** X8 at a concrete input: bob cannot delete the habit of alice; alice can.
    *)
Lemma habit_views_refuse_foreign_habit_witness :
  request_user (as_user 2) world = Some bob
  ∧ habit_delete (as_user 2) 1 world = (Raised Http404, world)
  ∧ habit_delete (as_user 1) 1 world ≠ (Raised Http404, world).
Proof.
  split; [reflexivity|]. split; [|vm_compute; discriminate].
  apply (habit_views_refuse_foreign_habit (as_user 2) 1 world bob); [reflexivity|].
  intros (habit & Hh & Ho). vm_compute in Hh. injection Hh as <-.
  vm_compute in Ho. discriminate.
Defined.

(** X9.  [habit_delete] by the owner: on GET nothing is deleted; on POST the
    habit goes, with exactly the logs and the streaks of that habit, the
    other tables stay and the message is flashed. *)
Theorem habit_delete_cascades request pk s user :
  request_user request s = Some user → owns_habit s user pk →
  match http_method request with
  | GET =>
      habit_delete request pk s
      = (Returned (Render "habit/habits/habit_confirm_delete.html"), s)
  | POST =>
      ∃ s', habit_delete request pk s = (Returned (Redirect "habit:habit_list" None), s')
        ∧ habits s' = delete pk (habits s)
        ∧ (∀ k l, habit_logs s' !! k = Some l
                  ↔ habit_logs s !! k = Some l ∧ HabitLog.habit l ≠ Some pk)
        ∧ (∀ k x, streaks s' !! k = Some x
                  ↔ streaks s !! k = Some x ∧ Streak.habit x ≠ pk)
        ∧ users s' = users s ∧ rewards s' = rewards s
        ∧ friendships s' = friendships s ∧ friend_requests s' = friend_requests s
        ∧ flash s' = flash s ++ [(SUCCESS, "Habit deleted successfully!")]
  end.
Proof.
  intros Hu (habit & Hh & Ho).
  assert (habit_delete request pk s =
          match http_method request with
          | POST => (Habit_delete (Habit_with_pk pk habit) ;;;
                     messages_add SUCCESS "Habit deleted successfully!" ;;;
                     ret (Redirect "habit:habit_list" None)) s
          | GET => (Returned (Render "habit/habits/habit_confirm_delete.html"), s)
          end) as ->.
  { unfold habit_delete, login_required. unfold bind at 1, get at 1. rewrite Hu.
    rewrite (bind_eq _ _ _ _ _ (get_habit_or_404_own user pk s habit Hh Ho)).
    by destruct (http_method request). }
  destruct (http_method request); [done|].
  eexists. split; [reflexivity|]. simpl.
  split_and!; try done; intros; by rewrite map_lookup_filter_Some.
Qed.

(** X9 at a concrete input: alice deletes her habit; the log and streak of
    it go, the log of bob's habit stays. *)
Lemma habit_delete_cascades_witness :
  habit_logs (habit_delete (as_user 1) 1 world_logs).2
  = {[ 2 := HabitLog.mk (Some 2) (Some 2) 100 5 true "done" ]}
  ∧ streaks (habit_delete (as_user 1) 1 world_logs).2 = ∅
  ∧ ∃ s', habit_delete (as_user 1) 1 world_logs
          = (Returned (Redirect "habit:habit_list" None), s')
          ∧ habits s' = delete 1 (habits world_logs).
Proof.
  split; [vm_compute; reflexivity|]. split; [vm_compute; reflexivity|].
  destruct (habit_delete_cascades (as_user 1) 1 world_logs alice) as (s' & E & Hh & _).
  - reflexivity.
  - exists water. split; reflexivity.
  - exists s'. split; [exact E | exact Hh].
Defined.

(** X10.  Whatever [log_add] returns or raises, the logs are as before or have
    one more row: under a fresh key, of the habit in the URL (not the
    posted one), which belongs to the user of the request, with the
    posted date and a posted progress between 0 and the target, and with
    [completed] and [status] derived from it. *)
Theorem log_add_adds_one_log_of_own_habit request today habit_id data s out s' :
  log_add request today habit_id data s = (out, s') →
  habit_logs s' = habit_logs s
  ∨ ∃ user habit d p k,
      request_user request s = Some user
      ∧ habits s !! habit_id = Some habit
      ∧ Some (Habit.user habit) = User.pk user
      ∧ post_date data = Some d ∧ post_progress data = Some p
      ∧ (0 ≤ p ≤ Habit.target_per_day habit)%Z
      ∧ let completed := (Habit.target_per_day habit <=? p)%Z in
        habit_logs s !! k = None
        ∧ habit_logs s' =
            <[k := HabitLog.mk (Some k) (Some habit_id) d p completed
                     (if completed then "done" else "pending")]> (habit_logs s).
Proof.
  intros H.
  destruct (log_add_cases _ _ _ _ _ _ _ H)
    as [Hsame | (habit & h & d & st & p & log' & Hhab & -> & _ & _ & Hsave)]; [by left|].
  destruct (log_add_owner _ _ _ _ _ _ _ H) as [-> | (user & Hu & habit' & Hhab' & Ho)];
    [by left|].
  right. simplify_eq.
  apply HabitLog_save_Returned in Hsave as (h' & habit'' & Eh & Hhab'' & Hrest).
  simpl in *. simplify_eq. destruct Hrest as (-> & Hrange & _ & ->).
  exists user, habit, d, p, (next_pk (habit_logs s)). split_and!; try done; try lia.
  apply next_pk_fresh.
Qed.

(** X10 at a concrete input: the first submission of alice. *)
Lemma log_add_adds_one_log_witness :
  log_add (as_user 1) 100 1 (post_log 1 100 3) world
  = (Returned (Redirect "habit:log_list" None), first_submission)
  ∧ ∃ k, habit_logs world !! k = None
         ∧ habit_logs first_submission
           = <[k := HabitLog.mk (Some k) (Some 1) 100 3 false "pending"]> (habit_logs world).
Proof.
  assert (log_add (as_user 1) 100 1 (post_log 1 100 3) world
          = (Returned (Redirect "habit:log_list" None), first_submission)) as E
    by (vm_compute; reflexivity).
  split; [exact E|].
  destruct (log_add_adds_one_log_of_own_habit _ _ _ _ _ _ _ E)
    as [Hsame | (user & habit & d & p & k & Hu & Hhab & _ & Hd & Hp & _ & Hk & Hlogs)].
  - vm_compute in Hsame. discriminate.
  - vm_compute in Hhab, Hd, Hp. injection Hhab as <-. injection Hd as <-.
    injection Hp as <-. exists k. split; [exact Hk | exact Hlogs].
Defined.

(** X11.  Whatever [log_edit] returns or raises, the logs are as before or
    differ in the row of the URL alone, which then holds the posted
    habit, date and progress (between 0 and the target of that habit)
    with [completed] and [status] derived; the posted status is not
    kept. *)
Theorem log_edit_writes_the_edited_row request pk data s out s' :
  log_edit request pk data s = (out, s') →
  habit_logs s' = habit_logs s
  ∨ ∃ h habit d p,
      post_habit data = Some h ∧ post_date data = Some d ∧ post_progress data = Some p
      ∧ habits s !! h = Some habit
      ∧ (0 ≤ p ≤ Habit.target_per_day habit)%Z
      ∧ is_Some (habit_logs s !! pk)
      ∧ let completed := (Habit.target_per_day habit <=? p)%Z in
        habit_logs s' =
          <[pk := HabitLog.mk (Some pk) (Some h) d p completed
                    (if completed then "done" else "pending")]> (habit_logs s).
Proof.
  intros H.
  destruct (log_edit_cases _ _ _ _ _ _ H)
    as [Hsame | (log0 & h & habit & d & st & p & log' & Hlog & -> & Hhab & _ & Hsave)];
    [by left|].
  right.
  apply HabitLog_save_Returned in Hsave as (h' & habit' & Eh & Hhab' & Hrest).
  simpl in *. injection Eh as <-. rewrite Hhab in Hhab'. injection Hhab' as <-.
  destruct Hrest as (-> & Hrange & _ & ->).
  exists h, habit, d, p. split_and!; eauto; lia.
Qed.

(** X11 at a concrete input: the second submission of alice. *)
Lemma log_edit_writes_the_edited_row_witness :
  log_edit (as_user 1) 1 (post_log 1 100 10) first_submission
  = (Returned (Redirect "habit:habit_detail" (Some 1)), second_submission)
  ∧ habit_logs second_submission
    = <[1 := HabitLog.mk (Some 1) (Some 1) 100 10 true "done"]> (habit_logs first_submission).
Proof.
  assert (log_edit (as_user 1) 1 (post_log 1 100 10) first_submission
          = (Returned (Redirect "habit:habit_detail" (Some 1)), second_submission)) as E
    by (vm_compute; reflexivity).
  split; [exact E|].
  destruct (log_edit_writes_the_edited_row _ _ _ _ _ _ E)
    as [Hsame | (h & habit & d & p & Hh & Hd & Hp & Hhab & _ & _ & Hlogs)].
  - vm_compute in Hsame. discriminate.
  - vm_compute in Hh, Hd, Hp. injection Hh as <-. injection Hd as <-. injection Hp as <-.
    vm_compute in Hhab. injection Hhab as <-. exact Hlogs.
Defined.

(** X12.  For a user who is logged in, a log that is not of one of their
    habits (or is not there) is a 404 in [log_edit], and the store stays
    as it is. *)
Theorem log_edit_refuses_foreign_log request pk data s user :
  request_user request s = Some user → ¬ owns_log s user pk →
  log_edit request pk data s = (Raised Http404, s).
Proof.
  intros Hu Hn. unfold log_edit, login_required. unfold bind at 1, get at 1. rewrite Hu.
  unfold bind at 1, get at 1. unfold get_object_or_404. unfold bind at 1 2, get at 1.
  destruct (habit_logs s !! pk) as [l|] eqn:El; [|done].
  destruct (HabitLog.habit l) as [h|] eqn:Eh; simpl; [|done].
  destruct (habits s !! h) as [habit|] eqn:Ehab; simpl; [|done].
  case_bool_decide as Ho; [|done]. destruct Hn. exists l, h. split_and!; try done.
  by exists habit.
Qed.

(** X12 at a concrete input: bob cannot edit the log of alice. *)
Lemma log_edit_refuses_foreign_log_witness :
  request_user (as_user 2) first_submission = Some bob
  ∧ log_edit (as_user 2) 1 (post_log 1 100 10) first_submission
    = (Raised Http404, first_submission).
Proof.
  split; [reflexivity|].
  apply (log_edit_refuses_foreign_log (as_user 2) 1 (post_log 1 100 10) first_submission bob);
    [reflexivity|].
  intros (l & h & Hl & Hh & habit & Hhab & Ho).
  vm_compute in Hl. injection Hl as <-. vm_compute in Hh. injection Hh as <-.
  vm_compute in Hhab. injection Hhab as <-. vm_compute in Ho. discriminate.
Defined.



(** X14.  [edit_profile] adds no user and removes none, leaves the points of
    every user as they are, and leaves every row but the one of the user
    of the request as it is. *)
Theorem edit_profile_keeps_points_and_others request data s out s' :
  edit_profile request data s = (out, s') →
  (∀ k u, users s !! k = Some u →
     ∃ u', users s' !! k = Some u' ∧ User.points u' = User.points u
           ∧ (session_user request ≠ Some k → u' = u))
  ∧ (∀ k, users s !! k = None → users s' !! k = None).
Proof.
  assert (users s' = users s →
    (∀ k u, users s !! k = Some u →
       ∃ u', users s' !! k = Some u' ∧ User.points u' = User.points u
             ∧ (session_user request ≠ Some k → u' = u))
    ∧ (∀ k, users s !! k = None → users s' !! k = None)) as Hsame.
  { intros ->. split; [|done]. intros k u Hk. by exists u. }
  unfold edit_profile, login_required. unfold bind at 1, get at 1.
  destruct (request_user request s) as [user|] eqn:Hu; [|intros [= _ <-]; by apply Hsame].
  apply request_user_Some in Hu as (k0 & u0 & Hk0 & Hu0 & ->).
  destruct (http_method request); [intros [= _ <-]; by apply Hsame|].
  unfold bind at 1.
  destruct (UserForm_is_valid _ _ s) as [[[user|]|e] s1] eqn:Ef.
  - apply UserForm_is_valid_Some in Ef as (-> & _ & -> & _).
    unfold bind at 1.
    destruct (User_save _ s) as [[user'|e] s1] eqn:Es.
    + apply User_save_Returned_row in Es as [-> ->]. simpl.
      intros [= _ <-]. simpl. clear Hsame. split.
      * intros k u Hk. destruct (decide (k = k0)) as [->|Hne].
        -- rewrite lookup_insert_eq. eexists. split; [done|]. simpl.
           rewrite Hu0 in Hk. injection Hk as <-. split; [done|]. by rewrite Hk0.
        -- rewrite lookup_insert_ne by done. by exists u.
      * intros k Hk. rewrite lookup_insert_ne; [done|]. intros <-. by rewrite Hu0 in Hk.
    + apply User_save_Raised in Es as ->. intros [= _ <-]. by apply Hsame.
  - pose proof (reads_outcome _ _ _ _ (UserForm_is_valid_reads _ _) Ef) as ->.
    intros [= _ <-]. by apply Hsame.
  - pose proof (reads_outcome _ _ _ _ (UserForm_is_valid_reads _ _) Ef) as ->.
    intros [= _ <-]. by apply Hsame.
Qed.

(** X14 at a concrete input: alice renames herself and keeps her 50 points;
    bob is as before. *)
Lemma edit_profile_keeps_points_witness :
  users (edit_profile (as_user 1) (mkUserPost "al@example.org" "al" "555" true)
           world_rewards).2 !! 1
  = Some (User.mk (Some 1) "al@example.org" "al" (Some "555") 50)
  ∧ ∃ u', users (edit_profile (as_user 1) (mkUserPost "al@example.org" "al" "555" true)
                   world_rewards).2 !! 2 = Some u'
          ∧ User.points u' = User.points bob ∧ (Some 1 ≠ Some 2 → u' = bob).
Proof.
  split; [vm_compute; reflexivity|].
  eapply (edit_profile_keeps_points_and_others (as_user 1)
            (mkUserPost "al@example.org" "al" "555" true) world_rewards).
  - apply surjective_pairing.
  - reflexivity.
Defined.

(** X15.  A POST to [friend_request_send] by a user who is logged in never
    gets through the form: whatever is posted, [form.is_valid()] raises
    (the form's instance has no [from_user]) and the store stays as it
    is. *)
Theorem friend_request_send_always_raises request to_user_email s user :
  request_user request s = Some user → http_method request = POST →
  ∃ e, friend_request_send request to_user_email s = (Raised e, s)
       ∧ (e = RelatedObjectDoesNotExist "from_user" ∨ e = MultipleObjectsReturned).
Proof.
  intros Hu Hm. rewrite friend_request_send_eq, Hu, Hm.
  destruct (FriendRequestForm_is_valid_raises to_user_email s) as (e & -> & He).
  by exists e.
Qed.

(** X15 at a concrete input: alice asks bob. *)
Lemma friend_request_send_always_raises_witness :
  request_user (as_user 1) world = Some alice
  ∧ ∃ e, friend_request_send (as_user 1) (Some "bob@example.org") world = (Raised e, world)
         ∧ (e = RelatedObjectDoesNotExist "from_user" ∨ e = MultipleObjectsReturned).
Proof.
  split; [reflexivity|].
  apply (friend_request_send_always_raises (as_user 1) (Some "bob@example.org") world alice);
    reflexivity.
Defined.

(** X16.  [friend_request_reject] by the user the request is addressed to
    deletes that request, whether or not the message can then be built,
    and touches neither friendships nor users; a request addressed to
    someone else (or none) is a 404 with the store as it is. *)
Theorem friend_request_reject_deletes_the_request request pk s user :
  request_user request s = Some user →
  (∀ fr, friend_requests s !! pk = Some fr → FriendRequest.to_user fr = User.pk user →
     ∃ out s', friend_request_reject request pk s = (out, s')
       ∧ friend_requests s' = delete pk (friend_requests s)
       ∧ friendships s' = friendships s ∧ users s' = users s)
  ∧ ((∀ fr, friend_requests s !! pk = Some fr → FriendRequest.to_user fr ≠ User.pk user) →
     friend_request_reject request pk s = (Raised Http404, s)).
Proof.
  intros Hu. split.
  - intros fr Hfr Hto.
    unfold friend_request_reject. rewrite (login_required_Some _ _ _ _ Hu).
    unfold get_object_or_404. unfold bind at 1 2, get at 1. rewrite Hfr.
    rewrite bool_decide_eq_true_2 by done.
    unfold ret at 1, Model_delete. simpl. unfold bind at 1, modify at 1.
    unfold FriendRequest_get_from_user. simpl.
    destruct (FriendRequest.from_user fr) as [a|]; [|by eexists _, _].
    unfold User_deref, bind, get, ret, raise, messages_add, modify. simpl.
    destruct (users s !! a); by eexists _, _.
  - intros Hn.
    unfold friend_request_reject. rewrite (login_required_Some _ _ _ _ Hu).
    unfold get_object_or_404. unfold bind at 1 2, get at 1.
    destruct (friend_requests s !! pk) as [fr|] eqn:Hfr; [|done].
    rewrite bool_decide_eq_false_2; [done|]. by apply Hn.
Qed.

(** X16 at a concrete input: bob rejects the request of alice. *)
Lemma friend_request_reject_witness :
  request_user (as_user 2) world_request = Some bob
  ∧ (∃ out s', friend_request_reject (as_user 2) 1 world_request = (out, s')
       ∧ friend_requests s' = delete 1 (friend_requests world_request)
       ∧ friendships s' = friendships world_request ∧ users s' = users world_request)
  ∧ friend_requests (friend_request_reject (as_user 2) 1 world_request).2 = ∅.
Proof.
  split; [reflexivity|]. split; [|vm_compute; reflexivity].
  destruct (friend_request_reject_deletes_the_request (as_user 2) 1 world_request bob)
    as [H _]; [reflexivity|].
  apply (H (FriendRequest.mk (Some 1) (Some 1) (Some 2) false)); reflexivity.
Defined.

(** X17.  [reward_add] never stores a reward and never gets to its success
    page: the store stays as it is, and the view ends in the login
    redirect, the form page, or the integrity error of a reward without
    owner. *)
Theorem reward_add_never_saves request title description points_required now s :
  ∃ out, reward_add request title description points_required now s = (out, s)
         ∧ (out = Returned (Redirect "habit:login" None)
            ∨ out = Returned (Render "habit/reward_add.html")
            ∨ out = Raised (IntegrityError "NOT NULL user_id")).
Proof.
  unfold reward_add.
  destruct (request_user request s) as [user|] eqn:Hu;
    [rewrite (login_required_Some _ _ _ _ Hu) | rewrite (login_required_None _ _ _ Hu)].
  2:{ eexists. split; [done | by left]. }
  destruct (http_method request), points_required as [p|];
    try (eexists; split; [done | by right; left]).
  destruct (_ || _).
  - eexists. split; [done | by right; left].
  - unfold bind. rewrite Reward_save_no_owner by done.
    eexists. split; [done | by right; right].
Qed.

(** X18.  [reward_claim] never changes a reward and never flashes the success
    message: the messages are as before, or have the one about missing
    points added, and then the users are as before. *)
Theorem reward_claim_never_reports_success request pk s :
  let s' := (reward_claim request pk s).2 in
  rewards s' = rewards s
  ∧ (flash s' = flash s
     ∨ flash s' = flash s ++ [(ERROR, "Not enough points to claim this reward.")]
       ∧ users s' = users s).
Proof.
  cbv zeta.
  destruct (request_user request s) as [user|] eqn:Hu.
  2:{ unfold reward_claim. rewrite (login_required_None _ _ _ Hu). simpl. auto. }
  destruct (rewards s !! pk) as [reward|] eqn:Hr.
  2:{ unfold reward_claim. rewrite (login_required_Some _ _ _ _ Hu).
      unfold get_object_or_404, bind, get. rewrite Hr. simpl. auto. }
  destruct (decide (Reward.points_required reward ≤ User.points user)%Z) as [Hle|Hgt].
  - destruct (reward_claim_affordable request pk s user reward Hu Hr Hle)
      as (e & s' & -> & Hrw & Hfl & _). simpl. auto.
  - unfold reward_claim. rewrite (login_required_Some _ _ _ _ Hu).
    unfold get_object_or_404, bind, get. rewrite Hr. simpl.
    apply Z.nle_gt, Z.leb_gt in Hgt. rewrite Hgt. simpl. auto.
Qed.

(** X19.  After [notification_mark_all_read] the user of the request has no
    unread notification, the unread count of every other user is as
    before, and each row is as before but for [is_read] on the rows of
    that user. *)
Theorem notification_mark_all_read_clears request s ns user :
  request_user request s = Some user →
  let u := the_pk (User.pk user) in
  let ns' := (notification_mark_all_read request s ns).2 in
  unread_count u ns' = 0
  ∧ (∀ v, v ≠ u → unread_count v ns' = unread_count v ns)
  ∧ (∀ k, ns' !! k =
          (λ n, if bool_decide (Notification.user n = u)
                then Notification_with_is_read true n else n) <$> ns !! k).
Proof.
  intros Hu. cbv zeta. unfold notification_mark_all_read. rewrite Hu. simpl.
  apply request_user_Some in Hu as (k0 & u0 & _ & _ & ->). simpl.
  set (f := λ n, if bool_decide (Some (Notification.user n) = Some k0)
                    && negb (Notification.is_read n)
                 then Notification_with_is_read true n else n).
  assert (∀ n, Notification.user (f n) = Notification.user n) as Hfu.
  { intros n. unfold f. by destruct (_ && _). }
  assert (∀ n, Notification.user n = k0 → Notification.is_read (f n) = true) as Hfr.
  { intros n Hn. unfold f. rewrite bool_decide_eq_true_2 by congruence. simpl.
    by destruct (Notification.is_read n) eqn:E. }
  assert (∀ n, Notification.user n ≠ k0 → f n = n) as Hfo.
  { intros n Hn. unfold f. rewrite bool_decide_eq_false_2; [done | congruence]. }
  split_and!.
  - unfold unread_count. rewrite length_objects_filter.
    apply map_size_empty_iff, map_empty_filter.
    intros k n [n0 [<- Hn0]]%lookup_fmap_Some. simpl.
    rewrite Hfu. case_bool_decide as Hk; [|done]. by rewrite (Hfr n0 Hk).
  - intros v Hv. unfold unread_count. rewrite !length_objects_filter.
    rewrite map_filter_fmap, map_size_fmap. f_equal.
    apply map_filter_ext. intros k n Hn. simpl. rewrite Hfu.
    destruct (decide (Notification.user n = k0)) as [E|E].
    + rewrite !bool_decide_eq_false_2 by congruence. done.
    + by rewrite (Hfo n E).
  - intros k. rewrite lookup_fmap. destruct (ns !! k) as [n|]; [|done]. simpl. f_equal.
    unfold f. case_bool_decide as E1; case_bool_decide as E2; simplify_eq; simpl; try done.
    destruct n as [? ? ? [] ?]; done.
Qed.

(** X19 at a concrete input: alice has one unread notification, then none;
    bob keeps his. *)
Lemma notification_mark_all_read_witness :
  request_user (as_user 1) world = Some alice
  ∧ unread_count 1 inbox = 1
  ∧ unread_count 1 (notification_mark_all_read (as_user 1) world inbox).2 = 0
  ∧ unread_count 2 (notification_mark_all_read (as_user 1) world inbox).2 = 1.
Proof.
  split; [reflexivity|]. split; [vm_compute; reflexivity|].
  destruct (notification_mark_all_read_clears (as_user 1) world inbox alice eq_refl)
    as (H0 & Hv & _).
  split; [exact H0|]. rewrite (Hv 2); [vm_compute; reflexivity | discriminate].
Defined.

(** X20.  [notification_mark_read] and [notification_delete] on a notification
    of the user of the request: the first marks that row read, the second
    removes it; every other row stays, the unread count of the user goes
    down by one when the notification was unread and stays otherwise, and
    the counts of the other users stay. *)
Theorem notification_read_or_deleted_lowers_unread request pk s ns user n :
  request_user request s = Some user →
  ns !! pk = Some n → Some (Notification.user n) = User.pk user →
  let u := Notification.user n in
  let was_unread := if Notification.is_read n then 0 else 1 in
  (∃ ns', notification_mark_read request pk s ns
          = (Returned (Redirect "habit:notifications" None), ns')
     ∧ ns' !! pk = Some (Notification.mk (Some pk) u (Notification.message n) true
                           (Notification.created_at n))
     ∧ (∀ k, k ≠ pk → ns' !! k = ns !! k)
     ∧ unread_count u ns' + was_unread = unread_count u ns
     ∧ (∀ v, v ≠ u → unread_count v ns' = unread_count v ns))
  ∧ (∃ ns', notification_delete request pk s ns
            = (Returned (Redirect "habit:notifications" None), ns')
     ∧ ns' !! pk = None
     ∧ (∀ k, k ≠ pk → ns' !! k = ns !! k)
     ∧ unread_count u ns' + was_unread = unread_count u ns
     ∧ (∀ v, v ≠ u → unread_count v ns' = unread_count v ns)).
Proof.
  intros Hu Hn Ho. cbv zeta. split.
  - unfold notification_mark_read.
    rewrite Hu, (Notification_get_or_404_own user pk ns n Hn Ho).
    eexists. split; [reflexivity|]. split_and!.
    + by rewrite lookup_insert_eq.
    + intros k Hk. by rewrite lookup_insert_ne.
    + unfold unread_count.
      pose proof (length_objects_filter_insert
        (λ n0, bool_decide (Notification.user n0 = Notification.user n)
               && negb (Notification.is_read n0)) ns pk n
        (Notification_with_is_read true (Notification_with_pk pk n)) Hn) as H.
      simpl in H. rewrite andb_false_r in H.
      rewrite bool_decide_eq_true_2 in H by done. simpl in H.
      destruct (Notification.is_read n); simpl in *; lia.
    + intros v Hv. unfold unread_count.
      pose proof (length_objects_filter_insert
        (λ n0, bool_decide (Notification.user n0 = v)
               && negb (Notification.is_read n0)) ns pk n
        (Notification_with_is_read true (Notification_with_pk pk n)) Hn) as H.
      simpl in H. rewrite !bool_decide_eq_false_2 in H by done. simpl in H. lia.
  - unfold notification_delete.
    rewrite Hu, (Notification_get_or_404_own user pk ns n Hn Ho).
    eexists. split; [reflexivity|]. split_and!.
    + by rewrite lookup_delete_eq.
    + intros k Hk. by rewrite lookup_delete_ne.
    + unfold unread_count.
      pose proof (length_objects_filter_delete
        (λ n0, bool_decide (Notification.user n0 = Notification.user n)
               && negb (Notification.is_read n0)) ns pk n Hn) as H.
      simpl in H. rewrite bool_decide_eq_true_2 in H by done. simpl in H.
      destruct (Notification.is_read n); simpl in *; lia.
    + intros v Hv. unfold unread_count.
      pose proof (length_objects_filter_delete
        (λ n0, bool_decide (Notification.user n0 = v)
               && negb (Notification.is_read n0)) ns pk n Hn) as H.
      simpl in H. rewrite !bool_decide_eq_false_2 in H by done. simpl in H. lia.
Qed.

(** X20 at a concrete input: alice reads, or deletes, her unread
    notification. *)
Lemma notification_read_or_deleted_witness :
  request_user (as_user 1) world = Some alice
  ∧ unread_count 1 inbox = 1
  ∧ unread_count 1 (notification_mark_read (as_user 1) 2 world inbox).2 = 0
  ∧ unread_count 1 (notification_delete (as_user 1) 2 world inbox).2 = 0.
Proof.
  split; [reflexivity|]. split; [vm_compute; reflexivity|].
  destruct (notification_read_or_deleted_lowers_unread (as_user 1) 2 world inbox alice
              (Notification.mk (Some 2) 1 "Streak: 3 days" false 20))
    as [(ns1 & E1 & _ & _ & H1 & _) (ns2 & E2 & _ & _ & H2 & _)];
    [reflexivity..|].
  rewrite E1, E2. simpl in *.
  assert (unread_count 1 inbox = 1) as Hc by (vm_compute; reflexivity).
  rewrite Hc in H1, H2. split; lia.
Defined.

(** X21.  A notification of someone else (or none) is a 404 in
    [notification_mark_read] and [notification_delete], and the
    notifications stay as they are. *)
Theorem notification_views_refuse_foreign request pk s ns user :
  request_user request s = Some user →
  (∀ n, ns !! pk = Some n → Some (Notification.user n) ≠ User.pk user) →
  notification_mark_read request pk s ns = (Raised Http404, ns)
  ∧ notification_delete request pk s ns = (Raised Http404, ns).
Proof.
  intros Hu Hn. unfold notification_mark_read, notification_delete.
  by rewrite Hu, (Notification_get_or_404_foreign user pk ns Hn).
Qed.

(** X21 at a concrete input: alice cannot touch the notification of bob. *)
Lemma notification_views_refuse_foreign_witness :
  request_user (as_user 1) world = Some alice
  ∧ notification_mark_read (as_user 1) 3 world inbox = (Raised Http404, inbox)
  ∧ notification_delete (as_user 1) 3 world inbox = (Raised Http404, inbox).
Proof.
  split; [reflexivity|].
  apply (notification_views_refuse_foreign (as_user 1) 3 world inbox alice); [reflexivity|].
  intros n Hn. vm_compute in Hn. injection Hn as <-. discriminate.
Defined.

(** X22.  Whatever [challenge_create] returns or raises, store and challenges
    are as before, or one challenge was added under a fresh key: created
    by the user of the request, with the posted name (not blank, at most
    100 characters) and dates that run from today or later to a strictly
    later day; the store then differs in the flashed message alone. *)
Theorem challenge_create_saves_valid_challenges request today data s cs out s' cs' :
  challenge_create request today data s cs = (out, s', cs') →
  (s' = s ∧ cs' = cs)
  ∨ ∃ user b e k,
      request_user request s = Some user ∧ http_method request = POST
      ∧ post_challenge_start data = Some b ∧ post_challenge_end data = Some e
      ∧ (today ≤ b < e)%Z
      ∧ post_challenge_name data ≠ ""
      ∧ len (post_challenge_name data) ≤ 100
      ∧ has_null (post_challenge_name data) = false
      ∧ has_null (post_description data) = false
      ∧ out = Returned (Redirect "habit:challenge_list" None)
      ∧ cs !! k = None
      ∧ cs' = <[k := Challenge.mk (Some k) (post_challenge_name data)
                       (post_description data) (Some b) (Some e) (User.pk user)]> cs
      ∧ s' = set_flash (λ ms, ms ++ [(SUCCESS, "Challenge created successfully!")]) s.
Proof.
  unfold challenge_create.
  destruct (request_user request s) as [user|] eqn:Hu; [|intros [= _ <- <-]; by left].
  destruct (http_method request) eqn:Hm; [intros [= _ <- <-]; by left|].
  destruct (ChallengeForm_is_valid today data) as [[c|]|e] eqn:Ef;
    [|intros [= _ <- <-]; by left..].
  apply ChallengeForm_is_valid_Some in Ef
    as (b & e & Hb & He & Hr & Hn & Hl & Hzn & Hzd & ->).
  simpl. intros [= <- <- <-]. right. exists user, b, e, (next_pk cs).
  split_and!; try done; try lia. apply next_pk_fresh.
Qed.

(** X22 at a concrete input: alice creates a challenge of 30 days. *)
Lemma challenge_create_saves_valid_challenges_witness :
  challenge_create (as_user 1) 100 (mkChallengePost "30 days" "" (Some 100%Z) (Some 130%Z))
    world ∅
  = (Returned (Redirect "habit:challenge_list" None),
     set_flash (λ ms, ms ++ [(SUCCESS, "Challenge created successfully!")]) world,
     {[ 1 := Challenge.mk (Some 1) "30 days" "" (Some 100%Z) (Some 130%Z) (Some 1) ]})
  ∧ ∃ user b e k,
      request_user (as_user 1) world = Some user ∧ (100 ≤ b < e)%Z
      ∧ ({[ 1 := Challenge.mk (Some 1) "30 days" "" (Some 100%Z) (Some 130%Z) (Some 1) ]}
           : gmap nat Challenge.t)
        = <[k := Challenge.mk (Some k) "30 days" "" (Some b) (Some e) (User.pk user)]> ∅.
Proof.
  assert (challenge_create (as_user 1) 100
            (mkChallengePost "30 days" "" (Some 100%Z) (Some 130%Z)) world ∅
  = (Returned (Redirect "habit:challenge_list" None),
     set_flash (λ ms, ms ++ [(SUCCESS, "Challenge created successfully!")]) world,
     {[ 1 := Challenge.mk (Some 1) "30 days" "" (Some 100%Z) (Some 130%Z) (Some 1) ]}))
    as E by (vm_compute; reflexivity).
  split; [exact E|].
  destruct (challenge_create_saves_valid_challenges _ _ _ _ _ _ _ _ E)
    as [[Hs _] | (user & b & e & k & Hu & _ & _ & _ & Hr & _ & _ & _ & _ & _ & _ & Hcs & _)].
  - vm_compute in Hs. discriminate.
  - exists user, b, e, k. split_and!; [exact Hu | apply Hr | apply Hr | exact Hcs].
Defined.

(** X23.  A POST to [challenge_create] by a user who is logged in, with a name
    that is not blank and has at most 100 characters, texts free of null
    characters and dates with today <= start < end, is saved under a
    key that was free, with that user as creator. *)
Theorem challenge_create_valid_post_is_saved request today data s cs user b e :
  request_user request s = Some user → http_method request = POST →
  post_challenge_start data = Some b → post_challenge_end data = Some e →
  (today ≤ b < e)%Z →
  post_challenge_name data ≠ "" → len (post_challenge_name data) ≤ 100 →
  has_null (post_challenge_name data) = false → has_null (post_description data) = false →
  ∃ k, cs !! k = None
       ∧ challenge_create request today data s cs
         = (Returned (Redirect "habit:challenge_list" None),
            set_flash (λ ms, ms ++ [(SUCCESS, "Challenge created successfully!")]) s,
            <[k := Challenge.mk (Some k) (post_challenge_name data)
                     (post_description data) (Some b) (Some e) (User.pk user)]> cs).
Proof.
  intros Hu Hm Hb He Hr Hn Hl Hzn Hzd. exists (next_pk cs). split; [apply next_pk_fresh|].
  unfold challenge_create. rewrite Hu, Hm.
  assert (ChallengeForm_is_valid today data
          = Returned (Some (Challenge.mk None (post_challenge_name data)
                              (post_description data) (Some b) (Some e) None))) as ->; [|done].
  apply ChallengeForm_is_valid_Some. exists b, e. done.
Qed.

(** X23 at a concrete input: the challenge of alice again, from its
    conditions. *)
Lemma challenge_create_valid_post_witness :
  ∃ k, (∅ : gmap nat Challenge.t) !! k = None
       ∧ challenge_create (as_user 1) 100
           (mkChallengePost "30 days" "" (Some 100%Z) (Some 130%Z)) world ∅
         = (Returned (Redirect "habit:challenge_list" None),
            set_flash (λ ms, ms ++ [(SUCCESS, "Challenge created successfully!")]) world,
            <[k := Challenge.mk (Some k) "30 days" "" (Some 100%Z) (Some 130%Z) (Some 1)]> ∅).
Proof.
  apply (challenge_create_valid_post_is_saved (as_user 1) 100
           (mkChallengePost "30 days" "" (Some 100%Z) (Some 130%Z)) world ∅ alice 100 130);
    first [reflexivity | discriminate | simpl; lia].
Defined.

(** X24.  A POST to [challenge_create] with a date that is missing (or does
    not parse) is not answered with the form and its errors:
    [Challenge.clean] compares the two dates unguarded and raises
    [TypeError]; nothing is stored. *)
Theorem challenge_create_missing_date_raises request today data s cs user :
  request_user request s = Some user → http_method request = POST →
  post_challenge_start data = None ∨ post_challenge_end data = None →
  challenge_create request today data s cs = (Raised TypeError, s, cs).
Proof.
  intros Hu Hm Hd. unfold challenge_create. rewrite Hu, Hm.
  assert (ChallengeForm_is_valid today data = Raised TypeError) as ->; [|done].
  unfold ChallengeForm_is_valid, Challenge_clean. simpl.
  destruct Hd as [-> | ->]; [|destruct (post_challenge_end data)]; try done.
  by destruct (post_challenge_end data).
Qed.

(** X24 at a concrete input: a challenge without an end date. *)
Lemma challenge_create_missing_date_witness :
  challenge_create (as_user 1) 100 (mkChallengePost "30 days" "" (Some 100%Z) None) world ∅
  = (Raised TypeError, world, ∅).
Proof.
  apply (challenge_create_missing_date_raises (as_user 1) 100
           (mkChallengePost "30 days" "" (Some 100%Z) None) world ∅ alice);
    [reflexivity | reflexivity | by right].
Defined.
